(** * jusawi: the cache-backed, debounced analysis scheduler

    A shallow embedding of [utils/cache_manager.py] (class [CacheManager]),
    of the error path of [utils/ai_analyzer.py] ([analyze_image]) and of the
    scheduling part of [gui/photo_viewer.py] (class [PhotoViewer]:
    [load_image], [_schedule_smart_analysis], [_delayed_analysis_start],
    [_auto_ai_analysis], [analyze_with_ai], [_force_ai_analysis]).

    Conventions.
    - A Python [str] is a Rocq [string]: the bytes of
      [s.encode('utf-8', 'surrogatepass')].  Text is carried by its UTF-8
      bytes, and a lone surrogate (such as [os.listdir] and [Path.iterdir]
      produce for a file name that is not UTF-8, or [json.load] for an
      unpaired escape) by the three bytes [ED A0..BF 80..BF], which
      are not well-formed UTF-8.  [str.encode()] is [str_encode]: it returns
      the bytes when they are well-formed UTF-8 and raises otherwise.
    - A Python call that may raise is a value of [outcome]; [try]/[except
      Exception] is [try_except].
    - [dict]s keyed by fingerprint are [gmap string _]; JSON objects inside a
      value keep their insertion order as association lists.
    - What the program does to the world (the cache file, the widgets, the
      analysis service) is recorded in explicit state: the content of the
      cache file, the list of widget commands, the list of analyzer calls. *)

From Stdlib Require Import ZArith List Ascii String DecimalString Lia Bool.
From stdpp Require Import base option gmap strings list fin_maps.

Local Open Scope Z_scope.
Local Open Scope string_scope.

#[local] Set Warnings "-register-all".

(* ===================================================================== *)
(** ** hashlib.md5

    [_get_file_hash] calls [hashlib.md5(hash_input.encode()).hexdigest()].
    The digest is RFC 1321's: 32-bit words are [Z] reduced modulo [2^32]. *)
(* ===================================================================== *)

Module MD5.

Local Open Scope Z_scope.

Definition w32 (x : Z) : Z := x mod 4294967296.
Definition add32 (x y : Z) : Z := w32 (x + y).
Definition not32 (x : Z) : Z := 4294967295 - x.
Definition rotl32 (x n : Z) : Z :=
  Z.lor (w32 (Z.shiftl x n)) (Z.shiftr x (32 - n)).

(** Per-round left-rotation amounts. *)
Definition shifts : list Z :=
  [7; 12; 17; 22; 7; 12; 17; 22; 7; 12; 17; 22; 7; 12; 17; 22;
   5;  9; 14; 20; 5;  9; 14; 20; 5;  9; 14; 20; 5;  9; 14; 20;
   4; 11; 16; 23; 4; 11; 16; 23; 4; 11; 16; 23; 4; 11; 16; 23;
   6; 10; 15; 21; 6; 10; 15; 21; 6; 10; 15; 21; 6; 10; 15; 21].

(** [floor (2^32 * abs (sin (i + 1)))] for [i = 0 .. 63]. *)
Definition sines : list Z :=
  [3614090360; 3905402710; 606105819; 3250441966;
   4118548399; 1200080426; 2821735955; 4249261313;
   1770035416; 2336552879; 4294925233; 2304563134;
   1804603682; 4254626195; 2792965006; 1236535329;
   4129170786; 3225465664; 643717713; 3921069994;
   3593408605; 38016083; 3634488961; 3889429448;
   568446438; 3275163606; 4107603335; 1163531501;
   2850285829; 4243563512; 1735328473; 2368359562;
   4294588738; 2272392833; 1839030562; 4259657740;
   2763975236; 1272893353; 4139469664; 3200236656;
   681279174; 3936430074; 3572445317; 76029189;
   3654602809; 3873151461; 530742520; 3299628645;
   4096336452; 1126891415; 2878612391; 4237533241;
   1700485571; 2399980690; 4293915773; 2240044497;
   1873313359; 4264355552; 2734768916; 1309151649;
   4149444226; 3174756917; 718787259; 3951481745].

Definition bytes_of_string (s : string) : list Z :=
  map (fun c => Z.of_N (N_of_ascii c)) (list_ascii_of_string s).

(** The 64-bit little-endian length field. *)
Fixpoint le_bytes (n : nat) (x : Z) : list Z :=
  match n with
  | O => []
  | S n' => (x mod 256) :: le_bytes n' (x / 256)
  end.

(** Message padding: 0x80, zeros up to 56 mod 64, then the bit length. *)
Definition pad (msg : list Z) : list Z :=
  let len := Z.of_nat (length msg) in
  let zeros := Z.to_nat ((55 - len) mod 64) in
  msg ++ [128] ++ repeat 0 zeros ++ le_bytes 8 (8 * len).

Fixpoint le_words (n : nat) (bs : list Z) : list Z :=
  match n with
  | O => []
  | S n' =>
      match bs with
      | b0 :: b1 :: b2 :: b3 :: rest =>
          (b0 + 256 * b1 + 65536 * b2 + 16777216 * b3) :: le_words n' rest
      | _ => []
      end
  end.

Definition digest_state : Type := Z * Z * Z * Z.

Definition initial : digest_state :=
  (1732584193, 4023233417, 2562383102, 271733878).

Definition round (M : list Z) (st : digest_state) (i : nat) : digest_state :=
  let '(A, B, C, D) := st in
  let zi := Z.of_nat i in
  let '(F, g) :=
    if zi <? 16 then (Z.lor (Z.land B C) (Z.land (not32 B) D), zi)
    else if zi <? 32 then
      (Z.lor (Z.land D B) (Z.land (not32 D) C), (5 * zi + 1) mod 16)
    else if zi <? 48 then (Z.lxor B (Z.lxor C D), (3 * zi + 5) mod 16)
    else (Z.lxor C (Z.lor B (not32 D)), (7 * zi) mod 16) in
  let F' := add32 (add32 (add32 F A) (nth i sines 0)) (nth (Z.to_nat g) M 0) in
  (D, add32 B (rotl32 F' (nth i shifts 0)), B, C).

Definition compress (st : digest_state) (M : list Z) : digest_state :=
  let '(a0, b0, c0, d0) := st in
  let '(A, B, C, D) := fold_left (round M) (seq 0 64) st in
  (add32 a0 A, add32 b0 B, add32 c0 C, add32 d0 D).

Fixpoint blocks (fuel : nat) (bs : list Z) (st : digest_state) : digest_state :=
  match fuel with
  | O => st
  | S fuel' =>
      match bs with
      | [] => st
      | _ => blocks fuel' (skipn 64 bs) (compress st (le_words 16 (firstn 64 bs)))
      end
  end.

Definition digest (msg : list Z) : digest_state :=
  let padded := pad msg in
  blocks (length padded) padded initial.

Definition hex_digit (d : Z) : ascii :=
  if d <? 10 then ascii_of_N (Z.to_N (48 + d)) else ascii_of_N (Z.to_N (87 + d)).

Definition hex_byte (b : Z) (rest : string) : string :=
  String (hex_digit (b / 16)) (String (hex_digit (b mod 16)) rest).

Definition hex_word (x : Z) (rest : string) : string :=
  hex_byte (x mod 256)
    (hex_byte ((x / 256) mod 256)
       (hex_byte ((x / 65536) mod 256)
          (hex_byte ((x / 16777216) mod 256) rest))).

Definition hexdigest (s : string) : string :=
  let '(a, b, c, d) := digest (bytes_of_string s) in
  hex_word a (hex_word b (hex_word c (hex_word d EmptyString))).

End MD5.

(* ===================================================================== *)
(** ** Python values, exceptions, os.path, os.stat                         *)
(* ===================================================================== *)

(** The values [json.load] yields and [json.dump] accepts.  A [float] is
    carried by the text [str()] gives for it: the program only formats and
    stores floats. *)
Inductive pyval : Type :=
| PNone
| PBool (b : bool)
| PInt (n : Z)
| PFloat (repr : string)
| PStr (s : string)
| PList (l : list pyval)
| PDict (d : list (string * pyval)).

(** Truth value of an object, as [if x:] tests it. *)
Definition truthy (v : pyval) : bool :=
  match v with
  | PNone => false
  | PBool b => b
  | PInt n => negb (n =? 0)%Z
  | PFloat r => negb (String.eqb r "0.0" || String.eqb r "-0.0")
  | PStr s => negb (String.eqb s "")
  | PList l => match l with [] => false | _ => true end
  | PDict d => match d with [] => false | _ => true end
  end.

Inductive exn_class : Type :=
| OSError | TypeError | ValueError | AttributeError | JSONDecodeError
| UnicodeEncodeError | OtherError.

(** An exception instance: its class and [str(e)]. *)
Record exn : Type := Exn { exn_cls : exn_class; exn_str : string }.

Inductive outcome (A : Type) : Type :=
| Ret (a : A)
| Raise (e : exn).
Arguments Ret {A} a.
Arguments Raise {A} e.

#[global] Instance outcome_ret : MRet outcome := fun A a => Ret a.

#[global] Instance outcome_bind : MBind outcome := fun A B k m =>
  match m with
  | Ret a => k a
  | Raise e => Raise e
  end.

(** [try: body  except Exception as e: handler e]. *)
Definition try_except {A : Type} (body : outcome A) (handler : exn -> outcome A)
  : outcome A :=
  match body with
  | Ret a => Ret a
  | Raise e => handler e
  end.

(** *** str.encode() and writing text as UTF-8

    The UTF-8 codec is strict: it produces well-formed UTF-8 only (no
    surrogate, nothing above U+10FFFF, the shortest form of each code
    point).  [utf8 s] tells whether the bytes that carry a [str] are
    well-formed, byte sequence by byte sequence; they are not exactly when
    the [str] holds a lone surrogate. *)
Definition byte_in (lo hi : N) (c : ascii) : bool :=
  ((lo <=? N_of_ascii c) && (N_of_ascii c <=? hi))%N.

(** A continuation byte, [80..BF]. *)
Definition continuation (c : ascii) : bool := byte_in 128 191 c.

(** The first two bytes of a three-byte sequence: [E0 A0..BF], [E1..EC
    80..BF], [ED 80..9F] (above that are the surrogates), [EE..EF 80..BF]. *)
Definition three_bytes (c0 c1 : ascii) : bool :=
  byte_in 224 224 c0 && byte_in 160 191 c1
  || byte_in 225 236 c0 && continuation c1
  || byte_in 237 237 c0 && byte_in 128 159 c1
  || byte_in 238 239 c0 && continuation c1.

(** The first two bytes of a four-byte sequence: [F0 90..BF], [F1..F3
    80..BF], [F4 80..8F]. *)
Definition four_bytes (c0 c1 : ascii) : bool :=
  byte_in 240 240 c0 && byte_in 144 191 c1
  || byte_in 241 243 c0 && continuation c1
  || byte_in 244 244 c0 && byte_in 128 143 c1.

Fixpoint utf8 (s : string) : bool :=
  match s with
  | EmptyString => true
  | String c0 rest =>
      if byte_in 0 127 c0 then utf8 rest
      else
        match rest with
        | EmptyString => false
        | String c1 rest1 =>
            if byte_in 194 223 c0 then continuation c1 && utf8 rest1
            else
              match rest1 with
              | EmptyString => false
              | String c2 rest2 =>
                  if three_bytes c0 c1 then continuation c2 && utf8 rest2
                  else
                    match rest2 with
                    | EmptyString => false
                    | String c3 rest3 =>
                        four_bytes c0 c1 && continuation c2 && continuation c3
                        && utf8 rest3
                    end
              end
        end
  end.

(** [s.encode()]: the bytes of [s], or [UnicodeEncodeError]. *)
Definition str_encode (s : string) : outcome string :=
  if utf8 s then Ret s
  else Raise (Exn UnicodeEncodeError
                "'utf-8' codec can't encode character: surrogates not allowed").

(** Whether [json.dump(v, f, ensure_ascii=False)] can write [v] into a file
    opened with [encoding='utf-8']: the strings are written as they are, and
    the file's encoder raises on the first one it cannot encode. *)
Fixpoint json_writable (v : pyval) : bool :=
  match v with
  | PStr s => utf8 s
  | PList l => forallb json_writable l
  | PDict d => forallb (fun '(k, x) => utf8 k && json_writable x) d
  | _ => true
  end.

(** [d.get(key)] on an object: only a [dict] has the method. *)
Fixpoint assoc (key : string) (d : list (string * pyval)) : option pyval :=
  match d with
  | [] => None
  | (k, v) :: rest => if String.eqb key k then Some v else assoc key rest
  end.

Definition py_get (v : pyval) (key : string) : outcome pyval :=
  match v with
  | PDict d => Ret (default PNone (assoc key d))
  | _ => Raise (Exn AttributeError "object has no attribute 'get'")
  end.

(** [os.path.basename] (posixpath): the text after the last slash. *)
Fixpoint basename_from (cur p : string) : string :=
  match p with
  | EmptyString => cur
  | String c rest =>
      if Ascii.eqb c "/"%char then basename_from rest rest
      else basename_from cur rest
  end.

Definition basename (p : string) : string := basename_from p p.

(** The two fields of [os.stat_result] the program reads.  [st_mtime] is a
    float; it is used only through the f-string, so it is carried by that
    text. *)
Record stat_result : Type := { st_size : N; st_mtime : string }.

(** The file system as [os.stat] sees it: a path string that is not a key
    makes [os.stat] raise. Two spellings of one file are two keys with one
    [stat_result]. *)
Definition os_stat (fs : gmap string stat_result) (file_path : string)
  : outcome stat_result :=
  match fs !! file_path with
  | Some st => Ret st
  | None => Raise (Exn OSError "[Errno 2] No such file or directory")
  end.

(** [f"{n}"] for an [int]. *)
Definition str_of_N (n : N) : string := NilZero.string_of_uint (N.to_uint n).

(* ===================================================================== *)
(** ** utils/cache_manager.py                                              *)
(* ===================================================================== *)

(** A cache file on disk, as [open] and [json.load] see it: either they
    raise, or [json.load] returns a JSON object.  (A file whose top-level
    JSON value is not an object is outside this model.) *)
Inductive file_content : Type :=
| Undeserialisable (e : exn)
| JsonObject (data : gmap string pyval).

(** What [_save_cache] and [clear_cache] did to the cache file:
    [Dumped]: the map was written; [DumpAborted]: the file was opened and
    [json.dump] raised part-way; [DumpFailed]: [open] raised. *)
Inductive io_event : Type :=
| Dumped (snapshot : gmap string pyval)
| DumpAborted
| DumpFailed
| Unlinked.

(** The object's [memory_cache], and behind [self.cache_file] the file
    itself: its content if it exists, whether [open(_, 'w')] succeeds, and
    the writes made so far. *)
Record CacheManager : Type := mkCache {
  memory_cache : gmap string pyval;
  cache_file : option file_content;
  cache_file_writable : bool;
  cache_io : list io_event
}.

Definition set_memory_cache (m : gmap string pyval) (cm : CacheManager) :=
  mkCache m (cache_file cm) (cache_file_writable cm) (cache_io cm).

(** [_load_cache]. [dict.update] lets the loaded entries win. *)
Definition _load_cache (cm : CacheManager) : CacheManager :=
  let body :=
    match cache_file cm with
    | Some content =>
        cache_data ← (match content with
                       | Undeserialisable e => Raise e
                       | JsonObject data => Ret data
                       end);
        Ret (set_memory_cache (cache_data ∪ memory_cache cm) cm)
    | None => Ret cm
    end in
  match body with
  | Ret cm' => cm'
  | Raise _ => set_memory_cache ∅ cm
  end.

(** [__init__]: [mkdir(exist_ok=True)] is outside the [try] and may raise;
    [dir_error] is the exception it raises, if any. *)
Definition __init__ (dir_error : option exn) (file : option file_content)
    (writable : bool) : outcome CacheManager :=
  match dir_error with
  | Some e => Raise e
  | None => Ret (_load_cache (mkCache ∅ file writable []))
  end.

(** Whether [json.dump] can write the whole map: every fingerprint and
    every string of every entry has a UTF-8 encoding. *)
Definition json_dumpable (m : gmap string pyval) : bool :=
  bool_decide (map_Forall (fun k v => utf8 k = true ∧ json_writable v = true) m).

(** What is left of the cache file when [json.dump] raised part-way:
    [open] has emptied the file and at most the beginning of the text was
    written, an object that is not closed, so that [json.load] raises
    [JSONDecodeError] on it (with a message that depends on where the text
    breaks off; the program only logs it). *)
Definition truncated_dump : file_content :=
  Undeserialisable (Exn JSONDecodeError "Expecting value").

(** [_save_cache]: what [open(_, 'w')] or [json.dump] raise is caught and
    logged.  [open] empties the file; the map holds JSON values only, so
    [json.dump] writes all of it unless a string cannot be encoded. *)
Definition _save_cache (cm : CacheManager) : CacheManager :=
  if cache_file_writable cm then
    if json_dumpable (memory_cache cm) then
      mkCache (memory_cache cm) (Some (JsonObject (memory_cache cm)))
              (cache_file_writable cm)
              (cache_io cm ++ [Dumped (memory_cache cm)])
    else
      mkCache (memory_cache cm) (Some truncated_dump)
              (cache_file_writable cm)
              (cache_io cm ++ [DumpAborted])
  else
    mkCache (memory_cache cm) (cache_file cm) (cache_file_writable cm)
            (cache_io cm ++ [DumpFailed]).

Definition hash_input (file_path : string) (st : stat_result) : string :=
  file_path ++ "_" ++ str_of_N (st_size st) ++ "_" ++ st_mtime st.

(** [_get_file_hash]: a digest, or [None] when anything was raised, by
    [os.stat] or by [hash_input.encode()]. *)
Definition _get_file_hash (fs : gmap string stat_result) (file_path : string)
  : outcome (option string) :=
  try_except
    (st ← os_stat fs file_path;
     data ← str_encode (hash_input file_path st);
     Ret (Some (MD5.hexdigest data)))
    (fun _ => Ret None).

(** [not file_hash]: [None] and the empty string are false. *)
Definition usable_hash (file_hash : option string) : option string :=
  match file_hash with
  | Some h => if String.eqb h "" then None else Some h
  | None => None
  end.

(** [get_cached_result]; Python's [None] is [PNone]. *)
Definition get_cached_result (fs : gmap string stat_result) (cm : CacheManager)
    (file_path : string) : outcome pyval :=
  file_hash ← _get_file_hash fs file_path;
  match usable_hash file_hash with
  | None => Ret PNone
  | Some h =>
      match memory_cache cm !! h with
      | Some cached_data => py_get cached_data "result"
      | None => Ret PNone
      end
  end.

Definition cache_entry (file_path : string) (result : pyval) (timestamp : string)
  : pyval :=
  PDict [("file_path", PStr file_path);
         ("file_name", PStr (basename file_path));
         ("result", result);
         ("timestamp", PStr timestamp);
         ("version", PStr "1.0")].

(** [save_result]; [timestamp] is [datetime.now().isoformat()]. *)
Definition save_result (fs : gmap string stat_result) (timestamp : string)
    (cm : CacheManager) (file_path : string) (result : pyval)
  : outcome CacheManager :=
  file_hash ← _get_file_hash fs file_path;
  match usable_hash file_hash with
  | None => Ret cm
  | Some h =>
      let cm1 :=
        set_memory_cache
          (<[h := cache_entry file_path result timestamp]> (memory_cache cm)) cm in
      if (Z.of_nat (size (memory_cache cm1)) mod 10 =? 0)%Z
      then Ret (_save_cache cm1)
      else Ret cm1
  end.

(** [clear_cache]: [unlink] is not guarded and raises on a file that cannot
    be removed. *)
Definition clear_cache (cm : CacheManager) : CacheManager * outcome unit :=
  let cm1 := set_memory_cache ∅ cm in
  match cache_file cm1 with
  | Some _ =>
      if cache_file_writable cm1 then
        (mkCache ∅ None (cache_file_writable cm1) (cache_io cm1 ++ [Unlinked]),
         Ret tt)
      else (cm1, Raise (Exn OSError "[Errno 13] Permission denied"))
  | None => (cm1, Ret tt)
  end.

(** [__del__]. *)
Definition __del__ (cm : CacheManager) : CacheManager := _save_cache cm.

(* ===================================================================== *)
(** ** utils/ai_analyzer.py                                                *)
(* ===================================================================== *)

(** [analyze_image]: [attempt] is what the body of its [try] does (encode
    the image, call the service, parse the reply): return a result or
    raise.  The [except Exception] clause turns a raise into a result. *)
Definition error_result (e : exn) : pyval :=
  PDict [("hashtags", PList []);
         ("camera_settings", PDict []);
         ("location", PDict []);
         ("error", PStr (exn_str e))].

Definition analyze_image (attempt : outcome pyval) : outcome pyval :=
  try_except attempt (fun e => Ret (error_result e)).

(* ===================================================================== *)
(** ** gui/photo_viewer.py: the scheduling part of PhotoViewer             *)
(* ===================================================================== *)

(** The files as the viewer sees them: [os.stat] on a path, and what
    [Image.open] and [ExifReader.read_exif] make of it ([images !! p = None]:
    [Image.open] raises; [Some e]: it opens and [read_exif] returns [e]). *)
Record world : Type := {
  fs : gmap string stat_result;
  images : gmap string (option (list (string * pyval)))
}.

(** [read_exif] catches everything and then returns [None]. *)
Definition read_exif (w : world) (image_path : option string)
  : option (list (string * pyval)) :=
  match image_path with
  | Some p => default None (images w !! p)
  | None => None
  end.

Definition has_tag (tag : string) (d : list (string * pyval)) : bool :=
  existsb (fun kv => String.eqb tag (fst kv)) d.

(** [bool(exif_data and any(tag in exif_data for tag in [...]))]. *)
Definition has_exif_of (exif_data : option (list (string * pyval))) : bool :=
  match exif_data with
  | Some ((_ :: _) as d) =>
      has_tag "ExposureTime" d || has_tag "FNumber" d || has_tag "ISO" d
  | _ => false
  end.

(** [bool(exif_data and 'GPSInfo' in exif_data)]. *)
Definition has_location_of (exif_data : option (list (string * pyval))) : bool :=
  match exif_data with
  | Some ((_ :: _) as d) => has_tag "GPSInfo" d
  | _ => false
  end.

Inductive status : Type :=
| StExifShown | StLoaded (p : string) | StCacheShown
| StAnalyzing | StAnalysisDone | StAnalysisFailed.

(** What the viewer tells the widgets; the text it renders is not modelled. *)
Inductive ui_cmd : Type :=
| UiImmediateReset
| UiShowImage (file_path : string)
| UiResetInfoLabels (exif_data : option (list (string * pyval)))
    (has_exif has_location : bool)
| UiSetNoApiInfo (has_exif has_location : bool)
| UiAnalysisPending
| UiManualAnalysisStarted
| UiUpdateInfoLabels (ai_result : pyval)
    (exif_data : option (list (string * pyval)))
| UiDisplayAiResults (result : pyval)
| UiSetErrorInfo (error_message : string)
| UiStatus (st : status)
| UiShowError (e : exn).

(** The callbacks handed to [root.after]. *)
Inductive callback : Type :=
| CbDelayedAnalysisStart (file_path : string)
| CbUpdateInfoLabels (ai_result : pyval)
    (exif_data : option (list (string * pyval))) (analysis_target : option string)
| CbDisplayAiResults (result : pyval)
| CbSetErrorInfo (error_message : string).

Record after_entry : Type := {
  after_id : nat;
  due : Z;
  after_cb : callback
}.

Inductive thread_kind : Type := AutoAnalysis | ForceAnalysis.

(** A worker thread: started and not yet running, or inside
    [analyze_image] with its local variables. *)
Inductive thread_state : Type :=
| Spawned (k : thread_kind)
| InAnalyzer (k : thread_kind) (analysis_target : option string)
    (exif_data : option (list (string * pyval))).

(** The fields of [PhotoViewer] the scheduler uses, the Tk event loop
    ([tk_after]: the pending [after] callbacks, times in milliseconds), the
    worker threads, and the record of what was done: [ui], [analyzer_calls]
    ([analyze_image] calls with their arguments) and [timers_fired]
    ([_delayed_analysis_start] calls). [analysis_delay_ms] is
    [int(self.analysis_delay * 1000)]. *)
Record PhotoViewer : Type := mkViewer {
  has_api_key : bool;
  ai_analyzer : bool;
  current_image_path : option string;
  analyzing_image_path : option string;
  analysis_timer : option nat;
  analysis_delay_ms : Z;
  cache_manager : CacheManager;
  tk_after : list after_entry;
  next_after_id : nat;
  threads : gmap nat thread_state;
  next_thread : nat;
  ui : list ui_cmd;
  analyzer_calls : list (option string * bool * bool);
  timers_fired : list string;
  clock : Z
}.

Definition set_current (x : option string) (s : PhotoViewer) : PhotoViewer :=
  mkViewer (has_api_key s) (ai_analyzer s) x (analyzing_image_path s)
    (analysis_timer s) (analysis_delay_ms s) (cache_manager s) (tk_after s)
    (next_after_id s) (threads s) (next_thread s) (ui s) (analyzer_calls s)
    (timers_fired s) (clock s).

Definition set_analyzing (x : option string) (s : PhotoViewer) : PhotoViewer :=
  mkViewer (has_api_key s) (ai_analyzer s) (current_image_path s) x
    (analysis_timer s) (analysis_delay_ms s) (cache_manager s) (tk_after s)
    (next_after_id s) (threads s) (next_thread s) (ui s) (analyzer_calls s)
    (timers_fired s) (clock s).

Definition set_timer (x : option nat) (s : PhotoViewer) : PhotoViewer :=
  mkViewer (has_api_key s) (ai_analyzer s) (current_image_path s)
    (analyzing_image_path s) x (analysis_delay_ms s) (cache_manager s)
    (tk_after s) (next_after_id s) (threads s) (next_thread s) (ui s)
    (analyzer_calls s) (timers_fired s) (clock s).

Definition set_delay (x : Z) (s : PhotoViewer) : PhotoViewer :=
  mkViewer (has_api_key s) (ai_analyzer s) (current_image_path s)
    (analyzing_image_path s) (analysis_timer s) x (cache_manager s)
    (tk_after s) (next_after_id s) (threads s) (next_thread s) (ui s)
    (analyzer_calls s) (timers_fired s) (clock s).

Definition set_cache (x : CacheManager) (s : PhotoViewer) : PhotoViewer :=
  mkViewer (has_api_key s) (ai_analyzer s) (current_image_path s)
    (analyzing_image_path s) (analysis_timer s) (analysis_delay_ms s) x
    (tk_after s) (next_after_id s) (threads s) (next_thread s) (ui s)
    (analyzer_calls s) (timers_fired s) (clock s).

Definition set_after (x : list after_entry) (s : PhotoViewer) : PhotoViewer :=
  mkViewer (has_api_key s) (ai_analyzer s) (current_image_path s)
    (analyzing_image_path s) (analysis_timer s) (analysis_delay_ms s)
    (cache_manager s) x (next_after_id s) (threads s) (next_thread s) (ui s)
    (analyzer_calls s) (timers_fired s) (clock s).

Definition set_next_after (x : nat) (s : PhotoViewer) : PhotoViewer :=
  mkViewer (has_api_key s) (ai_analyzer s) (current_image_path s)
    (analyzing_image_path s) (analysis_timer s) (analysis_delay_ms s)
    (cache_manager s) (tk_after s) x (threads s) (next_thread s) (ui s)
    (analyzer_calls s) (timers_fired s) (clock s).

Definition set_threads (x : gmap nat thread_state) (s : PhotoViewer) : PhotoViewer :=
  mkViewer (has_api_key s) (ai_analyzer s) (current_image_path s)
    (analyzing_image_path s) (analysis_timer s) (analysis_delay_ms s)
    (cache_manager s) (tk_after s) (next_after_id s) x (next_thread s) (ui s)
    (analyzer_calls s) (timers_fired s) (clock s).

Definition set_next_thread (x : nat) (s : PhotoViewer) : PhotoViewer :=
  mkViewer (has_api_key s) (ai_analyzer s) (current_image_path s)
    (analyzing_image_path s) (analysis_timer s) (analysis_delay_ms s)
    (cache_manager s) (tk_after s) (next_after_id s) (threads s) x (ui s)
    (analyzer_calls s) (timers_fired s) (clock s).

Definition set_ui (x : list ui_cmd) (s : PhotoViewer) : PhotoViewer :=
  mkViewer (has_api_key s) (ai_analyzer s) (current_image_path s)
    (analyzing_image_path s) (analysis_timer s) (analysis_delay_ms s)
    (cache_manager s) (tk_after s) (next_after_id s) (threads s)
    (next_thread s) x (analyzer_calls s) (timers_fired s) (clock s).

Definition set_calls (x : list (option string * bool * bool)) (s : PhotoViewer)
  : PhotoViewer :=
  mkViewer (has_api_key s) (ai_analyzer s) (current_image_path s)
    (analyzing_image_path s) (analysis_timer s) (analysis_delay_ms s)
    (cache_manager s) (tk_after s) (next_after_id s) (threads s)
    (next_thread s) (ui s) x (timers_fired s) (clock s).

Definition set_fired (x : list string) (s : PhotoViewer) : PhotoViewer :=
  mkViewer (has_api_key s) (ai_analyzer s) (current_image_path s)
    (analyzing_image_path s) (analysis_timer s) (analysis_delay_ms s)
    (cache_manager s) (tk_after s) (next_after_id s) (threads s)
    (next_thread s) (ui s) (analyzer_calls s) x (clock s).

Definition set_clock (x : Z) (s : PhotoViewer) : PhotoViewer :=
  mkViewer (has_api_key s) (ai_analyzer s) (current_image_path s)
    (analyzing_image_path s) (analysis_timer s) (analysis_delay_ms s)
    (cache_manager s) (tk_after s) (next_after_id s) (threads s)
    (next_thread s) (ui s) (analyzer_calls s) (timers_fired s) x.

Definition render (cmds : list ui_cmd) (s : PhotoViewer) : PhotoViewer :=
  set_ui (ui s ++ cmds) s.

(** [self.root.after(ms, cb)] called at time [now]: returns the new id. *)
Definition root_after (now ms : Z) (cb : callback) (s : PhotoViewer)
  : nat * PhotoViewer :=
  let id := next_after_id s in
  (id, set_next_after (S id)
         (set_after (tk_after s ++ [{| after_id := id; due := now + ms;
                                       after_cb := cb |}]) s)).

(** [self.root.after_cancel(id)]. *)
Definition root_after_cancel (id : nat) (s : PhotoViewer) : PhotoViewer :=
  set_after (filter (fun a => after_id a ≠ id) (tk_after s)) s.

(** [threading.Thread(target=..., daemon=True).start()]. *)
Definition start_thread (k : thread_kind) (s : PhotoViewer) : PhotoViewer :=
  let tid := next_thread s in
  set_next_thread (S tid) (set_threads (<[tid := Spawned k]> (threads s)) s).

(** [PhotoViewer.__init__], as far as the scheduler goes. *)
Definition new_viewer (api_key analyzer_ok : bool) (cm : CacheManager)
  : PhotoViewer :=
  mkViewer (api_key && analyzer_ok) (api_key && analyzer_ok) None None None
    2000 cm [] 0 ∅ 0 [] [] [] 0.

Definition _cancel_analysis_timer (s : PhotoViewer) : PhotoViewer :=
  match analysis_timer s with
  | Some id => set_timer None (root_after_cancel id s)
  | None => s
  end.

Definition _immediate_reset (s : PhotoViewer) : PhotoViewer :=
  render [UiImmediateReset] (set_analyzing None s).

(** [_update_info_labels]: renders only for the current image. *)
Definition _update_info_labels (s : PhotoViewer) (ai_result : pyval)
    (exif_data : option (list (string * pyval))) (analysis_target : option string)
  : PhotoViewer :=
  if decide (analysis_target ≠ current_image_path s) then s
  else render [UiUpdateInfoLabels ai_result exif_data; UiStatus StAnalysisDone] s.

(** [_schedule_smart_analysis]; an exception of [get_cached_result] leaves
    through the caller. *)
Definition _schedule_smart_analysis (w : world) (now : Z) (s : PhotoViewer)
    (file_path : string) : PhotoViewer * outcome unit :=
  let s := set_analyzing (Some file_path) s in
  match get_cached_result (fs w) (cache_manager s) file_path with
  | Raise e => (s, Raise e)
  | Ret cached_result =>
      if truthy cached_result then
        let exif_data := read_exif w (Some file_path) in
        if decide (Some file_path = current_image_path s) then
          let s := _update_info_labels s cached_result exif_data (Some file_path) in
          (render [UiDisplayAiResults cached_result; UiStatus StCacheShown] s,
           Ret tt)
        else (s, Ret tt)
      else
        let '(id, s) :=
          root_after now (analysis_delay_ms s) (CbDelayedAnalysisStart file_path) s in
        (render [UiAnalysisPending] (set_timer (Some id) s), Ret tt)
  end.

(** [load_image]; its [except Exception] shows a message box and keeps what
    was assigned before the raise. *)
Definition load_image (w : world) (now : Z) (s : PhotoViewer) (file_path : string)
  : PhotoViewer :=
  let s := _cancel_analysis_timer s in
  let s := _immediate_reset s in
  let s := set_current (Some file_path) s in
  match images w !! file_path with
  | None => render [UiShowError (Exn OSError "cannot identify image file")] s
  | Some exif_data =>
      let s := render [UiShowImage file_path] s in
      let has_exif := has_exif_of exif_data in
      let has_location := has_location_of exif_data in
      let s := render [UiResetInfoLabels exif_data has_exif has_location] s in
      if has_api_key s && ai_analyzer s then
        if negb has_exif || negb has_location then
          match _schedule_smart_analysis w now s file_path with
          | (s, Ret _) => render [UiStatus (StLoaded file_path)] s
          | (s, Raise e) => render [UiShowError e] s
          end
        else render [UiStatus StExifShown; UiStatus (StLoaded file_path)] s
      else
        render [UiSetNoApiInfo has_exif has_location;
              UiStatus (StLoaded file_path)] s
  end.

(** [_delayed_analysis_start], the callback of the debounce timer. *)
Definition _delayed_analysis_start (s : PhotoViewer) (file_path : string)
  : PhotoViewer :=
  let s := set_fired (timers_fired s ++ [file_path]) s in
  if decide (Some file_path ≠ current_image_path s) then s
  else start_thread AutoAnalysis (render [UiStatus StAnalyzing] s).

(** [not self.current_image_path]. *)
Definition no_current (s : PhotoViewer) : bool :=
  match current_image_path s with
  | Some p => String.eqb p ""
  | None => true
  end.

(** [analyze_with_ai], the manual re-run. *)
Definition analyze_with_ai (s : PhotoViewer) : PhotoViewer :=
  if no_current s || negb (ai_analyzer s) then s
  else
    let s := render [UiManualAnalysisStarted; UiStatus StAnalyzing] s in
    start_thread ForceAnalysis (set_analyzing (current_image_path s) s).

(** [_auto_ai_analysis] up to and including the call of [analyze_image]:
    [None] when the thread returns at once.  [_force_ai_analysis] has the
    same body. *)
Definition _auto_ai_analysis_begin (w : world) (s : PhotoViewer) (k : thread_kind)
  : PhotoViewer * option thread_state :=
  let analysis_target := analyzing_image_path s in
  if decide (analysis_target ≠ current_image_path s) then (s, None)
  else
    let exif_data := read_exif w analysis_target in
    let has_exif := has_exif_of exif_data in
    let has_location := has_location_of exif_data in
    (set_calls (analyzer_calls s ++ [(analysis_target, has_exif, has_location)]) s,
     Some (InAnalyzer k analysis_target exif_data)).

(** [self.cache_manager.save_result(analysis_target, result)] from the
    worker: with [None] for a path [os.stat] raises [TypeError], which
    [_get_file_hash] catches. *)
Definition save_target (w : world) (timestamp : string) (cm : CacheManager)
    (analysis_target : option string) (result : pyval) : outcome CacheManager :=
  match analysis_target with
  | Some p => save_result (fs w) timestamp cm p result
  | None => Ret cm
  end.

(** The rest of [_auto_ai_analysis] / [_force_ai_analysis], once
    [analyze_image] has returned [result].  The [except] clause tests
    [self.analyzing_image_path], not the local [analysis_target]; it is
    kept although [save_result] catches what it raises. *)
Definition _auto_ai_analysis_complete (w : world) (now : Z) (timestamp : string)
    (s : PhotoViewer) (analysis_target : option string)
    (exif_data : option (list (string * pyval))) (result : pyval) : PhotoViewer :=
  if decide (analysis_target = current_image_path s) then
    match save_target w timestamp (cache_manager s) analysis_target result with
    | Ret cm =>
        let s := set_cache cm s in
        let s := snd (root_after now 0
                        (CbUpdateInfoLabels result exif_data analysis_target) s) in
        snd (root_after now 0 (CbDisplayAiResults result) s)
    | Raise e =>
        if decide (analyzing_image_path s = current_image_path s)
        then snd (root_after now 0 (CbSetErrorInfo (exn_str e)) s)
        else s
    end
  else s.

Definition run_callback (s : PhotoViewer) (cb : callback) : PhotoViewer :=
  match cb with
  | CbDelayedAnalysisStart file_path => _delayed_analysis_start s file_path
  | CbUpdateInfoLabels r e t => _update_info_labels s r e t
  | CbDisplayAiResults r => render [UiDisplayAiResults r] s
  | CbSetErrorInfo m => render [UiSetErrorInfo m; UiStatus StAnalysisFailed] s
  end.

(** [_update_delay]: [None] when [float()] raises [ValueError]. *)
Definition _update_delay (s : PhotoViewer) (parsed_ms : option Z) : PhotoViewer :=
  match parsed_ms with
  | Some ms => set_delay ms s
  | None => set_delay 2000 s
  end.

(** [PhotoViewer.clear_cache], the user having confirmed. *)
Definition viewer_clear_cache (s : PhotoViewer) : PhotoViewer :=
  set_cache (fst (clear_cache (cache_manager s))) s.

(** *** The event loop

    What happens to the viewer, one event at a time: the user's commands,
    Tk running a pending [after] callback that is due, a worker thread
    reaching the analyzer, the analyzer call coming back. *)
Inductive event : Type :=
| EvSelect (file_path : string)
| EvAnalyzeButton
| EvUpdateDelay (parsed_ms : option Z)
| EvClearCache
| EvAfter (id : nat)
| EvThreadRun (tid : nat)
| EvThreadReturn (tid : nat) (attempt : outcome pyval).

(** An event with the moment it happens (milliseconds and
    [datetime.now().isoformat()]) and the files as they are then. *)
Record tick : Type := {
  at_ms : Z;
  at_iso : string;
  env : world;
  ev : event
}.

Definition find_after (id : nat) (q : list after_entry) : option after_entry :=
  find (fun a => Nat.eqb (after_id a) id) q.

(** One step; [None] when the event cannot happen in this state (time runs
    backwards, the callback is not pending or not yet due, there is no such
    thread in that phase). *)
Definition step (s : PhotoViewer) (k : tick) : option PhotoViewer :=
  if (at_ms k <? clock s)%Z then None
  else
    let s := set_clock (at_ms k) s in
    match ev k with
    | EvSelect file_path => Some (load_image (env k) (at_ms k) s file_path)
    | EvAnalyzeButton => Some (analyze_with_ai s)
    | EvUpdateDelay parsed => Some (_update_delay s parsed)
    | EvClearCache => Some (viewer_clear_cache s)
    | EvAfter id =>
        match find_after id (tk_after s) with
        | Some a =>
            if (due a <=? at_ms k)%Z
            then Some (run_callback (root_after_cancel id s) (after_cb a))
            else None
        | None => None
        end
    | EvThreadRun tid =>
        match threads s !! tid with
        | Some (Spawned kind) =>
            match _auto_ai_analysis_begin (env k) s kind with
            | (s, Some th) => Some (set_threads (<[tid := th]> (threads s)) s)
            | (s, None) => Some (set_threads (delete tid (threads s)) s)
            end
        | _ => None
        end
    | EvThreadReturn tid attempt =>
        match threads s !! tid with
        | Some (InAnalyzer kind analysis_target exif_data) =>
            let s := set_threads (delete tid (threads s)) s in
            match analyze_image attempt with
            | Ret result =>
                Some (_auto_ai_analysis_complete (env k) (at_ms k) (at_iso k) s
                        analysis_target exif_data result)
            | Raise e =>
                if decide (analyzing_image_path s = current_image_path s)
                then Some (snd (root_after (at_ms k) 0
                                  (CbSetErrorInfo (exn_str e)) s))
                else Some s
            end
        | _ => None
        end
    end.

Fixpoint run (s : PhotoViewer) (ks : list tick) : option PhotoViewer :=
  match ks with
  | [] => Some s
  | k :: rest =>
      match step s k with
      | Some s' => run s' rest
      | None => None
      end
  end.

(* ===================================================================== *)
(** ** Runs of puts, and the concrete files used in the examples           *)
(* ===================================================================== *)

(** A sequence of [save_result] calls, each with its timestamp. *)
Fixpoint put_all (fs : gmap string stat_result) (cm : CacheManager)
    (puts : list (string * pyval * string)) : outcome CacheManager :=
  match puts with
  | [] => Ret cm
  | (file_path, result, timestamp) :: rest =>
      cm' ← save_result fs timestamp cm file_path result;
      put_all fs cm' rest
  end.

(** The fingerprint [_get_file_hash] gives a put, if any. *)
Definition put_key (fs : gmap string stat_result)
    (put : string * pyval * string) : option string :=
  match _get_file_hash fs (fst (fst put)) with
  | Ret file_hash => usable_hash file_hash
  | Raise _ => None
  end.

Definition photo_stat : stat_result :=
  {| st_size := 204800%N; st_mtime := "1700000000.5" |}.

(** One file under two spellings of its path. *)
Definition two_spellings : gmap string stat_result :=
  {[ "photo.jpg" := photo_stat; "/home/user/photo.jpg" := photo_stat ]}.

Definition ten_files : gmap string stat_result :=
  list_to_map
    (map (fun name => (name, photo_stat))
       ["/p/0.jpg"; "/p/1.jpg"; "/p/2.jpg"; "/p/3.jpg"; "/p/4.jpg";
        "/p/5.jpg"; "/p/6.jpg"; "/p/7.jpg"; "/p/8.jpg"; "/p/9.jpg"]).

Definition sample_result : pyval :=
  PDict [("hashtags", PList [PStr "sunset"; PStr "beach"]);
         ("location", PDict [("primary_location", PStr "Busan Haeundae")])].

Definition put_of (name : string) : string * pyval * string :=
  (name, sample_result, "2024-01-01T00:00:00").

Definition empty_cache : CacheManager := mkCache ∅ None true [].

(** The [str] Python has for the file name [caf\xe9.jpg] (Latin-1 bytes) of
    a POSIX directory: [Path.iterdir] and [os.listdir] give
    ['caf\udce9.jpg'], with a lone surrogate for the byte that is not UTF-8.
    [os.stat] takes the string; it has no UTF-8 encoding. *)
Definition latin1_name : string :=
  "/p/caf"
  ++ String (ascii_of_N 237) (String (ascii_of_N 179) (String (ascii_of_N 169)
       ".jpg")).

Definition latin1_files : gmap string stat_result :=
  {[ latin1_name := photo_stat ]}.

(** A cache file that is valid JSON but whose entry for the fingerprint of
    [photo.jpg] is a number, not an object. *)
Definition foreign_file : file_content :=
  JsonObject {[ "3557f675a57133c7d43458598402aa08" := PInt 1 ]}.

Definition ten_puts : list (string * pyval * string) :=
  map put_of ["/p/0.jpg"; "/p/1.jpg"; "/p/2.jpg"; "/p/3.jpg"; "/p/4.jpg";
              "/p/5.jpg"; "/p/6.jpg"; "/p/7.jpg"; "/p/8.jpg"; "/p/9.jpg"].

(** A cache file written in an earlier session, with nine entries. *)
Definition nine_cached : gmap string pyval :=
  match put_all ten_files empty_cache (take 9 ten_puts) with
  | Ret cm => memory_cache cm
  | Raise _ => ∅
  end.

Definition nine_entry_file : file_content := JsonObject nine_cached.

(** The cache after the ten puts. *)
Definition ten_cached : CacheManager :=
  match put_all ten_files empty_cache ten_puts with
  | Ret cm => cm
  | Raise _ => empty_cache
  end.

(** Every entry of the map is an object, as [save_result] writes them. *)
Definition is_dict (v : pyval) : bool :=
  match v with
  | PDict _ => true
  | _ => false
  end.

Definition entries_are_dicts (cm : CacheManager) : Prop :=
  map_Forall (fun _ v => is_dict v = true) (memory_cache cm).

(** *** Shapes of runs *)

(** The events that are not commands of the user. *)
Definition is_system (e : event) : bool :=
  match e with
  | EvAfter _ | EvThreadRun _ | EvThreadReturn _ _ => true
  | _ => false
  end.

Definition system_only (ks : list tick) : Prop :=
  Forall (fun k => is_system (ev k) = true) ks.

(** A pending callback other than a debounce timer. *)
Definition no_debounce (a : after_entry) : Prop :=
  match after_cb a with
  | CbDelayedAnalysisStart _ => False
  | _ => True
  end.

#[global] Instance no_debounce_dec (a : after_entry) : Decision (no_debounce a) :=
  match a with
  | {| after_cb := cb |} =>
      match cb with
      | CbDelayedAnalysisStart _ => right (fun H => H)
      | _ => left I
      end
  end.

(** The files of the examples: three images without EXIF data. *)
Definition three_images : world :=
  {| fs := {[ "/p/A.jpg" := photo_stat; "/p/B.jpg" := photo_stat;
              "/p/C.jpg" := photo_stat ]};
     images := {[ "/p/A.jpg" := None; "/p/B.jpg" := None;
                  "/p/C.jpg" := None ]} |}.

Definition at_time (t : Z) (e : event) : tick :=
  {| at_ms := t; at_iso := "2024-01-01T00:00:00"; env := three_images; ev := e |}.

Definition fresh_viewer : PhotoViewer := new_viewer true true empty_cache.

(** Flipping through A, B, C half a second apart, then waiting. *)
Definition rapid_flip : list tick :=
  [at_time 0 (EvSelect "/p/A.jpg");
   at_time 500 (EvSelect "/p/B.jpg");
   at_time 1000 (EvSelect "/p/C.jpg");
   at_time 3000 (EvAfter 2);
   at_time 3001 (EvThreadRun 0);
   at_time 4200 (EvThreadReturn 0 (Ret sample_result));
   at_time 4201 (EvAfter 3);
   at_time 4202 (EvAfter 4)].

(** A is analysed, B is selected while the call is out, the call returns. *)
Definition superseded : list tick :=
  [at_time 0 (EvSelect "/p/A.jpg");
   at_time 2000 (EvAfter 0);
   at_time 2001 (EvThreadRun 0);
   at_time 2500 (EvSelect "/p/B.jpg")].

Definition timeout_error : exn := Exn OtherError "Request timed out.".

(** The viewer at the end of [superseded]: A's call is out, B is current. *)
Definition superseded_state : PhotoViewer :=
  default fresh_viewer (run fresh_viewer superseded).

(** The viewer while C's analyzer call is out and C is current. *)
Definition analyzing_C : PhotoViewer :=
  default fresh_viewer
    (run fresh_viewer
       [at_time 0 (EvSelect "/p/C.jpg"); at_time 2000 (EvAfter 0);
        at_time 2001 (EvThreadRun 0)]).

(** A worker that has reached the analyzer. *)
Definition in_analyzer (th : thread_state) : Prop :=
  match th with
  | InAnalyzer _ _ _ => True
  | Spawned _ => False
  end.

#[global] Instance in_analyzer_dec (th : thread_state) : Decision (in_analyzer th) :=
  match th with
  | InAnalyzer _ _ _ => left I
  | Spawned _ => right (fun H => H)
  end.

(** No worker is started and still short of the analyzer. *)
Definition no_spawned (s : PhotoViewer) : Prop :=
  map_Forall (fun _ th => in_analyzer th) (threads s).

(** Between selections: analyzer calls may be out and display callbacks
    pending, but no worker is about to call the analyzer, and a pending
    debounce timer is the one [analysis_timer] names. *)
Definition settled (s : PhotoViewer) : Prop :=
  no_spawned s
  ∧ Forall (fun a => no_debounce a ∨ analysis_timer s = Some (after_id a))
      (tk_after s).

(** The viewer after selecting [X] at time [t] with delay [d]: a pending
    debounce timer is the one of [X], due at [t + d]. *)
Definition armed (d t : Z) (X : string) (s : PhotoViewer) : Prop :=
  no_spawned s
  ∧ Forall (fun a => no_debounce a
                     ∨ (analysis_timer s = Some (after_id a)
                        ∧ due a = (t + d)%Z
                        ∧ after_cb a = CbDelayedAnalysisStart X
                        ∧ analyzing_image_path s = Some X))
      (tk_after s)
  ∧ current_image_path s = Some X.

(** Where the viewer can be after the last selection, of [C], with [L] and
    [F] the analyzer calls and timer firings made before: waiting for C's
    timer, with the worker that timer started, or past that. *)
Inductive last_phase (C : string) (L : list (option string * bool * bool))
    (F : list string) (s : PhotoViewer) : Prop :=
| PhWaiting (id0 : nat) :
    Forall (fun a => no_debounce a
                     ∨ (after_id a = id0
                        ∧ after_cb a = CbDelayedAnalysisStart C
                        ∧ analyzing_image_path s = Some C))
      (tk_after s) →
    no_spawned s → current_image_path s = Some C →
    analyzer_calls s = L → timers_fired s = F →
    last_phase C L F s
| PhStarted (tid : nat) (k : thread_kind) :
    Forall no_debounce (tk_after s) →
    threads s !! tid = Some (Spawned k) →
    (∀ tid' th, threads s !! tid' = Some th → tid' = tid ∨ in_analyzer th) →
    current_image_path s = Some C → analyzing_image_path s = Some C →
    analyzer_calls s = L → timers_fired s = (F ++ [C])%list →
    last_phase C L F s
| PhPast :
    Forall no_debounce (tk_after s) → no_spawned s →
    (analyzer_calls s = L
     ∨ ∃ he hl, analyzer_calls s = (L ++ [(Some C, he, hl)])%list) →
    (timers_fired s = F ∨ timers_fired s = (F ++ [C])%list) →
    last_phase C L F s.

(** The user rested on Z and asked for a manual re-run: one analyzer call
    for Z has returned and its display callbacks are pending, another is
    still out.  Then A, B, C are flipped through half a second apart while
    those finish, and C's analysis runs. *)
Definition three_and_Z : world :=
  {| fs := <[ "/p/Z.jpg" := photo_stat ]> (fs three_images);
     images := <[ "/p/Z.jpg" := None ]> (images three_images) |}.

Definition z_time (t : Z) (e : event) : tick :=
  {| at_ms := t; at_iso := "2024-01-01T00:00:00"; env := three_and_Z; ev := e |}.

Definition resting_on_Z : PhotoViewer :=
  default fresh_viewer
    (run fresh_viewer
       [z_time 0 (EvSelect "/p/Z.jpg"); z_time 2000 (EvAfter 0);
        z_time 2001 (EvThreadRun 0); z_time 2100 EvAnalyzeButton;
        z_time 2101 (EvThreadRun 1);
        z_time 2900 (EvThreadReturn 0 (Ret sample_result))]).

Definition flip_gap1 : list tick :=
  [z_time 3100 (EvAfter 1);
   z_time 3200 (EvThreadReturn 1 (Ret sample_result))].

Definition flip_gap2 : list tick := [z_time 3600 (EvAfter 2)].

Definition flip_tail : list tick :=
  [z_time 6000 (EvAfter 5); z_time 6001 (EvThreadRun 2);
   z_time 7000 (EvThreadReturn 2 (Ret sample_result));
   z_time 7001 (EvAfter 6); z_time 7002 (EvAfter 7)].

Definition flip_during_Z : list tick :=
  ([z_time 3000 (EvSelect "/p/A.jpg")] ++ flip_gap1
   ++ [z_time 3500 (EvSelect "/p/B.jpg")] ++ flip_gap2
   ++ [z_time 4000 (EvSelect "/p/C.jpg")] ++ flip_tail)%list.

Definition flip_during_Z_end : PhotoViewer :=
  default fresh_viewer (run resting_on_Z flip_during_Z).

(** The viewer at the end of [rapid_flip]. *)
Definition rapid_flip_end : PhotoViewer :=
  default fresh_viewer (run fresh_viewer rapid_flip).

(** The files of [three_images] and the one whose name is not UTF-8. *)
Definition latin1_world : world :=
  {| fs := <[ latin1_name := photo_stat ]> (fs three_images);
     images := <[ latin1_name := None ]> (images three_images) |}.

Definition l_time (t : Z) (e : event) : tick :=
  {| at_ms := t; at_iso := "2024-01-01T00:00:00"; env := latin1_world; ev := e |}.

(** The analysis of the file whose name is not UTF-8 fails while the file
    is current. *)
Definition unencodable_failed : list tick :=
  [l_time 0 (EvSelect latin1_name); l_time 2000 (EvAfter 0);
   l_time 2001 (EvThreadRun 0);
   l_time 3000 (EvThreadReturn 0 (Raise timeout_error))].

(** The failure is shown; the user looks at A and comes back; the timer of
    the second selection fires and its worker runs. *)
Definition unencodable_back : list tick :=
  [l_time 3001 (EvAfter 1); l_time 3002 (EvAfter 2);
   l_time 5000 (EvSelect "/p/A.jpg"); l_time 5500 (EvSelect latin1_name);
   l_time 7500 (EvAfter 4); l_time 7501 (EvThreadRun 1)].

(** C's analysis fails and is cached.  The user rests on Z until its timer
    fires, and goes back to C before the worker that timer started runs. *)
Definition back_before_worker : list tick :=
  [z_time 0 (EvSelect "/p/C.jpg"); z_time 2000 (EvAfter 0);
   z_time 2001 (EvThreadRun 0);
   z_time 3000 (EvThreadReturn 0 (Raise timeout_error));
   z_time 3001 (EvAfter 1); z_time 3002 (EvAfter 2);
   z_time 5000 (EvSelect "/p/Z.jpg"); z_time 7000 (EvAfter 3);
   z_time 7001 (EvSelect "/p/C.jpg"); z_time 7002 (EvThreadRun 1);
   z_time 8000 (EvThreadReturn 1 (Ret sample_result))].

(** The user rests on Z until its timer fires, then flips through A, B, C
    half a second apart; the worker of Z's timer runs after the selection
    of A.  Then C's timer fires and its worker runs. *)
Definition flip_before_worker : list tick :=
  [z_time 0 (EvSelect "/p/Z.jpg"); z_time 2000 (EvAfter 0);
   z_time 2001 (EvSelect "/p/A.jpg"); z_time 2002 (EvThreadRun 0);
   z_time 2500 (EvSelect "/p/B.jpg"); z_time 3000 (EvSelect "/p/C.jpg");
   z_time 5000 (EvAfter 3); z_time 5001 (EvThreadRun 1)].

(** C's analysis fails, the failure is shown, the user looks at A and comes
    back to C. *)
Definition failed_then_back : list tick :=
  [at_time 0 (EvSelect "/p/C.jpg"); at_time 2000 (EvAfter 0);
   at_time 2001 (EvThreadRun 0);
   at_time 3000 (EvThreadReturn 0 (Raise timeout_error));
   at_time 3001 (EvAfter 1); at_time 3002 (EvAfter 2);
   at_time 5000 (EvSelect "/p/A.jpg");
   at_time 5500 (EvSelect "/p/C.jpg")].

(* ===================================================================== *)
(** ** utils/cache_manager.py: restart, cleanup, sequences of calls        *)
(* ===================================================================== *)

(** The next session: [CacheManager()] on the disk this one leaves.  The
    directory exists, this session having created it. *)
Definition restart (cm : CacheManager) : outcome CacheManager :=
  __init__ None (cache_file cm) (cache_file_writable cm).

(** [datetime.fromisoformat(entry.get('timestamp', ''))].  The parameter
    [fromisoformat] is [datetime.fromisoformat] on the text of a timestamp,
    as far as [cleanup_old_entries] sees it: the naive moment in
    microseconds, or [None] when the call raises or yields a timezone-aware
    moment, whose comparison with the naive cutoff raises; both happen
    inside the bare [except].  An entry that is no [dict] has no [get], and
    a timestamp that is no [str] is refused. *)
Definition entry_date (fromisoformat : string → option Z) (entry : pyval)
  : option Z :=
  match entry with
  | PDict d =>
      match default (PStr "") (assoc "timestamp" d) with
      | PStr s => fromisoformat s
      | _ => None
      end
  | _ => None
  end.

(** Whether the loop appends the key to [old_keys]. *)
Definition is_old (fromisoformat : string → option Z) (cutoff_date : Z)
    (entry : pyval) : bool :=
  match entry_date fromisoformat entry with
  | Some entry_date => (entry_date <? cutoff_date)%Z
  | None => true
  end.

(** [cleanup_old_entries]; [cutoff_date] is
    [datetime.now() - timedelta(days=days)]. *)
Definition cleanup_old_entries (fromisoformat : string → option Z)
    (cutoff_date : Z) (cm : CacheManager) : CacheManager :=
  let old_keys :=
    (filter (fun kv => is_old fromisoformat cutoff_date kv.2 = true)
       (map_to_list (memory_cache cm))).*1 in
  let cm1 :=
    set_memory_cache
      (fold_left (fun m key => delete key m) old_keys (memory_cache cm)) cm in
  match old_keys with
  | [] => cm1
  | _ => _save_cache cm1
  end.

(** One call on the cache, with the files as they are at that moment. *)
Inductive cache_call : Type :=
| CallSaveResult (fs : gmap string stat_result) (timestamp : string)
    (file_path : string) (result : pyval)
| CallClearCache
| CallCleanup (cutoff_date : Z)
| CallDel
| CallRestart.

(** The cache after the call, whether the call returned or raised
    ([clear_cache] and a restart may raise; [save_result] does not). *)
Definition after_call (fromisoformat : string → option Z) (cm : CacheManager)
    (c : cache_call) : CacheManager :=
  match c with
  | CallSaveResult fs timestamp file_path result =>
      match save_result fs timestamp cm file_path result with
      | Ret cm' => cm'
      | Raise _ => cm
      end
  | CallClearCache => fst (clear_cache cm)
  | CallCleanup cutoff_date => cleanup_old_entries fromisoformat cutoff_date cm
  | CallDel => __del__ cm
  | CallRestart =>
      match restart cm with
      | Ret cm' => cm'
      | Raise _ => cm
      end
  end.

Definition after_calls (fromisoformat : string → option Z) (cm : CacheManager)
    (cs : list cache_call) : CacheManager :=
  fold_left (after_call fromisoformat) cs cm.

(** The cache file holds nothing but objects: it is absent, unreadable, or
    a JSON object whose entries are objects. *)
Definition file_entries_are_dicts (file : option file_content) : Prop :=
  match file with
  | Some (JsonObject data) => map_Forall (fun _ v => is_dict v = true) data
  | _ => True
  end.

(** Map and file hold nothing but objects. *)
Definition cache_wf (cm : CacheManager) : Prop :=
  entries_are_dicts cm ∧ file_entries_are_dicts (cache_file cm).

(** A stand-in for [datetime.fromisoformat] on three timestamps. *)
Definition toy_fromisoformat (s : string) : option Z :=
  if String.eqb s "2024-01-01T00:00:00" then Some 0%Z
  else if String.eqb s "2024-02-05T00:00:00" then Some 3024000000000%Z
  else if String.eqb s "2024-02-10T00:00:00" then Some 3456000000000%Z
  else None.

(** A cache with an entry forty days old, one five days old, and one whose
    timestamp does not parse; the cutoff is thirty days before
    2024-02-10. *)
Definition aged_cache : CacheManager :=
  mkCache {[ "h-old" := cache_entry "/p/old.jpg" sample_result "2024-01-01T00:00:00";
             "h-new" := cache_entry "/p/new.jpg" sample_result "2024-02-05T00:00:00";
             "h-bad" := cache_entry "/p/bad.jpg" sample_result "yesterday" ]}
          None true [].

Definition thirty_days_before : Z := (3456000000000 - 30 * 86400000000)%Z.

(** The cache after a result for [photo.jpg] was put, and after an error
    result for the other spelling of its path was put as well. *)
Definition photo_cached : CacheManager :=
  after_call toy_fromisoformat empty_cache
    (CallSaveResult two_spellings "2024-01-01T00:00:00" "photo.jpg" sample_result).

Definition photo_cached_twice : CacheManager :=
  after_call toy_fromisoformat photo_cached
    (CallSaveResult two_spellings "2024-01-02T00:00:00" "/home/user/photo.jpg"
       (error_result timeout_error)).

(** A result whose one hashtag is a lone high surrogate, as [json.loads]
    yields for the unpaired escape [\ud83d] in a reply. *)
Definition broken_result : pyval :=
  PDict [("hashtags",
          PList [PStr (String (ascii_of_N 237) (String (ascii_of_N 160)
                         (String (ascii_of_N 189) "")))])].

(** The ten entries of [ten_cached] are on disk; then the result of
    [photo.jpg] is put, which holds the lone surrogate. *)
Definition spoiled_cache : CacheManager :=
  after_call toy_fromisoformat ten_cached
    (CallSaveResult two_spellings "2024-01-03T00:00:00" "photo.jpg" broken_result).

(* ===================================================================== *)
(** ** gui/photo_viewer.py: what is pending in the scheduler               *)
(* ===================================================================== *)

Definition is_debounce (a : after_entry) : bool :=
  match after_cb a with
  | CbDelayedAnalysisStart _ => true
  | _ => false
  end.

(** The debounce timers Tk still holds. *)
Definition pending_debounce (s : PhotoViewer) : list after_entry :=
  filter (fun a => is_debounce a = true) (tk_after s).

(** At most one debounce timer is pending; it is the one [analysis_timer]
    names and it is for the current image. *)
Definition one_timer (s : PhotoViewer) : Prop :=
  (length (pending_debounce s) ≤ 1)%nat
  ∧ Forall (fun a => analysis_timer s = Some (after_id a)
                     ∧ after_cb a = CbDelayedAnalysisStart
                                      (default "" (current_image_path s))
                     ∧ is_Some (current_image_path s))
      (pending_debounce s).

(** A viewer without analyzer object, worker or debounce timer. *)
Definition dormant (s : PhotoViewer) : Prop :=
  ai_analyzer s = false ∧ threads s = ∅ ∧ pending_debounce s = [].

(** A is selected and, before its timer is due, analysed by hand; the
    timer then fires all the same. *)
Definition manual_then_timer : list tick :=
  [at_time 0 (EvSelect "/p/A.jpg");
   at_time 500 EvAnalyzeButton;
   at_time 501 (EvThreadRun 0);
   at_time 1500 (EvThreadReturn 0 (Ret sample_result));
   at_time 2000 (EvAfter 0);
   at_time 2001 (EvThreadRun 1)].

(** The analyzer answered with an empty object for C; C is selected
    again. *)
Definition empty_answer : list tick :=
  [at_time 0 (EvSelect "/p/C.jpg"); at_time 2000 (EvAfter 0);
   at_time 2001 (EvThreadRun 0);
   at_time 3000 (EvThreadReturn 0 (Ret (PDict [])));
   at_time 3001 (EvAfter 1); at_time 3002 (EvAfter 2);
   at_time 5000 (EvSelect "/p/C.jpg")].

(** A viewer started without an API key. *)
Definition keyless_viewer : PhotoViewer := new_viewer false true empty_cache.

Definition keyless_session : list tick :=
  [at_time 0 (EvSelect "/p/A.jpg"); at_time 100 EvAnalyzeButton;
   at_time 5000 (EvSelect "/p/B.jpg")].

Definition keyless_end : PhotoViewer :=
  default keyless_viewer (run keyless_viewer keyless_session).

(** An image that carries exposure and GPS tags. *)
Definition tagged_world : world :=
  {| fs := {[ "/p/T.jpg" := photo_stat ]};
     images := {[ "/p/T.jpg" :=
                    Some [("ExposureTime", PStr "1/125"); ("GPSInfo", PDict [])] ]} |}.

(** The delay is set to half a second while B's timer is pending; then C
    is selected. *)
Definition delay_changed : PhotoViewer :=
  default fresh_viewer
    (step superseded_state (at_time 2600 (EvUpdateDelay (Some 500%Z)))).

Definition selected_after_change : PhotoViewer :=
  default fresh_viewer
    (step delay_changed (at_time 2700 (EvSelect "/p/C.jpg"))).


(** B is selected while C's analyzer call is out. *)
Definition C_superseded : PhotoViewer :=
  default fresh_viewer
    (step analyzing_C (at_time 2500 (EvSelect "/p/B.jpg"))).
(* ===================================================================== *)
(** * Properties                                                           *)
(* ===================================================================== *)

(** ** hashlib.md5 against known digests *)

Example md5_empty : MD5.hexdigest "" = "d41d8cd98f00b204e9800998ecf8427e".
Proof. vm_compute. reflexivity. Qed.

Example md5_abc : MD5.hexdigest "abc" = "900150983cd24fb0d6963f7d28e17f72".
Proof. vm_compute. reflexivity. Qed.

Example md5_two_blocks :
  MD5.hexdigest "aaaaaaaaaaaaaaaaaaaaaaaaaaaaaaaaaaaaaaaaaaaaaaaaaaaaaaaa"
  = "3b0c8ac703f828b04c6c197006d17218".
Proof. vm_compute. reflexivity. Qed.

Example basename_of_path : basename "/home/user/photo.jpg" = "photo.jpg".
Proof. reflexivity. Qed.

(** ** str.encode() *)

Example utf8_accepts_text :
  utf8 "/home/user/photo.jpg" = true
  ∧ utf8 (String (ascii_of_N 195) (String (ascii_of_N 169) "")) = true
  ∧ utf8 (String (ascii_of_N 244) (String (ascii_of_N 143)
            (String (ascii_of_N 191) (String (ascii_of_N 191) "")))) = true.
Proof. repeat split. Qed.

(** Rejected, as by Python's codec: a lone surrogate, an overlong form, a
    code point above U+10FFFF, a sequence cut short, a stray continuation
    byte. *)
Example utf8_rejects_ill_formed :
  utf8 latin1_name = false
  ∧ utf8 (String (ascii_of_N 192) (String (ascii_of_N 128) "")) = false
  ∧ utf8 (String (ascii_of_N 244) (String (ascii_of_N 144)
            (String (ascii_of_N 128) (String (ascii_of_N 128) "")))) = false
  ∧ utf8 (String (ascii_of_N 225) (String (ascii_of_N 128) "")) = false
  ∧ utf8 (String (ascii_of_N 128) "") = false.
Proof. repeat split. Qed.

(** A byte below [80] is no part of a longer sequence. *)
Lemma ascii_byte_alone (c : ascii) :
  byte_in 0 127 c = true →
  continuation c = false ∧ (∀ x, three_bytes x c = false)
  ∧ (∀ x, four_bytes x c = false).
Proof.
  unfold three_bytes, four_bytes, continuation, byte_in. intros H.
  apply andb_true_iff in H as [_ H]. apply N.leb_le in H.
  assert (Hhigh : ∀ lo hi, (128 ≤ lo)%N →
            ((lo <=? N_of_ascii c) && (N_of_ascii c <=? hi))%N = false).
  { intros lo hi Hlo. apply andb_false_iff. left. apply N.leb_gt. lia. }
  repeat split; intros; rewrite !Hhigh by lia; rewrite ?andb_false_r;
    reflexivity.
Qed.

(** Text joined by a byte below [80] can be encoded exactly when both
    parts can. *)
Lemma utf8_app_ascii (c : ascii) (b : string) :
  byte_in 0 127 c = true →
  ∀ a, utf8 (a ++ String c b) = utf8 a && utf8 b.
Proof.
  intros Hc. destruct (ascii_byte_alone c Hc) as (Hcont & H3 & H4).
  assert (Hcons : ∀ x y z, String x y ++ z = String x (y ++ z)) by reflexivity.
  assert (Hnil : ∀ z, "" ++ z = z) by reflexivity.
  assert (Heq : ∀ c0 rest, utf8 (String c0 rest)
            = if byte_in 0 127 c0 then utf8 rest
              else match rest with
                   | EmptyString => false
                   | String c1 rest1 =>
                       if byte_in 194 223 c0 then continuation c1 && utf8 rest1
                       else match rest1 with
                            | EmptyString => false
                            | String c2 rest2 =>
                                if three_bytes c0 c1
                                then continuation c2 && utf8 rest2
                                else match rest2 with
                                     | EmptyString => false
                                     | String c3 rest3 =>
                                         four_bytes c0 c1 && continuation c2
                                         && continuation c3 && utf8 rest3
                                     end
                            end
                   end) by reflexivity.
  intros a. remember (String.length a) as n eqn:Hn. revert a Hn.
  induction n as [n IH] using lt_wf_ind. intros a Hn.
  assert (Hrec : ∀ a', (String.length a' < n)%nat →
            utf8 (a' ++ String c b) = utf8 a' && utf8 b).
  { intros a' Hlt. by apply (IH (String.length a')). }
  clear IH.
  destruct a as [|c0 a]; [by rewrite Hnil, Heq, Hc|].
  cbn [String.length] in Hn. rewrite Hcons, !(Heq c0).
  destruct (byte_in 0 127 c0); [apply Hrec; lia|].
  destruct a as [|c1 a]; rewrite ?Hcons, ?Hnil; cbv beta iota.
  { rewrite Hcont, H3. destruct (byte_in 194 223 c0); [done|].
    destruct b as [|c2 [|c3 b]]; [done|done|]. by rewrite H4. }
  cbn [String.length] in Hn.
  destruct (byte_in 194 223 c0);
    [rewrite Hrec by lia; by rewrite andb_assoc|].
  destruct a as [|c2 a]; rewrite ?Hcons, ?Hnil; cbv beta iota.
  { rewrite Hcont. destruct (three_bytes c0 c1); [done|].
    destruct b; [done|]. by rewrite andb_false_r. }
  cbn [String.length] in Hn.
  destruct (three_bytes c0 c1);
    [rewrite Hrec by lia; by rewrite andb_assoc|].
  destruct a as [|c3 a]; rewrite ?Hcons, ?Hnil; cbv beta iota.
  { rewrite Hcont. by rewrite !andb_false_r. }
  cbn [String.length] in Hn.
  rewrite Hrec by lia. by rewrite !andb_assoc.
Qed.

Lemma utf8_digits (d : Decimal.uint) : utf8 (NilZero.string_of_uint d) = true.
Proof.
  assert (H : utf8 (NilEmpty.string_of_uint d) = true)
    by (induction d; cbn; done).
  destruct d; first [exact H | reflexivity].
Qed.

(** The text of the fingerprint can be encoded when the path can (the
    modification time is the text of a float). *)
Lemma utf8_hash_input (p : string) (st : stat_result) :
  utf8 (hash_input p st) = utf8 p && utf8 (st_mtime st).
Proof.
  unfold hash_input, str_of_N.
  do 2 (change ("_" ++ ?x) with (String "_"%char x);
        rewrite (utf8_app_ascii "_"%char) by reflexivity).
  by rewrite utf8_digits.
Qed.

(** ** CacheManager *)

(** A digest is 32 characters, so [not file_hash] is false for it. *)
Lemma hexdigest_usable (s : string) :
  usable_hash (Some (MD5.hexdigest s)) = Some (MD5.hexdigest s).
Proof.
  unfold usable_hash, MD5.hexdigest.
  destruct (MD5.digest (MD5.bytes_of_string s)) as [[[a b] c] d].
  reflexivity.
Qed.

Lemma hexdigest_length (s : string) : String.length (MD5.hexdigest s) = 32%nat.
Proof.
  unfold MD5.hexdigest.
  destruct (MD5.digest (MD5.bytes_of_string s)) as [[[a b] c] d].
  reflexivity.
Qed.

Lemma get_file_hash_stat fs p st :
  fs !! p = Some st → utf8 (hash_input p st) = true →
  _get_file_hash fs p = Ret (Some (MD5.hexdigest (hash_input p st))).
Proof.
  intros H Hu. unfold _get_file_hash, os_stat, str_encode. rewrite H.
  cbn [mbind outcome_bind]. rewrite Hu. reflexivity.
Qed.

Lemma get_file_hash_no_stat fs p :
  fs !! p = None → _get_file_hash fs p = Ret None.
Proof. intros H. unfold _get_file_hash, os_stat. rewrite H. reflexivity. Qed.

(** [os.stat] succeeds and [encode] raises: [None] as well. *)
Lemma get_file_hash_unencodable fs p st :
  fs !! p = Some st → utf8 (hash_input p st) = false →
  _get_file_hash fs p = Ret None.
Proof.
  intros H Hu. unfold _get_file_hash, os_stat, str_encode. rewrite H.
  cbn [mbind outcome_bind]. rewrite Hu. reflexivity.
Qed.

(** [_get_file_hash] never lets an exception out. *)
Lemma get_file_hash_returns fs p : ∃ h, _get_file_hash fs p = Ret h.
Proof.
  destruct (fs !! p) as [st|] eqn:E.
  - destruct (utf8 (hash_input p st)) eqn:Hu; eexists.
    + by apply get_file_hash_stat.
    + by eapply get_file_hash_unencodable.
  - eexists. by apply get_file_hash_no_stat.
Qed.

(** A fingerprint is returned only for a path [os.stat] can read whose
    text can be encoded. *)
Lemma get_file_hash_Some fs p h :
  _get_file_hash fs p = Ret (Some h) →
  ∃ st, fs !! p = Some st ∧ utf8 (hash_input p st) = true
        ∧ h = MD5.hexdigest (hash_input p st).
Proof.
  intros H. destruct (fs !! p) as [st|] eqn:E.
  - destruct (utf8 (hash_input p st)) eqn:Hu.
    + rewrite (get_file_hash_stat _ _ _ E Hu) in H. injection H as <-. eauto.
    + rewrite (get_file_hash_unencodable _ _ _ E Hu) in H. discriminate.
  - rewrite (get_file_hash_no_stat _ _ E) in H. discriminate.
Qed.

Lemma put_key_Some fs put h :
  put_key fs put = Some h →
  ∃ st, fs !! put.1.1 = Some st ∧ utf8 (hash_input put.1.1 st) = true
        ∧ h = MD5.hexdigest (hash_input put.1.1 st).
Proof.
  unfold put_key. intros H.
  destruct (get_file_hash_returns fs put.1.1) as [[h'|] Hh]; rewrite Hh in H;
    [|discriminate].
  apply get_file_hash_Some in Hh as (st & H1 & H2 & ->).
  rewrite hexdigest_usable in H. injection H as <-. eauto.
Qed.

Lemma save_cache_memory cm : memory_cache (_save_cache cm) = memory_cache cm.
Proof.
  unfold _save_cache.
  by destruct (cache_file_writable cm), (json_dumpable (memory_cache cm)).
Qed.

(** What [save_result] does for a file whose fingerprint can be computed. *)
Lemma save_result_stat fs ts cm p r st :
  fs !! p = Some st → utf8 (hash_input p st) = true →
  ∃ cm', save_result fs ts cm p r = Ret cm'
    ∧ memory_cache cm' =
        <[MD5.hexdigest (hash_input p st) := cache_entry p r ts]> (memory_cache cm).
Proof.
  intros H Hu. unfold save_result. rewrite (get_file_hash_stat _ _ _ H Hu).
  cbn [mbind outcome_bind]. rewrite hexdigest_usable.
  match goal with |- context [if ?b then _ else _] => destruct b end.
  - eexists; split; [reflexivity|]. by rewrite save_cache_memory.
  - eexists; split; [reflexivity|]. reflexivity.
Qed.

Lemma save_result_no_hash fs ts cm p r :
  _get_file_hash fs p = Ret None → save_result fs ts cm p r = Ret cm.
Proof. intros H. unfold save_result. rewrite H. reflexivity. Qed.

Lemma save_result_no_stat fs ts cm p r :
  fs !! p = None → save_result fs ts cm p r = Ret cm.
Proof. intros H. apply save_result_no_hash. by apply get_file_hash_no_stat. Qed.

Lemma lookup_no_hash fs cm p :
  _get_file_hash fs p = Ret None → get_cached_result fs cm p = Ret PNone.
Proof. intros H. unfold get_cached_result. rewrite H. reflexivity. Qed.

(** C8: when the fingerprint cannot be computed, [save_result] returns and
    leaves the cache exactly as it was: the in-memory map, the cache file
    and the record of writes. *)
Theorem save_result_unreadable_unchanged
    (fs : gmap string stat_result) (ts : string) (cm : CacheManager)
    (p : string) (r : pyval) :
  fs !! p = None →
  _get_file_hash fs p = Ret None ∧ save_result fs ts cm p r = Ret cm.
Proof.
  intros H. split; [by apply get_file_hash_no_stat | by apply save_result_no_stat].
Qed.

Lemma save_result_unreadable_unchanged_witness :
  _get_file_hash ∅ "/gone.jpg" = Ret None
  ∧ save_result ∅ "2024-01-01T00:00:00" empty_cache "/gone.jpg" sample_result
    = Ret empty_cache.
Proof. apply (save_result_unreadable_unchanged ∅). reflexivity. Defined.

(** The same when [os.stat] succeeds and the path has no encoding. *)
Example save_result_unencodable_unchanged :
  _get_file_hash latin1_files latin1_name = Ret None
  ∧ save_result latin1_files "2024-01-01T00:00:00" empty_cache latin1_name
      sample_result = Ret empty_cache.
Proof. split; reflexivity. Qed.

(** C6, as the code has it: [save_result] followed by [get_cached_result]
    for a path whose stat fields are the same at both calls and whose
    fingerprint can be computed (the text hashed has a UTF-8 encoding)
    returns exactly the result that was put. *)
Theorem put_then_lookup
    (fs fs' : gmap string stat_result) (ts : string) (cm : CacheManager)
    (p : string) (r : pyval) (st : stat_result) :
  fs !! p = Some st → fs' !! p = Some st →
  utf8 (hash_input p st) = true →
  ∃ cm', save_result fs ts cm p r = Ret cm'
         ∧ get_cached_result fs' cm' p = Ret r.
Proof.
  intros H H' Hu.
  destruct (save_result_stat fs ts cm p r st H Hu) as (cm' & Hs & Hm).
  exists cm'. split; [exact Hs|].
  unfold get_cached_result. rewrite (get_file_hash_stat _ _ _ H' Hu).
  cbn [mbind outcome_bind]. rewrite hexdigest_usable, Hm, lookup_insert_eq.
  reflexivity.
Qed.

Lemma put_then_lookup_witness :
  ∃ cm', save_result two_spellings "2024-01-01T00:00:00" empty_cache
           "photo.jpg" sample_result = Ret cm'
         ∧ get_cached_result two_spellings cm' "photo.jpg" = Ret sample_result.
Proof.
  apply (put_then_lookup two_spellings two_spellings _ _ _ _ photo_stat);
    reflexivity.
Defined.

(** C6 as stated fails: for a file whose name is not UTF-8, [os.stat]
    succeeds with the same fields at both calls, [save_result] stores
    nothing and the lookup returns [None], not the result that was put. *)
Lemma put_then_lookup_fails_unencodable :
  os_stat latin1_files latin1_name = Ret photo_stat
  ∧ save_result latin1_files "2024-01-01T00:00:00" empty_cache latin1_name
      sample_result = Ret empty_cache
  ∧ get_cached_result latin1_files empty_cache latin1_name = Ret PNone
  ∧ PNone ≠ sample_result.
Proof. repeat split. intros H. discriminate H. Qed.

(** C4, as the code has it: the fingerprint is the MD5 digest of the path
    string as passed, the size and the modification time ([None] when that
    text has no UTF-8 encoding), so it is the same whenever the same path
    string has the same stat fields. *)
Theorem fingerprint_deterministic
    (fs fs' : gmap string stat_result) (p : string) (st : stat_result) :
  fs !! p = Some st → fs' !! p = Some st →
  _get_file_hash fs p
    = Ret (if utf8 (hash_input p st)
           then Some (MD5.hexdigest (hash_input p st)) else None)
  ∧ _get_file_hash fs' p = _get_file_hash fs p.
Proof.
  intros H H'. destruct (utf8 (hash_input p st)) eqn:Hu.
  - rewrite (get_file_hash_stat _ _ _ H Hu), (get_file_hash_stat _ _ _ H' Hu).
    split; reflexivity.
  - rewrite (get_file_hash_unencodable _ _ _ H Hu),
      (get_file_hash_unencodable _ _ _ H' Hu).
    split; reflexivity.
Qed.

Lemma fingerprint_deterministic_witness :
  _get_file_hash two_spellings "photo.jpg"
    = Ret (if utf8 (hash_input "photo.jpg" photo_stat)
           then Some (MD5.hexdigest (hash_input "photo.jpg" photo_stat))
           else None)
  ∧ _get_file_hash two_spellings "photo.jpg"
    = _get_file_hash two_spellings "photo.jpg".
Proof.
  apply (fingerprint_deterministic two_spellings two_spellings); reflexivity.
Defined.

Example fingerprint_of_photo :
  _get_file_hash two_spellings "photo.jpg"
  = Ret (Some "3557f675a57133c7d43458598402aa08").
Proof. vm_compute. reflexivity. Qed.

(** C4 as stated fails: a relative and an absolute spelling of one file,
    with the same size and modification time, get different fingerprints. *)
Lemma fingerprint_differs_across_spellings :
  two_spellings !! "photo.jpg" = Some photo_stat
  ∧ two_spellings !! "/home/user/photo.jpg" = Some photo_stat
  ∧ _get_file_hash two_spellings "photo.jpg"
    ≠ _get_file_hash two_spellings "/home/user/photo.jpg".
Proof.
  split; [reflexivity|]. split; [reflexivity|].
  vm_compute. intros H. discriminate H.
Qed.

(** C5, as the code has it: when [os.stat] raises, [_get_file_hash] returns
    [None] and raises nothing, and [get_cached_result] returns [None]. *)
Theorem unreadable_path_gives_none
    (fs : gmap string stat_result) (cm : CacheManager) (p : string) :
  fs !! p = None →
  _get_file_hash fs p = Ret None ∧ get_cached_result fs cm p = Ret PNone.
Proof.
  intros H. unfold get_cached_result. rewrite (get_file_hash_no_stat _ _ H).
  split; reflexivity.
Qed.

Lemma unreadable_path_gives_none_witness :
  _get_file_hash ∅ "/gone.jpg" = Ret None
  ∧ get_cached_result ∅ empty_cache "/gone.jpg" = Ret PNone.
Proof. apply (unreadable_path_gives_none ∅). reflexivity. Defined.

(** C5 as stated fails: for a path on which [os.stat] raises, the
    fingerprint computation raises nothing. *)
Lemma fingerprint_does_not_raise :
  (∃ e, os_stat ∅ "/gone.jpg" = Raise e)
  ∧ ¬ (∃ e, _get_file_hash ∅ "/gone.jpg" = Raise e).
Proof.
  split.
  - eexists. reflexivity.
  - intros [e H]. discriminate H.
Qed.

(** C7: with an undeserialisable cache file, construction returns a cache
    whose map is empty, and every lookup on it returns [None]. *)
Theorem corrupt_file_loads_empty
    (e : exn) (writable : bool) :
  ∃ cm, __init__ None (Some (Undeserialisable e)) writable = Ret cm
        ∧ memory_cache cm = ∅
        ∧ ∀ (fs : gmap string stat_result) (p : string),
            get_cached_result fs cm p = Ret PNone.
Proof.
  eexists. split; [reflexivity|]. split; [reflexivity|].
  intros fs p. unfold get_cached_result.
  destruct (get_file_hash_returns fs p) as [h ->]. cbn [mbind outcome_bind].
  destruct (usable_hash h); [|reflexivity].
  cbn. rewrite lookup_empty. reflexivity.
Qed.

(** What [_save_cache] records, and what it leaves in the file when the
    write goes through. *)
Lemma save_cache_io cm :
  cache_io (_save_cache cm)
  = (cache_io cm ++ [if cache_file_writable cm
                     then if json_dumpable (memory_cache cm)
                          then Dumped (memory_cache cm) else DumpAborted
                     else DumpFailed])%list
  ∧ cache_file_writable (_save_cache cm) = cache_file_writable cm
  ∧ (cache_file_writable cm = true → json_dumpable (memory_cache cm) = true →
     cache_file (_save_cache cm) = Some (JsonObject (memory_cache cm))).
Proof.
  unfold _save_cache.
  destruct (cache_file_writable cm) eqn:W, (json_dumpable (memory_cache cm));
    cbn; rewrite ?W; repeat split; done.
Qed.

(** One insertion: whether it writes the cache file is decided by the size
    of the map after it. *)
Lemma save_result_flush fs ts cm p r st :
  fs !! p = Some st → utf8 (hash_input p st) = true →
  ∃ cm', save_result fs ts cm p r = Ret cm'
    ∧ memory_cache cm' =
        <[MD5.hexdigest (hash_input p st) := cache_entry p r ts]> (memory_cache cm)
    ∧ cache_file_writable cm' = cache_file_writable cm
    ∧ if (Z.of_nat (size (memory_cache cm')) mod 10 =? 0)%Z
      then cache_io cm' =
             (cache_io cm ++ [if cache_file_writable cm
                             then if json_dumpable (memory_cache cm')
                                  then Dumped (memory_cache cm') else DumpAborted
                             else DumpFailed])%list
           ∧ (cache_file_writable cm = true →
              json_dumpable (memory_cache cm') = true →
              cache_file cm' = Some (JsonObject (memory_cache cm')))
      else cache_io cm' = cache_io cm ∧ cache_file cm' = cache_file cm.
Proof.
  intros H Hu. unfold save_result. rewrite (get_file_hash_stat _ _ _ H Hu).
  cbn [mbind outcome_bind]. rewrite hexdigest_usable.
  set (m' := <[_ := _]> (memory_cache cm)).
  cbn [memory_cache set_memory_cache].
  destruct (Z.of_nat (size m') mod 10 =? 0)%Z eqn:E.
  - eexists. split; [reflexivity|]. rewrite save_cache_memory.
    cbn [memory_cache set_memory_cache]. rewrite E.
    destruct (save_cache_io (set_memory_cache m' cm)) as (Hio & Hw & Hfile).
    split; [reflexivity|]. split; [exact Hw|]. split; [exact Hio | exact Hfile].
  - eexists. split; [reflexivity|]. cbn [memory_cache set_memory_cache].
    rewrite E. repeat split.
Qed.

(** Insertions under pairwise distinct, new fingerprints: the number of
    writes grows with the size of the map, one per multiple of ten. *)
Lemma put_all_fresh fs :
  ∀ puts cm,
    Forall (fun put => ∃ h, put_key fs put = Some h
                            ∧ memory_cache cm !! h = None) puts →
    NoDup (put_key fs <$> puts) →
    ∃ cm', put_all fs cm puts = Ret cm'
      ∧ size (memory_cache cm') = (size (memory_cache cm) + length puts)%nat
      ∧ Z.of_nat (length (cache_io cm')) =
          (Z.of_nat (length (cache_io cm))
           + Z.of_nat (size (memory_cache cm) + length puts) / 10
           - Z.of_nat (size (memory_cache cm)) / 10)%Z.
Proof.
  induction puts as [|[[p r] ts] puts IH]; intros cm Hall Hnd.
  - exists cm. cbn. rewrite Nat.add_0_r. repeat split; lia.
  - apply Forall_cons in Hall as [(h & Hk & Hfresh) Hall].
    apply NoDup_cons in Hnd as [Hnotin Hnd].
    destruct (put_key_Some _ _ _ Hk) as (st & Hst & Hu & Hh). cbn [fst] in Hst, Hu, Hh.
    subst h.
    destruct (save_result_flush fs ts cm p r st Hst Hu) as (cm1 & Hs & Hm & _ & Hio).
    assert (Hsize : size (memory_cache cm1) = S (size (memory_cache cm))).
    { rewrite Hm. by apply map_size_insert_None. }
    destruct (IH cm1) as (cm' & Hrun & Hsz & Hlen).
    + apply Forall_forall. intros put Hin.
      rewrite Forall_forall in Hall. destruct (Hall put Hin) as (h' & Hk' & Hf').
      exists h'. split; [exact Hk'|]. rewrite Hm.
      rewrite lookup_insert_ne; [exact Hf'|].
      intros Heq. apply Hnotin. apply list_elem_of_fmap.
      exists put. split; [|exact Hin].
      rewrite Hk', Hk. by rewrite Heq.
    + exact Hnd.
    + exists cm'. cbn [put_all]. rewrite Hs. cbn [mbind outcome_bind].
      split; [exact Hrun|]. split.
      * rewrite Hsz, Hsize. cbn [length]. lia.
      * rewrite Hlen, Hsize. cbn [length].
        replace (S (size (memory_cache cm)) + length puts)%nat
          with (size (memory_cache cm) + S (length puts))%nat by lia.
        rewrite Hsize in Hio.
        destruct (Z.of_nat (S (size (memory_cache cm))) mod 10 =? 0)%Z eqn:E.
        -- destruct Hio as [Hio _]. rewrite Hio, length_app. cbn [length].
           apply Z.eqb_eq in E.
           assert (Z.of_nat (S (size (memory_cache cm))) / 10
                   = Z.of_nat (size (memory_cache cm)) / 10 + 1)%Z.
           { Z.div_mod_to_equations. lia. }
           lia.
        -- destruct Hio as [Hio _]. rewrite Hio.
           apply Z.eqb_neq in E.
           assert (Z.of_nat (S (size (memory_cache cm))) / 10
                   = Z.of_nat (size (memory_cache cm)) / 10)%Z.
           { Z.div_mod_to_equations. lia. }
           lia.
Qed.

(** C3, as the code has it.  An insertion (a put whose fingerprint can be
    computed) writes the whole map to the cache file exactly when the map
    then holds a multiple of ten entries; the write goes through when the
    file can be opened and every string of the map can be encoded.  For
    insertions under pairwise distinct fingerprints into an empty map that
    is every tenth insertion: after [n] of them, [n / 10] writes have been
    made. *)
Theorem flush_every_tenth_entry (fs : gmap string stat_result) :
  (∀ (ts : string) (cm : CacheManager) (p : string) (r : pyval)
     (st : stat_result),
      fs !! p = Some st → utf8 (hash_input p st) = true →
      ∃ cm', save_result fs ts cm p r = Ret cm'
        ∧ if (Z.of_nat (size (memory_cache cm')) mod 10 =? 0)%Z
          then cache_io cm' =
                 (cache_io cm ++ [if cache_file_writable cm
                                 then if json_dumpable (memory_cache cm')
                                      then Dumped (memory_cache cm')
                                      else DumpAborted
                                 else DumpFailed])%list
               ∧ (cache_file_writable cm = true →
                  json_dumpable (memory_cache cm') = true →
                  cache_file cm' = Some (JsonObject (memory_cache cm')))
          else cache_io cm' = cache_io cm ∧ cache_file cm' = cache_file cm)
  ∧ (∀ (cm : CacheManager) (puts : list (string * pyval * string)) (n : nat),
      memory_cache cm = ∅ →
      Forall (fun put => is_Some (put_key fs put)) puts →
      NoDup (put_key fs <$> puts) →
      (n ≤ length puts)%nat →
      ∃ cm', put_all fs cm (take n puts) = Ret cm'
        ∧ size (memory_cache cm') = n
        ∧ Z.of_nat (length (cache_io cm')) =
            (Z.of_nat (length (cache_io cm)) + Z.of_nat n / 10)%Z).
Proof.
  split.
  - intros ts cm p r st H Hu.
    destruct (save_result_flush fs ts cm p r st H Hu) as (cm' & Hs & _ & _ & Hio).
    exists cm'. split; [exact Hs | exact Hio].
  - intros cm puts n Hempty Hall Hnd Hn.
    destruct (put_all_fresh fs (take n puts) cm) as (cm' & Hrun & Hsz & Hlen).
    + apply Forall_take. eapply Forall_impl; [exact Hall|].
      intros put [h Hh]. exists h. split; [exact Hh|].
      rewrite Hempty. apply lookup_empty.
    + rewrite fmap_take. eapply sublist_NoDup; [exact Hnd|]; apply sublist_take.
    + exists cm'. split; [exact Hrun|].
      rewrite Hempty, map_size_empty in Hsz, Hlen.
      rewrite length_take_le in Hsz, Hlen by exact Hn.
      cbn [Nat.add] in Hsz, Hlen. split; [exact Hsz|].
      rewrite Hlen. change (Z.of_nat 0 / 10)%Z with 0%Z. lia.
Qed.

Lemma flush_every_tenth_entry_witness :
  (∃ cm', save_result ten_files "2024-01-01T00:00:00" empty_cache "/p/0.jpg"
            sample_result = Ret cm'
     ∧ if (Z.of_nat (size (memory_cache cm')) mod 10 =? 0)%Z
       then cache_io cm' =
              [if json_dumpable (memory_cache cm')
               then Dumped (memory_cache cm') else DumpAborted]
            ∧ (true = true → json_dumpable (memory_cache cm') = true →
               cache_file cm' = Some (JsonObject (memory_cache cm')))
       else cache_io cm' = [] ∧ cache_file cm' = None)
  ∧ (∃ cm', put_all ten_files empty_cache (take 10 ten_puts) = Ret cm'
       ∧ size (memory_cache cm') = 10%nat
       ∧ Z.of_nat (length (cache_io cm')) = (0 + 10 / 10)%Z).
Proof.
  split.
  - apply (proj1 (flush_every_tenth_entry ten_files) _ empty_cache _ _ photo_stat);
      reflexivity.
  - apply (proj2 (flush_every_tenth_entry ten_files) empty_cache ten_puts 10%nat).
    + reflexivity.
    + apply (bool_decide_unpack _). vm_compute. exact I.
    + apply (bool_decide_unpack _). vm_compute. exact I.
    + vm_compute. lia.
Defined.

(** C3 as stated fails both ways.  Ten puts for one unchanged file leave
    one entry and write nothing, so the tenth does not flush; once ten
    files are cached, an eleventh put that overwrites one of them flushes
    again; and on a cache loaded with nine entries the first put of a new
    file flushes. *)
Lemma flush_does_not_follow_ordinal :
  (cm ← put_all two_spellings empty_cache (replicate 10 (put_of "photo.jpg"));
   Ret (size (memory_cache cm), length (cache_io cm))) = Ret (1%nat, 0%nat)
  ∧ (cm ← put_all ten_files empty_cache ten_puts;
     Ret (size (memory_cache cm), length (cache_io cm))) = Ret (10%nat, 1%nat)
  ∧ (cm ← put_all ten_files empty_cache (ten_puts ++ [put_of "/p/0.jpg"])%list;
     Ret (size (memory_cache cm), length (cache_io cm))) = Ret (10%nat, 2%nat)
  ∧ (cm0 ← __init__ None (Some nine_entry_file) true;
     cm ← save_result ten_files "2024-01-02T00:00:00" cm0 "/p/9.jpg" sample_result;
     Ret (size (memory_cache cm0), length (cache_io cm0),
          size (memory_cache cm), length (cache_io cm)))
    = Ret (9%nat, 0%nat, 10%nat, 1%nat).
Proof. repeat split; vm_compute; reflexivity. Qed.

(** The tenth insertion of the run above goes through: the file holds the
    ten entries. *)
Example tenth_put_is_written :
  put_all ten_files empty_cache ten_puts = Ret ten_cached
  ∧ cache_io ten_cached = [Dumped (memory_cache ten_cached)]
  ∧ cache_file ten_cached = Some (JsonObject (memory_cache ten_cached)).
Proof. split; [|split]; vm_compute; reflexivity. Qed.

(** ** Totality of lookup *)

Lemma save_result_keeps_dicts fs ts cm p r cm' :
  entries_are_dicts cm → save_result fs ts cm p r = Ret cm' →
  entries_are_dicts cm'.
Proof.
  intros Hwf Hs. destruct (get_file_hash_returns fs p) as [[h|] Hh].
  - apply get_file_hash_Some in Hh as (st & E & Hu & _).
    destruct (save_result_stat fs ts cm p r st E Hu) as (cm2 & Hs2 & Hm).
    rewrite Hs in Hs2. injection Hs2 as <-.
    unfold entries_are_dicts. rewrite Hm. apply map_Forall_insert_2; [reflexivity|].
    exact Hwf.
  - rewrite (save_result_no_hash fs ts cm p r Hh) in Hs.
    injection Hs as <-. exact Hwf.
Qed.

Lemma init_keeps_dicts dir_error file writable cm :
  match file with
  | Some (JsonObject data) => map_Forall (fun _ v => is_dict v = true) data
  | _ => True
  end →
  __init__ dir_error file writable = Ret cm → entries_are_dicts cm.
Proof.
  intros Hfile Hinit. unfold __init__ in Hinit.
  destruct dir_error; [discriminate|]. injection Hinit as <-.
  unfold entries_are_dicts, _load_cache. cbn [cache_file memory_cache].
  destruct file as [[e|data]|]; cbn.
  - apply map_Forall_empty.
  - rewrite (right_id_L ∅ (∪)). exact Hfile.
  - apply map_Forall_empty.
Qed.

(** C10, as the code has it: when every entry of the map is an object,
    [get_cached_result] returns a value for every path and every file
    system, whether [os.stat] can read the path or not, and whether the
    fingerprint is in the map or not. *)
Theorem lookup_total
    (fs : gmap string stat_result) (cm : CacheManager) (p : string) :
  entries_are_dicts cm → ∃ v, get_cached_result fs cm p = Ret v.
Proof.
  intros Hwf. unfold get_cached_result.
  destruct (get_file_hash_returns fs p) as [h ->]. cbn [mbind outcome_bind].
  destruct (usable_hash h) as [h'|]; [|by eexists].
  destruct (memory_cache cm !! h') as [v|] eqn:E; [|by eexists].
  apply Hwf in E. destruct v; try discriminate E. eexists. reflexivity.
Qed.

Lemma lookup_total_witness :
  ∃ v, get_cached_result two_spellings
         (mkCache {[ "3557f675a57133c7d43458598402aa08" :=
                       cache_entry "photo.jpg" sample_result "2024-01-01T00:00:00" ]}
                  None true [])
         "photo.jpg" = Ret v.
Proof.
  apply lookup_total. apply (bool_decide_unpack _). vm_compute. exact I.
Defined.

(** C10 as stated fails: a cache file that is valid JSON but holds a number
    under the fingerprint of [photo.jpg] loads without error, and the
    lookup of [photo.jpg] then raises [AttributeError]. *)
Lemma lookup_raises_on_foreign_entry :
  ∃ cm, __init__ None (Some foreign_file) true = Ret cm
        ∧ get_cached_result two_spellings cm "photo.jpg"
          = Raise (Exn AttributeError "object has no attribute 'get'").
Proof. eexists. split; [reflexivity|]. vm_compute. reflexivity. Qed.

(** ** The analyzer and the scheduler *)

Lemma analyze_image_returns (attempt : outcome pyval) :
  analyze_image attempt
  = Ret (match attempt with Ret r => r | Raise e => error_result e end).
Proof. destruct attempt; reflexivity. Qed.

Lemma error_result_truthy (e : exn) : truthy (error_result e) = true.
Proof. reflexivity. Qed.

Example superseded_run :
  option_map (fun s => (analyzer_calls s, threads s !! 0%nat, current_image_path s))
    (run fresh_viewer superseded)
  = Some ([(Some "/p/A.jpg", false, false)],
          Some (InAnalyzer AutoAnalysis (Some "/p/A.jpg") None),
          Some "/p/B.jpg").
Proof. vm_compute. reflexivity. Qed.

(** The return of an analyzer call whose target is no longer current. *)
Lemma stale_return_step
    (s : PhotoViewer) (k : tick) (tid : nat) (attempt : outcome pyval)
    (kind : thread_kind) (target : option string)
    (exif : option (list (string * pyval))) :
  ev k = EvThreadReturn tid attempt →
  threads s !! tid = Some (InAnalyzer kind target exif) →
  target ≠ current_image_path s →
  (clock s ≤ at_ms k)%Z →
  step s k = Some (set_threads (delete tid (threads s)) (set_clock (at_ms k) s)).
Proof.
  intros Hev Hth Hstale Hclock.
  unfold step. rewrite Hev.
  destruct (at_ms k <? clock s)%Z eqn:E; [apply Z.ltb_lt in E; lia|].
  cbn [threads set_clock]. rewrite Hth. rewrite analyze_image_returns.
  unfold _auto_ai_analysis_complete. cbn [current_image_path set_threads set_clock].
  destruct (decide (target = current_image_path s)) as [Heq|_]; [contradiction|].
  reflexivity.
Qed.

(** C1: when the analyzer call of a worker returns and the worker's target
    is not the current image, the step happens and changes nothing but the
    clock and the set of threads: the cache (map, file and writes), what the
    widgets were told and the pending callbacks are as before. *)
Theorem stale_completion_discarded
    (s : PhotoViewer) (k : tick) (tid : nat) (attempt : outcome pyval)
    (kind : thread_kind) (target : option string)
    (exif : option (list (string * pyval))) :
  ev k = EvThreadReturn tid attempt →
  threads s !! tid = Some (InAnalyzer kind target exif) →
  target ≠ current_image_path s →
  (clock s ≤ at_ms k)%Z →
  ∃ s', step s k = Some s'
        ∧ s' = set_threads (delete tid (threads s)) (set_clock (at_ms k) s)
        ∧ cache_manager s' = cache_manager s
        ∧ ui s' = ui s
        ∧ tk_after s' = tk_after s.
Proof.
  intros Hev Hth Hstale Hclock. eexists.
  split; [by eapply stale_return_step|]. repeat split.
Qed.

Lemma stale_completion_discarded_witness :
  ∃ s', step superseded_state
          (at_time 2700 (EvThreadReturn 0 (Ret sample_result))) = Some s'
        ∧ s' = set_threads (delete 0%nat (threads superseded_state))
                 (set_clock 2700 superseded_state)
        ∧ cache_manager s' = cache_manager superseded_state
        ∧ ui s' = ui superseded_state
        ∧ tk_after s' = tk_after superseded_state.
Proof.
  apply (stale_completion_discarded superseded_state
           (at_time 2700 (EvThreadReturn 0 (Ret sample_result))) 0%nat
           (Ret sample_result) AutoAnalysis (Some "/p/A.jpg") None).
  - reflexivity.
  - vm_compute. reflexivity.
  - vm_compute. intros H. discriminate H.
  - vm_compute. intros H. discriminate H.
Defined.

(** Selecting an image that needs analysis and has a usable cached result:
    the result is shown at once, no timer is armed and no thread started. *)
Lemma cached_selection_immediate
    (w : world) (now : Z) (s : PhotoViewer) (p : string) (r : pyval)
    (exif : option (list (string * pyval))) :
  images w !! p = Some exif →
  has_api_key s && ai_analyzer s = true →
  negb (has_exif_of exif) || negb (has_location_of exif) = true →
  get_cached_result (fs w) (cache_manager s) p = Ret r →
  truthy r = true →
  let s' := load_image w now s p in
  analysis_timer s' = None
  ∧ tk_after s' = tk_after (_cancel_analysis_timer s)
  ∧ next_after_id s' = next_after_id s
  ∧ threads s' = threads s
  ∧ analyzer_calls s' = analyzer_calls s
  ∧ cache_manager s' = cache_manager s
  ∧ ui s' = (ui s ++ [UiImmediateReset; UiShowImage p;
                      UiResetInfoLabels exif (has_exif_of exif) (has_location_of exif);
                      UiUpdateInfoLabels r exif; UiStatus StAnalysisDone;
                      UiDisplayAiResults r;
                      UiStatus StCacheShown; UiStatus (StLoaded p)])%list.
Proof.
  intros Himg Hapi Hneed Hget Htruthy.
  unfold load_image. rewrite Himg.
  assert (Hc : cache_manager (_cancel_analysis_timer s) = cache_manager s).
  { unfold _cancel_analysis_timer. by destruct (analysis_timer s). }
  assert (Ha : has_api_key (_cancel_analysis_timer s) = has_api_key s
               ∧ ai_analyzer (_cancel_analysis_timer s) = ai_analyzer s
               ∧ analysis_timer (_cancel_analysis_timer s) = None
               ∧ next_after_id (_cancel_analysis_timer s) = next_after_id s
               ∧ threads (_cancel_analysis_timer s) = threads s
               ∧ analyzer_calls (_cancel_analysis_timer s) = analyzer_calls s
               ∧ ui (_cancel_analysis_timer s) = ui s).
  { unfold _cancel_analysis_timer. by destruct (analysis_timer s) eqn:E. }
  destruct Ha as (Hk & Han & Ht & Hn & Hth & Hcalls & Hui).
  set (s1 := _cancel_analysis_timer s) in *.
  cbn [has_api_key ai_analyzer render set_ui set_current _immediate_reset
       set_analyzing].
  rewrite Hk, Han, Hapi, Hneed.
  unfold _schedule_smart_analysis.
  cbn [cache_manager set_analyzing set_ui render set_current _immediate_reset
       current_image_path].
  rewrite Hc, Hget, Htruthy.
  destruct (decide (Some p = Some p)) as [_|Hne]; [|contradiction].
  unfold _update_info_labels. cbn.
  destruct (decide (Some p ≠ Some p)) as [Hne|_]; [contradiction|].
  cbn. rewrite Ht, Hn, Hth, Hcalls, Hc, Hui. unfold read_exif. rewrite Himg.
  cbn. rewrite <- !app_assoc. repeat split.
Qed.

(** ** Debounce *)

Ltac by_fields := cbn; repeat case_match; simplify_eq; cbn; repeat split; try done.

Lemma Forall_after_filter (P : after_entry → Prop) (id : nat)
    (q : list after_entry) :
  Forall P q → Forall P (filter (fun a => after_id a ≠ id) q).
Proof.
  rewrite !Forall_forall. intros H a Ha.
  apply list_elem_of_filter in Ha as [_ Ha]. by apply H.
Qed.

Lemma cancel_timer_fields (s : PhotoViewer) :
  let s' := _cancel_analysis_timer s in
  threads s' = threads s ∧ analysis_delay_ms s' = analysis_delay_ms s
  ∧ analyzer_calls s' = analyzer_calls s ∧ timers_fired s' = timers_fired s
  ∧ clock s' = clock s.
Proof. unfold _cancel_analysis_timer. by destruct (analysis_timer s). Qed.

(** Each selection cancels the debounce timer that is pending: after
    [_cancel_analysis_timer] only display callbacks are left. *)
Lemma cancel_timer_settled (s : PhotoViewer) :
  settled s → Forall no_debounce (tk_after (_cancel_analysis_timer s)).
Proof.
  intros [_ Hq]. unfold _cancel_analysis_timer.
  destruct (analysis_timer s) as [id|] eqn:Ht; cbn.
  - rewrite Forall_forall in Hq. apply Forall_forall. intros a Ha.
    apply list_elem_of_filter in Ha as [Hid Ha].
    destruct (Hq a Ha) as [Hnd|Heq]; [exact Hnd|]. congruence.
  - eapply Forall_impl; [exact Hq|]. intros a [Hnd|Heq]; [exact Hnd|discriminate].
Qed.

(** What [load_image] leaves untouched. *)
Lemma load_image_fields (w : world) (now : Z) (s : PhotoViewer) (X : string) :
  let s' := load_image w now s X in
  threads s' = threads s ∧ analysis_delay_ms s' = analysis_delay_ms s
  ∧ analyzer_calls s' = analyzer_calls s ∧ timers_fired s' = timers_fired s
  ∧ clock s' = clock s ∧ current_image_path s' = Some X.
Proof.
  destruct (cancel_timer_fields s) as (H1 & H2 & H3 & H4 & H5).
  unfold load_image, _schedule_smart_analysis, _update_info_labels.
  set (s1 := _cancel_analysis_timer s) in *. clearbody s1.
  destruct s1; cbn in *; subst. by_fields.
Qed.

(** What [load_image] leaves pending. *)
Lemma load_image_arms (w : world) (now : Z) (s : PhotoViewer) (X : string) :
  settled s → armed (analysis_delay_ms s) now X (load_image w now s X).
Proof.
  intros Hs. pose proof (cancel_timer_settled s Hs) as Hq.
  destruct Hs as [Hns _]. unfold no_spawned in Hns.
  destruct (cancel_timer_fields s) as (H1 & H2 & _ & _ & _).
  rewrite <- H2. rewrite <- H1 in Hns.
  unfold load_image, _schedule_smart_analysis, _update_info_labels, armed,
    no_spawned.
  set (s1 := _cancel_analysis_timer s) in *. clearbody s1.
  destruct s1; cbn in *; subst.
  repeat case_match; simplify_eq; cbn; (split; [exact Hns|]);
    (split; [|reflexivity]); rewrite ?Forall_app; repeat split;
    try (eapply Forall_impl; [exact Hq|]; intros ? ?; by left).
  all: apply Forall_singleton; right; repeat split.
Qed.

Lemma run_app (s : PhotoViewer) (ks1 ks2 : list tick) :
  run s (ks1 ++ ks2) = (s1 ← run s ks1; run s1 ks2).
Proof.
  revert s. induction ks1 as [|k ks1 IH]; intros s; [reflexivity|].
  cbn [run app]. destruct (step s k); [apply IH | reflexivity].
Qed.

Lemma callback_fields (s : PhotoViewer) (id : nat) (cb : callback) :
  let s' := run_callback (root_after_cancel id s) cb in
  clock s' = clock s
  ∧ current_image_path s' = current_image_path s
  ∧ analyzing_image_path s' = analyzing_image_path s
  ∧ analysis_timer s' = analysis_timer s
  ∧ analysis_delay_ms s' = analysis_delay_ms s
  ∧ analyzer_calls s' = analyzer_calls s
  ∧ (match cb with CbDelayedAnalysisStart _ => False | _ => True end →
     threads s' = threads s ∧ timers_fired s' = timers_fired s
     ∧ tk_after s' = filter (fun a => after_id a ≠ id) (tk_after s)).
Proof.
  destruct cb; cbn; unfold _delayed_analysis_start, _update_info_labels;
    by_fields.
Qed.

(** The return of an analyzer call adds display callbacks at most. *)
Lemma analysis_complete_fields (w : world) (now : Z) (ts : string)
    (s : PhotoViewer) (tgt : option string)
    (ex : option (list (string * pyval))) (r : pyval) :
  let s' := _auto_ai_analysis_complete w now ts s tgt ex r in
  clock s' = clock s
  ∧ current_image_path s' = current_image_path s
  ∧ analyzing_image_path s' = analyzing_image_path s
  ∧ analysis_timer s' = analysis_timer s
  ∧ analysis_delay_ms s' = analysis_delay_ms s
  ∧ threads s' = threads s ∧ analyzer_calls s' = analyzer_calls s
  ∧ timers_fired s' = timers_fired s
  ∧ ∃ extra, tk_after s' = (tk_after s ++ extra)%list
             ∧ Forall no_debounce extra.
Proof.
  unfold _auto_ai_analysis_complete. repeat case_match; cbn; repeat split; try done.
  - eexists. rewrite <- app_assoc. split; [reflexivity|]. repeat constructor.
  - eexists. split; [reflexivity|]. repeat constructor.
  - exists []. by rewrite app_nil_r.
  - exists []. by rewrite app_nil_r.
Qed.

Lemma step_clock (s s' : PhotoViewer) (k : tick) :
  step s k = Some s' → clock s' = at_ms k ∧ (clock s ≤ at_ms k)%Z.
Proof.
  unfold step. destruct (at_ms k <? clock s)%Z eqn:E; [discriminate|].
  apply Z.ltb_ge in E. intros H. split; [|exact E].
  destruct (ev k) as [p| |parsed| |id|tid|tid attempt].
  - injection H as <-.
    by destruct (load_image_fields (env k) (at_ms k) (set_clock (at_ms k) s) p)
      as (_ & _ & _ & _ & -> & _).
  - injection H as <-. unfold analyze_with_ai. by case_match.
  - injection H as <-. by destruct parsed.
  - injection H as <-. reflexivity.
  - destruct (find_after id _) as [a|]; [|discriminate].
    destruct (due a <=? at_ms k)%Z; [|discriminate]. injection H as <-.
    by destruct (callback_fields (set_clock (at_ms k) s) id (after_cb a))
      as (-> & _).
  - cbn [threads set_clock] in H.
    destruct (threads s !! tid) as [[kind|]|]; try discriminate.
    unfold _auto_ai_analysis_begin in H.
    destruct (decide _) in H; cbn in H; by injection H as <-.
  - cbn [threads set_clock] in H.
    destruct (threads s !! tid) as [[|kind tgt ex]|]; try discriminate.
    rewrite analyze_image_returns in H. injection H as <-.
    match goal with
    | |- clock (_auto_ai_analysis_complete ?w ?n ?ts ?s0 ?tg ?e0 ?r) = _ =>
        by destruct (analysis_complete_fields w n ts s0 tg e0 r) as (-> & _)
    end.
Qed.

Lemma run_clock (ks : list tick) :
  ∀ s s', run s ks = Some s' → (clock s ≤ clock s')%Z.
Proof.
  induction ks as [|k ks IH]; intros s s' H; cbn in H.
  - injection H as <-. lia.
  - destruct (step s k) as [s1|] eqn:E; [|discriminate].
    apply step_clock in E as [E1 E2]. apply IH in H. lia.
Qed.

(** No event of a run is later than the clock at its end. *)
Lemma run_times (ks : list tick) :
  ∀ s s', run s ks = Some s' → Forall (fun k => (at_ms k ≤ clock s')%Z) ks.
Proof.
  induction ks as [|k ks IH]; intros s s' H; cbn in H; [constructor|].
  destruct (step s k) as [s1|] eqn:E; [|discriminate].
  apply step_clock in E as [E1 E2]. constructor.
  - apply run_clock in H. lia.
  - eapply IH. exact H.
Qed.

(** While the timer of the selection is not yet due, a system event can
    only be the return of an analyzer call or a display callback: no
    debounce callback runs and no analyzer call is made. *)
Lemma armed_gap_step (d t : Z) (X : string) (s s' : PhotoViewer) (k : tick) :
  armed d t X s → is_system (ev k) = true → (at_ms k < t + d)%Z →
  step s k = Some s' →
  armed d t X s' ∧ analyzer_calls s' = analyzer_calls s
  ∧ timers_fired s' = timers_fired s
  ∧ analysis_delay_ms s' = analysis_delay_ms s.
Proof.
  intros (Hns & Hq & Hcur) Hsys Hlt Hstep. unfold step in Hstep.
  destruct (at_ms k <? clock s)%Z; [discriminate|].
  destruct (ev k) as [p| |parsed| |id|tid|tid attempt]; try discriminate.
  - cbn [tk_after set_clock] in Hstep.
    destruct (find_after id (tk_after s)) as [a|] eqn:Hfind; [|discriminate].
    destruct (due a <=? at_ms k)%Z eqn:Hdue; [|discriminate].
    injection Hstep as <-. apply Z.leb_le in Hdue.
    apply find_some in Hfind as [Hin _]. apply list_elem_of_In in Hin.
    assert (Hnd : no_debounce a).
    { rewrite Forall_forall in Hq. destruct (Hq a Hin) as [Hnd|(_ & Hd & _)];
        [exact Hnd | lia]. }
    destruct (callback_fields (set_clock (at_ms k) s) id (after_cb a))
      as (_ & H1 & H2 & H3 & H4 & H5 & H6).
    destruct H6 as (H6 & H7 & H8); [exact Hnd|].
    cbn [current_image_path analyzing_image_path analysis_timer
         analysis_delay_ms analyzer_calls threads timers_fired tk_after
         set_clock] in *.
    split; [|by rewrite H4, H5, H7].
    unfold armed, no_spawned. rewrite H1, H2, H3, H6, H8.
    split; [exact Hns|]. split; [|exact Hcur]. by apply Forall_after_filter.
  - cbn [threads set_clock] in Hstep.
    destruct (threads s !! tid) as [[kind|]|] eqn:Hl; try discriminate.
    apply Hns in Hl. destruct Hl.
  - cbn [threads set_clock] in Hstep.
    destruct (threads s !! tid) as [[|kind tgt ex]|]; try discriminate.
    rewrite analyze_image_returns in Hstep. injection Hstep as <-.
    match goal with
    | |- context [_auto_ai_analysis_complete ?w ?n ?ts ?s0 ?tg ?e0 ?r] =>
        destruct (analysis_complete_fields w n ts s0 tg e0 r)
          as (_ & H1 & H2 & H3 & H4 & H5 & H6 & H7 & extra & H8 & H9)
    end.
    cbn [current_image_path analyzing_image_path analysis_timer
         analysis_delay_ms analyzer_calls threads timers_fired tk_after
         set_clock set_threads] in *.
    split; [|by rewrite H4, H6, H7].
    unfold armed, no_spawned. rewrite H1, H2, H3, H5, H8.
    split; [by apply map_Forall_delete|]. split; [|exact Hcur].
    apply Forall_app. split; [exact Hq|].
    eapply Forall_impl; [exact H9|]. intros a Ha. by left.
Qed.

Lemma armed_gap_run (d t : Z) (X : string) (sys : list tick) :
  ∀ s s', armed d t X s → system_only sys →
          Forall (fun k => (at_ms k < t + d)%Z) sys →
          run s sys = Some s' →
          armed d t X s' ∧ analyzer_calls s' = analyzer_calls s
          ∧ timers_fired s' = timers_fired s
          ∧ analysis_delay_ms s' = analysis_delay_ms s.
Proof.
  induction sys as [|k sys IH]; intros s s' Harmed Hsys Htimes Hrun;
    cbn in Hrun.
  - injection Hrun as <-. done.
  - apply Forall_cons in Hsys as [Hk Hsys].
    apply Forall_cons in Htimes as [Ht Htimes].
    destruct (step s k) as [s1|] eqn:E; [|discriminate].
    destruct (armed_gap_step d t X s s1 k Harmed Hk Ht E) as (Ha & H1 & H2 & H3).
    destruct (IH s1 s' Ha Hsys Htimes Hrun) as (Ha' & H1' & H2' & H3').
    split; [exact Ha'|]. by rewrite H1', H2', H3', H1, H2, H3.
Qed.

Lemma armed_settled (d t : Z) (X : string) (s : PhotoViewer) :
  armed d t X s → settled s.
Proof.
  intros (Hns & Hq & _). split; [exact Hns|].
  eapply Forall_impl; [exact Hq|]. intros a [Hnd|(Ht & _)]; [by left|by right].
Qed.

(** A selection and the system events that follow it before its timer is
    due. *)
Lemma rapid_segment (s s1 : PhotoViewer) (k : tick) (X : string)
    (sys : list tick) :
  settled s → ev k = EvSelect X → system_only sys →
  run s (k :: sys) = Some s1 →
  (clock s1 < at_ms k + analysis_delay_ms s)%Z →
  armed (analysis_delay_ms s) (at_ms k) X s1
  ∧ analyzer_calls s1 = analyzer_calls s
  ∧ timers_fired s1 = timers_fired s
  ∧ analysis_delay_ms s1 = analysis_delay_ms s.
Proof.
  intros Hs Hev Hsys Hrun Hlt. cbn [run] in Hrun.
  destruct (step s k) as [sk|] eqn:E; [|discriminate].
  assert (Hsk : sk = load_image (env k) (at_ms k) (set_clock (at_ms k) s) X).
  { unfold step in E. rewrite Hev in E.
    destruct (at_ms k <? clock s)%Z; [discriminate|]. by injection E as <-. }
  destruct (load_image_fields (env k) (at_ms k) (set_clock (at_ms k) s) X)
    as (_ & H2 & H3 & H4 & _).
  pose proof (load_image_arms (env k) (at_ms k) (set_clock (at_ms k) s) X Hs)
    as Harmed.
  rewrite <- Hsk in H2, H3, H4, Harmed.
  cbn [analysis_delay_ms analyzer_calls timers_fired set_clock] in *.
  destruct (armed_gap_run _ _ X sys sk s1 Harmed Hsys) as (Ha & H1' & H2' & H3');
    [|exact Hrun|].
  - eapply Forall_impl; [exact (run_times sys sk s1 Hrun)|].
    intros k1 Hk1. cbn beta in Hk1. lia.
  - split; [exact Ha|]. by rewrite H1', H2', H3', H2, H3, H4.
Qed.

(** X18: a selection supersedes the analysis in flight.  A's analyzer call
    is out, another image B is selected, then the call returns, with a
    result or an error: the step happens and leaves the cache, what the
    widgets were told and the pending callbacks as the selection of B left
    them. *)
Lemma superseded_selection_discards
    (s sB : PhotoViewer) (kB k : tick) (tid : nat) (attempt : outcome pyval)
    (kind : thread_kind) (A B : string) (exif : option (list (string * pyval))) :
  threads s !! tid = Some (InAnalyzer kind (Some A) exif) →
  ev kB = EvSelect B → A ≠ B → step s kB = Some sB →
  ev k = EvThreadReturn tid attempt → (at_ms kB ≤ at_ms k)%Z →
  ∃ s', step sB k = Some s'
        ∧ cache_manager s' = cache_manager sB ∧ ui s' = ui sB
        ∧ tk_after s' = tk_after sB.
Proof.
  intros Hth HevB Hne HstepB Hev Htime.
  pose proof (step_clock _ _ _ HstepB) as [Hclock _].
  unfold step in HstepB. rewrite HevB in HstepB.
  destruct (at_ms kB <? clock s)%Z; [discriminate|]. injection HstepB as <-.
  destruct (load_image_fields (env kB) (at_ms kB) (set_clock (at_ms kB) s) B)
    as (HthB & _ & _ & _ & _ & HcurB).
  set (sB := load_image _ _ _ _) in *.
  eexists. split.
  - eapply stale_return_step; [exact Hev | | | lia].
    + rewrite HthB. exact Hth.
    + rewrite HcurB. congruence.
  - repeat split.
Qed.

(** After the last selection the viewer moves through the phases of
    [last_phase] and nowhere else. *)
Lemma last_phase_step (C : string) (L : list (option string * bool * bool))
    (F : list string) (s s' : PhotoViewer) (k : tick) :
  last_phase C L F s → is_system (ev k) = true → step s k = Some s' →
  last_phase C L F s'.
Proof.
  intros Hph Hsys Hstep. unfold step in Hstep.
  destruct (at_ms k <? clock s)%Z; [discriminate|].
  destruct (ev k) as [p| |parsed| |id|tid'|tid' attempt]; try discriminate.
  - (* Tk runs a pending callback *)
    cbn [tk_after set_clock] in Hstep.
    destruct (find_after id (tk_after s)) as [a|] eqn:Hfind; [|discriminate].
    destruct (due a <=? at_ms k)%Z; [|discriminate]. injection Hstep as <-.
    apply find_some in Hfind as [Hin Hid]. apply Nat.eqb_eq in Hid.
    apply list_elem_of_In in Hin.
    destruct (callback_fields (set_clock (at_ms k) s) id (after_cb a))
      as (_ & H1 & H2 & _ & _ & H5 & H6).
    cbn [current_image_path analyzing_image_path analyzer_calls threads
         timers_fired tk_after set_clock] in H1, H2, H5, H6.
    assert (Hui : no_debounce a → last_phase C L F s →
                  last_phase C L F
                    (run_callback (root_after_cancel id (set_clock (at_ms k) s))
                       (after_cb a))).
    { intros Hnd Hph'. destruct (H6 Hnd) as (H7 & H8 & H9).
      destruct Hph' as [id0 Hq Hns Hcur Hcalls Hfired
                       |tid k0 Hq Hth Hothers Hcur Han Hcalls Hfired
                       |Hq Hns Hcalls Hfired].
      - apply (PhWaiting C L F _ id0); unfold no_spawned;
          rewrite ?H1, ?H2, ?H5, ?H7, ?H8, ?H9; try done.
        by apply Forall_after_filter.
      - apply (PhStarted C L F _ tid k0);
          rewrite ?H1, ?H2, ?H5, ?H7, ?H8, ?H9; try done.
        by apply Forall_after_filter.
      - apply PhPast; unfold no_spawned;
          rewrite ?H1, ?H2, ?H5, ?H7, ?H8, ?H9; try done.
        by apply Forall_after_filter. }
    destruct Hph as [id0 Hq Hns Hcur Hcalls Hfired
                    |tid k0 Hq Hth Hothers Hcur Han Hcalls Hfired
                    |Hq Hns Hcalls Hfired].
    + pose proof Hq as Hq'. rewrite Forall_forall in Hq'.
      destruct (Hq' a Hin) as [Hnd|(Hid0 & Hcb & Han)].
      { apply Hui; [exact Hnd|]. by apply (PhWaiting C L F _ id0). }
      (* C's debounce timer fires *)
      rewrite Hcb.
      apply (PhStarted C L F _ (next_thread s) AutoAnalysis);
        cbn; unfold _delayed_analysis_start; cbn; rewrite Hcur;
        (destruct (decide (Some C ≠ Some C)) as [Hne|_]; [contradiction|]);
        cbn; try done.
      * apply Forall_forall. intros b Hb.
        apply list_elem_of_filter in Hb as [Hbid Hb].
        destruct (Hq' b Hb) as [Hnd|(Hbid0 & _)]; [exact Hnd|]. congruence.
      * apply lookup_insert_eq.
      * intros tid' th Hl. destruct (decide (tid' = next_thread s)) as [->|Hne].
        -- by left.
        -- right. rewrite lookup_insert_ne in Hl by done. by apply Hns in Hl.
      * by rewrite Hfired.
    + apply Hui; [|by apply (PhStarted C L F _ tid k0)].
      rewrite Forall_forall in Hq. by apply Hq.
    + apply Hui; [|by apply PhPast].
      rewrite Forall_forall in Hq. by apply Hq.
  - (* a started worker reaches the analyzer *)
    cbn [threads set_clock] in Hstep.
    destruct (threads s !! tid') as [[kind|]|] eqn:Hl; try discriminate.
    destruct Hph as [id0 Hq Hns Hcur Hcalls Hfired
                    |tid k0 Hq Hth Hothers Hcur Han Hcalls Hfired
                    |Hq Hns Hcalls Hfired].
    + apply Hns in Hl. destruct Hl.
    + destruct (Hothers _ _ Hl) as [Heq|[]]. subst tid'.
      unfold _auto_ai_analysis_begin in Hstep. cbn in Hstep. rewrite Han, Hcur in Hstep.
      destruct (decide (Some C ≠ Some C)) as [Hne|_]; [contradiction|].
      injection Hstep as <-.
      apply PhPast; cbn; try done.
      * intros tid2 th Hl2. cbn [threads set_threads] in Hl2.
        destruct (decide (tid2 = tid)) as [->|Hne].
        -- rewrite lookup_insert_eq in Hl2. by injection Hl2 as <-.
        -- rewrite lookup_insert_ne in Hl2 by done.
           by destruct (Hothers _ _ Hl2) as [?|?].
      * right. rewrite Hcalls. eauto.
      * by right.
    + apply Hns in Hl. destruct Hl.
  - (* the analyzer call of a worker returns *)
    cbn [threads set_clock] in Hstep.
    destruct (threads s !! tid') as [[|kind tgt ex]|] eqn:Hl; try discriminate.
    rewrite analyze_image_returns in Hstep. injection Hstep as <-.
    match goal with
    | |- last_phase _ _ _ (_auto_ai_analysis_complete ?w ?n ?ts ?s0 ?tg ?e0 ?r) =>
        destruct (analysis_complete_fields w n ts s0 tg e0 r)
          as (_ & H1 & H2 & _ & _ & H5 & H6 & H7 & extra & H8 & H9)
    end.
    cbn [current_image_path analyzing_image_path analyzer_calls threads
         timers_fired tk_after set_clock set_threads] in H1, H2, H5, H6, H7, H8.
    destruct Hph as [id0 Hq Hns Hcur Hcalls Hfired
                    |tid k0 Hq Hth Hothers Hcur Han Hcalls Hfired
                    |Hq Hns Hcalls Hfired].
    + apply (PhWaiting C L F _ id0); unfold no_spawned;
        rewrite ?H1, ?H2, ?H5, ?H6, ?H7, ?H8; try done.
      * apply Forall_app. split; [exact Hq|].
        eapply Forall_impl; [exact H9|]. intros ? ?. by left.
      * by apply map_Forall_delete.
    + apply (PhStarted C L F _ tid k0);
        rewrite ?H1, ?H2, ?H5, ?H6, ?H7, ?H8; try done.
      * apply Forall_app. by split.
      * rewrite lookup_delete_ne; [exact Hth|]. intros ->. congruence.
      * intros tid2 th Hl2. apply lookup_delete_Some in Hl2 as [_ Hl2].
        eauto.
    + apply PhPast; unfold no_spawned;
        rewrite ?H1, ?H2, ?H5, ?H6, ?H7, ?H8; try done.
      * apply Forall_app. by split.
      * by apply map_Forall_delete.
Qed.

Lemma last_phase_run (C : string) (L : list (option string * bool * bool))
    (F : list string) (ks : list tick) :
  ∀ s s', last_phase C L F s → system_only ks → run s ks = Some s' →
          last_phase C L F s'.
Proof.
  induction ks as [|k ks IH]; intros s s' Hph Hsys Hrun; cbn in Hrun.
  - by injection Hrun as <-.
  - apply Forall_cons in Hsys as [Hk Hsys].
    destruct (step s k) as [s1|] eqn:E; [|discriminate].
    eapply IH; [|exact Hsys|exact Hrun].
    eapply last_phase_step; eauto.
Qed.

Lemma armed_last_phase (d t : Z) (C : string) (s : PhotoViewer) :
  armed d t C s → last_phase C (analyzer_calls s) (timers_fired s) s.
Proof.
  intros (Hns & Hq & Hcur).
  destruct (analysis_timer s) as [id0|] eqn:Ht.
  - apply (PhWaiting _ _ _ _ id0); try done.
    eapply Forall_impl; [exact Hq|].
    intros a [Hnd|(Hid & _ & Hcb & Han)]; [by left|right].
    repeat split; congruence.
  - apply PhPast; try done; [|by left|by left].
    eapply Forall_impl; [exact Hq|].
    intros a [Hnd|(Hid & _)]; [exact Hnd|discriminate].
Qed.

Lemma last_phase_logs (C : string) (L : list (option string * bool * bool))
    (F : list string) (s : PhotoViewer) :
  last_phase C L F s →
  (timers_fired s = F ∨ timers_fired s = (F ++ [C])%list)
  ∧ (analyzer_calls s = L
     ∨ ∃ he hl, analyzer_calls s = (L ++ [(Some C, he, hl)])%list).
Proof.
  intros [id0 Hq Hns Hcur Hcalls Hfired
         |tid k0 Hq Hth Hothers Hcur Han Hcalls Hfired
         |Hq Hns Hcalls Hfired]; split; eauto.
Qed.

(** With no worker about to call the analyzer and no debounce timer
    pending, the events that are not commands of the user (display
    callbacks, returns of analyzer calls) make no analyzer call and run no
    debounce callback. *)
Lemma idle_run (s s' : PhotoViewer) (X : string) (sys : list tick) :
  no_spawned s → Forall no_debounce (tk_after s) →
  current_image_path s = Some X →
  system_only sys → run s sys = Some s' →
  analyzer_calls s' = analyzer_calls s ∧ timers_fired s' = timers_fired s.
Proof.
  intros Hns Hq Hcur Hsys Hrun.
  destruct (armed_gap_run 1 (clock s') X sys s s') as (_ & H1 & H2 & _);
    [|exact Hsys| |exact Hrun|by split].
  - split; [exact Hns|]. split; [|exact Hcur].
    eapply Forall_impl; [exact Hq|]. intros a Ha. by left.
  - eapply Forall_impl; [exact (run_times sys s s' Hrun)|].
    intros k Hk. cbn beta in Hk. lia.
Qed.

(** C9, as the code has it: a failed analysis is cached like a successful
    one.  When the analyzer call fails, [analyze_image] returns the error
    result instead of raising; if the target is still current and its
    fingerprint can be computed ([os.stat] succeeds, the text hashed has a
    UTF-8 encoding), the scheduler stores that result, so that the lookup
    returns it.  A later selection of the same file, with the same stat
    fields and the entry still in the map, shows the error result from the
    cache, arms no timer, starts no thread and makes no analyzer call.  When
    the viewer is settled at that selection (no worker started earlier is
    still short of reading its target), no analyzer call is made and no
    debounce callback runs until the next command of the user. *)
Theorem failed_analysis_is_cached
    (s : PhotoViewer) (k : tick) (tid : nat) (kind : thread_kind)
    (p : string) (exif : option (list (string * pyval))) (e : exn)
    (st : stat_result) :
  ev k = EvThreadReturn tid (Raise e) →
  threads s !! tid = Some (InAnalyzer kind (Some p) exif) →
  current_image_path s = Some p →
  fs (env k) !! p = Some st →
  utf8 (hash_input p st) = true →
  (clock s ≤ at_ms k)%Z →
  analyze_image (Raise e) = Ret (error_result e)
  ∧ py_get (error_result e) "error" = Ret (PStr (exn_str e))
  ∧ ∃ s1, step s k = Some s1
      ∧ get_cached_result (fs (env k)) (cache_manager s1) p = Ret (error_result e)
      ∧ ∀ (s2 : PhotoViewer) (k2 : tick) (exif2 : option (list (string * pyval))),
          ev k2 = EvSelect p →
          fs (env k2) !! p = Some st →
          images (env k2) !! p = Some exif2 →
          memory_cache (cache_manager s2) !! MD5.hexdigest (hash_input p st)
            = memory_cache (cache_manager s1) !! MD5.hexdigest (hash_input p st) →
          has_api_key s2 && ai_analyzer s2 = true →
          negb (has_exif_of exif2) || negb (has_location_of exif2) = true →
          (clock s2 ≤ at_ms k2)%Z →
          ∃ s3, step s2 k2 = Some s3
            ∧ analysis_timer s3 = None
            ∧ tk_after s3 = tk_after (_cancel_analysis_timer s2)
            ∧ threads s3 = threads s2
            ∧ analyzer_calls s3 = analyzer_calls s2
            ∧ ui s3 = (ui s2 ++
                       [UiImmediateReset; UiShowImage p;
                        UiResetInfoLabels exif2 (has_exif_of exif2)
                          (has_location_of exif2);
                        UiUpdateInfoLabels (error_result e) exif2;
                        UiStatus StAnalysisDone;
                        UiDisplayAiResults (error_result e);
                        UiStatus StCacheShown; UiStatus (StLoaded p)])%list
            ∧ (settled s2 →
               ∀ (sys : list tick) (s4 : PhotoViewer),
                 system_only sys → run s3 sys = Some s4 →
                 analyzer_calls s4 = analyzer_calls s2
                 ∧ timers_fired s4 = timers_fired s2).
Proof.
  intros Hev Hth Hcur Hst Hu Hclock. split; [reflexivity|]. split; [reflexivity|].
  destruct (save_result_stat (fs (env k)) (at_iso k) (cache_manager s) p
              (error_result e) st Hst Hu) as (cm' & Hsave & Hm).
  assert (Hstep : ∃ s1, step s k = Some s1 ∧ cache_manager s1 = cm').
  { unfold step. rewrite Hev.
    destruct (at_ms k <? clock s)%Z eqn:E; [apply Z.ltb_lt in E; lia|].
    cbn [threads set_clock]. rewrite Hth. rewrite analyze_image_returns.
    unfold _auto_ai_analysis_complete.
    cbn [current_image_path set_threads set_clock cache_manager save_target].
    rewrite Hcur. destruct (decide (Some p = Some p)) as [_|Hne]; [|contradiction].
    rewrite Hsave. eexists. split; [reflexivity|]. reflexivity. }
  destruct Hstep as (s1 & Hstep & Hcm). exists s1. split; [exact Hstep|].
  assert (Hentry : memory_cache (cache_manager s1) !! MD5.hexdigest (hash_input p st)
                   = Some (cache_entry p (error_result e) (at_iso k))).
  { rewrite Hcm, Hm. apply lookup_insert_eq. }
  split.
  - unfold get_cached_result. rewrite (get_file_hash_stat _ _ _ Hst Hu).
    cbn [mbind outcome_bind]. rewrite hexdigest_usable, Hentry. reflexivity.
  - intros s2 k2 exif2 Hev2 Hst2 Himg2 Hkeep Hapi Hneed Hclock2.
    assert (Hget : get_cached_result (fs (env k2))
                     (cache_manager (set_clock (at_ms k2) s2)) p
                   = Ret (error_result e)).
    { unfold get_cached_result. rewrite (get_file_hash_stat _ _ _ Hst2 Hu).
      cbn [mbind outcome_bind cache_manager set_clock].
      rewrite hexdigest_usable, Hkeep, Hentry. reflexivity. }
    unfold step. rewrite Hev2.
    destruct (at_ms k2 <? clock s2)%Z eqn:E; [apply Z.ltb_lt in E; lia|].
    eexists. split; [reflexivity|].
    destruct (cached_selection_immediate (env k2) (at_ms k2)
                (set_clock (at_ms k2) s2) p (error_result e) exif2
                Himg2 Hapi Hneed Hget (error_result_truthy e))
      as (H1 & H2 & _ & H4 & H5 & _ & H7).
    destruct (load_image_fields (env k2) (at_ms k2) (set_clock (at_ms k2) s2) p)
      as (_ & _ & _ & H8 & _ & H9).
    set (s3 := load_image _ _ _ _) in *.
    split; [exact H1|]. split.
    { rewrite H2. unfold _cancel_analysis_timer. cbn [analysis_timer set_clock].
      by destruct (analysis_timer s2). }
    split; [exact H4|]. split; [exact H5|]. split; [exact H7|].
    intros Hs2 sys s4 Hsys Hrun.
    assert (Hs2' : settled (set_clock (at_ms k2) s2)) by exact Hs2.
    destruct (idle_run s3 s4 p sys) as [Hc Hf]; [| |exact H9|exact Hsys|exact Hrun|].
    + unfold no_spawned. rewrite H4. exact (proj1 Hs2).
    + rewrite H2. by apply cancel_timer_settled.
    + by rewrite Hc, Hf, H5, H8.
Qed.

Lemma failed_analysis_is_cached_witness :
  ∃ s1, step analyzing_C (at_time 3000 (EvThreadReturn 0 (Raise timeout_error)))
        = Some s1
      ∧ get_cached_result (fs three_images) (cache_manager s1) "/p/C.jpg"
        = Ret (error_result timeout_error).
Proof.
  destruct (failed_analysis_is_cached analyzing_C
              (at_time 3000 (EvThreadReturn 0 (Raise timeout_error))) 0%nat
              AutoAnalysis "/p/C.jpg" None timeout_error photo_stat)
    as (_ & _ & s1 & H1 & H2 & _).
  - reflexivity.
  - vm_compute. reflexivity.
  - vm_compute. reflexivity.
  - vm_compute. reflexivity.
  - vm_compute. reflexivity.
  - vm_compute. intros H. discriminate H.
  - exists s1. split; [exact H1 | exact H2].
Defined.

(** C9 as stated fails.  For a file whose name is not UTF-8 the failed
    analysis returns while the file is current and nothing is stored: the
    lookup returns [None], and when the user comes back to the file its
    timer is armed again and the analyzer is called a second time.  And
    with the error result of C cached, a worker that Z's timer started and
    that runs only after the user went back to C (a cache hit) calls the
    analyzer for C again; its result replaces the cached one. *)
Lemma failed_analysis_not_always_cached :
  option_map (fun s => (current_image_path s, analyzer_calls s,
                        size (memory_cache (cache_manager s)),
                        get_cached_result (fs latin1_world) (cache_manager s)
                          latin1_name))
    (run fresh_viewer unencodable_failed)
  = Some (Some latin1_name, [(Some latin1_name, false, false)], 0%nat, Ret PNone)
  ∧ option_map analyzer_calls
      (run fresh_viewer (unencodable_failed ++ unencodable_back)%list)
    = Some [(Some latin1_name, false, false); (Some latin1_name, false, false)]
  ∧ option_map (fun s => (analysis_timer s, analyzer_calls s,
                          get_cached_result (fs three_and_Z) (cache_manager s)
                            "/p/C.jpg"))
      (run fresh_viewer (take 9 back_before_worker))
    = Some (None, [(Some "/p/C.jpg", false, false)],
            Ret (error_result timeout_error))
  ∧ option_map (fun s => (analyzer_calls s,
                          get_cached_result (fs three_and_Z) (cache_manager s)
                            "/p/C.jpg"))
      (run fresh_viewer back_before_worker)
    = Some ([(Some "/p/C.jpg", false, false); (Some "/p/C.jpg", false, false)],
            Ret sample_result).
Proof.
  split; [vm_compute; reflexivity|]. split; [vm_compute; reflexivity|].
  split; vm_compute; reflexivity.
Qed.

(** C2 fails on the code.  The user rests on Z until its timer fires, which
    starts a worker; A is selected before that worker has read
    [self.analyzing_image_path], then B and C, each half a second after the
    one before.  The worker finds A both as its target and as the current
    image and calls the analyzer for A, whose timer never ran; C is
    analysed after its timer. *)
Theorem late_worker_analyses_skipped_image :
  option_map (fun s => (threads s, timers_fired s, analyzer_calls s))
    (run fresh_viewer (take 2 flip_before_worker))
  = Some ({[ 0%nat := Spawned AutoAnalysis ]}, ["/p/Z.jpg"], [])
  ∧ option_map (fun s => (timers_fired s, analyzer_calls s))
      (run fresh_viewer flip_before_worker)
    = Some (["/p/Z.jpg"; "/p/C.jpg"],
            [(Some "/p/A.jpg", false, false); (Some "/p/C.jpg", false, false)]).
Proof. split; vm_compute; reflexivity. Qed.

(** X17: debounce from a settled viewer.  Selections of A, B and C, each
    less than the delay after the one before, with any system events in between
    and after.  The viewer starts settled: analyzer calls may be out and
    display callbacks pending, but no worker is about to call the analyzer
    and a pending debounce timer is the one [analysis_timer] names.  Each
    selection cancels the timer armed by the one before, and the new timer
    is not yet due at the next selection: up to the selection of C no
    debounce callback has run and no analyzer call has been made;
    afterwards the debounce callback runs at most once, for C, and the
    analyzer is called at most once, for C. *)
Theorem debounce_only_last
    (s0 s' : PhotoViewer) (A B C : string) (kA kB kC : tick)
    (sys1 sys2 sys3 : list tick) :
  settled s0 →
  ev kA = EvSelect A → ev kB = EvSelect B → ev kC = EvSelect C →
  system_only sys1 → system_only sys2 → system_only sys3 →
  (at_ms kB < at_ms kA + analysis_delay_ms s0)%Z →
  (at_ms kC < at_ms kB + analysis_delay_ms s0)%Z →
  run s0 ([kA] ++ sys1 ++ [kB] ++ sys2 ++ [kC] ++ sys3) = Some s' →
  ∃ s1 s2,
    run s0 ([kA] ++ sys1) = Some s1
    ∧ run s1 ([kB] ++ sys2) = Some s2
    ∧ run s2 ([kC] ++ sys3) = Some s'
    ∧ timers_fired s1 = timers_fired s0 ∧ analyzer_calls s1 = analyzer_calls s0
    ∧ timers_fired s2 = timers_fired s0 ∧ analyzer_calls s2 = analyzer_calls s0
    ∧ (timers_fired s' = timers_fired s0
       ∨ timers_fired s' = (timers_fired s0 ++ [C])%list)
    ∧ (analyzer_calls s' = analyzer_calls s0
       ∨ ∃ he hl, analyzer_calls s'
                  = (analyzer_calls s0 ++ [(Some C, he, hl)])%list).
Proof.
  intros Hs0 HA HB HC Hs1 Hs2 Hs3 HtB HtC Hrun.
  rewrite (app_assoc [kA] sys1), run_app in Hrun.
  destruct (run s0 ([kA] ++ sys1)) as [s1|] eqn:E1; [|discriminate].
  cbn [mbind option_bind] in Hrun.
  rewrite (app_assoc [kB] sys2), run_app in Hrun.
  destruct (run s1 ([kB] ++ sys2)) as [s2|] eqn:E2; [|discriminate].
  cbn [mbind option_bind] in Hrun.
  exists s1, s2. split; [reflexivity|]. split; [exact E2|]. split; [exact Hrun|].
  (* the clock at each later selection *)
  assert (Hc1 : (clock s1 ≤ at_ms kB ≤ clock s2)%Z).
  { cbn [app run] in E2. destruct (step s1 kB) as [x|] eqn:E; [|discriminate].
    apply step_clock in E as [E ?]. apply run_clock in E2. lia. }
  assert (Hc2 : (clock s2 ≤ at_ms kC)%Z).
  { cbn [app run] in Hrun. destruct (step s2 kC) as [x|] eqn:E; [|discriminate].
    by apply step_clock in E as [_ ?]. }
  destruct (rapid_segment s0 s1 kA A sys1 Hs0 HA Hs1 E1) as (Ha1 & L1 & F1 & D1);
    [lia|].
  destruct (rapid_segment s1 s2 kB B sys2 (armed_settled _ _ _ _ Ha1) HB Hs2 E2)
    as (Ha2 & L2 & F2 & D2); [rewrite D1; lia|].
  cbn [app run] in Hrun.
  destruct (step s2 kC) as [sC|] eqn:EC; [|discriminate].
  destruct (rapid_segment s2 sC kC C [] (armed_settled _ _ _ _ Ha2) HC)
    as (Ha3 & L3 & F3 & D3).
  { constructor. }
  { cbn [run]. by rewrite EC. }
  { apply step_clock in EC as [-> _]. rewrite D2, D1. lia. }
  pose proof (last_phase_run C _ _ sys3 sC s' (armed_last_phase _ _ _ _ Ha3)
                Hs3 Hrun) as Hph.
  apply last_phase_logs in Hph. rewrite L3, L2, L1, F3, F2, F1 in Hph.
  destruct Hph as [Hf Hl]. rewrite F2, F1, L2, L1. repeat split; assumption.
Qed.

Lemma debounce_only_last_witness :
  ∃ s1 s2,
    run resting_on_Z ([z_time 3000 (EvSelect "/p/A.jpg")] ++ flip_gap1) = Some s1
    ∧ run s1 ([z_time 3500 (EvSelect "/p/B.jpg")] ++ flip_gap2) = Some s2
    ∧ run s2 ([z_time 4000 (EvSelect "/p/C.jpg")] ++ flip_tail)
      = Some flip_during_Z_end
    ∧ timers_fired s1 = timers_fired resting_on_Z
    ∧ analyzer_calls s1 = analyzer_calls resting_on_Z
    ∧ timers_fired s2 = timers_fired resting_on_Z
    ∧ analyzer_calls s2 = analyzer_calls resting_on_Z
    ∧ (timers_fired flip_during_Z_end = timers_fired resting_on_Z
       ∨ timers_fired flip_during_Z_end
         = (timers_fired resting_on_Z ++ ["/p/C.jpg"])%list)
    ∧ (analyzer_calls flip_during_Z_end = analyzer_calls resting_on_Z
       ∨ ∃ he hl, analyzer_calls flip_during_Z_end
                  = (analyzer_calls resting_on_Z
                     ++ [(Some "/p/C.jpg", he, hl)])%list).
Proof.
  apply (debounce_only_last resting_on_Z flip_during_Z_end
           "/p/A.jpg" "/p/B.jpg" "/p/C.jpg"
           (z_time 3000 (EvSelect "/p/A.jpg"))
           (z_time 3500 (EvSelect "/p/B.jpg"))
           (z_time 4000 (EvSelect "/p/C.jpg"))
           flip_gap1 flip_gap2 flip_tail).
  - unfold settled, no_spawned. apply (bool_decide_unpack _). vm_compute. exact I.
  - reflexivity.
  - reflexivity.
  - reflexivity.
  - repeat constructor.
  - repeat constructor.
  - repeat constructor.
  - vm_compute. reflexivity.
  - vm_compute. reflexivity.
  - vm_compute. reflexivity.
Defined.

(** The run of [rapid_flip]: one timer fires and one analyzer call is made,
    both for C, and the result ends up in the cache. *)
Example rapid_flip_run :
  timers_fired rapid_flip_end = ["/p/C.jpg"]
  ∧ analyzer_calls rapid_flip_end = [(Some "/p/C.jpg", false, false)]
  ∧ get_cached_result (fs three_images) (cache_manager rapid_flip_end) "/p/C.jpg"
    = Ret sample_result.
Proof. repeat split; vm_compute; reflexivity. Qed.

(** The run of [flip_during_Z]: Z's two analyzer calls were made before;
    the flipping adds one timer firing and one call, for C. *)
Example flip_during_Z_run :
  timers_fired flip_during_Z_end = ["/p/Z.jpg"; "/p/C.jpg"]
  ∧ analyzer_calls flip_during_Z_end
    = [(Some "/p/Z.jpg", false, false); (Some "/p/Z.jpg", false, false);
       (Some "/p/C.jpg", false, false)].
Proof. split; vm_compute; reflexivity. Qed.

(** The run of [failed_then_back]: the second selection of C arms no timer
    and the analyzer has been called once. *)
Example failed_then_back_run :
  option_map (fun s => (analysis_timer s, tk_after s, analyzer_calls s,
                        get_cached_result (fs three_images) (cache_manager s)
                          "/p/C.jpg"))
    (run fresh_viewer failed_then_back)
  = Some (None, [], [(Some "/p/C.jpg", false, false)],
          Ret (error_result timeout_error)).
Proof. vm_compute. reflexivity. Qed.

(* ===================================================================== *)
(** * Further properties of the cache                                      *)
(* ===================================================================== *)

(** X1: a second [save_result] for the same path (same stat fields, a
    fingerprint that can be computed) overwrites the first: the lookup
    returns the second result, whatever the first was, and the map has not
    grown. *)
Theorem second_put_wins
    (fs1 fs2 fs3 : gmap string stat_result) (ts1 ts2 : string)
    (cm : CacheManager) (p : string) (r1 r2 : pyval) (st : stat_result) :
  fs1 !! p = Some st → fs2 !! p = Some st → fs3 !! p = Some st →
  utf8 (hash_input p st) = true →
  ∃ cm1 cm2,
    save_result fs1 ts1 cm p r1 = Ret cm1
    ∧ save_result fs2 ts2 cm1 p r2 = Ret cm2
    ∧ get_cached_result fs3 cm2 p = Ret r2
    ∧ size (memory_cache cm2) = size (memory_cache cm1).
Proof.
  intros H1 H2 H3 Hu.
  destruct (save_result_stat fs1 ts1 cm p r1 st H1 Hu) as (cm1 & Hs1 & Hm1).
  destruct (save_result_stat fs2 ts2 cm1 p r2 st H2 Hu) as (cm2 & Hs2 & Hm2).
  exists cm1, cm2. repeat split; [exact Hs1|exact Hs2| |].
  - unfold get_cached_result. rewrite (get_file_hash_stat _ _ _ H3 Hu).
    cbn [mbind outcome_bind]. rewrite hexdigest_usable, Hm2, lookup_insert_eq.
    reflexivity.
  - rewrite Hm2. eapply map_size_insert_Some.
    rewrite Hm1. eexists. apply lookup_insert_eq.
Qed.

Lemma second_put_wins_witness :
  ∃ cm1 cm2,
    save_result two_spellings "2024-01-01T00:00:00" empty_cache "photo.jpg"
      (error_result timeout_error) = Ret cm1
    ∧ save_result two_spellings "2024-01-02T00:00:00" cm1 "photo.jpg"
        sample_result = Ret cm2
    ∧ get_cached_result two_spellings cm2 "photo.jpg" = Ret sample_result
    ∧ size (memory_cache cm2) = size (memory_cache cm1).
Proof.
  apply (second_put_wins two_spellings two_spellings two_spellings _ _ _ _ _ _
           photo_stat); reflexivity.
Defined.

(** X2: [save_result] touches one key only.  Every other fingerprint keeps
    its entry, so the lookup of a path with another fingerprint returns
    what it returned before, and the map never shrinks. *)
Theorem put_keeps_other_entries
    (fs fs' : gmap string stat_result) (ts : string) (cm cm' : CacheManager)
    (p q : string) (r : pyval) :
  save_result fs ts cm p r = Ret cm' →
  _get_file_hash fs' q ≠ _get_file_hash fs p →
  get_cached_result fs' cm' q = get_cached_result fs' cm q
  ∧ (size (memory_cache cm) ≤ size (memory_cache cm'))%nat.
Proof.
  intros Hs Hne. destruct (get_file_hash_returns fs p) as [[hp|] Hp].
  - destruct (get_file_hash_Some _ _ _ Hp) as (st & Hst & Hu & ->).
    destruct (save_result_stat fs ts cm p r st Hst Hu) as (cm2 & Hs2 & Hm).
    rewrite Hs in Hs2. injection Hs2 as <-.
    rewrite Hp in Hne. split.
    + unfold get_cached_result.
      destruct (get_file_hash_returns fs' q) as [h Hh]. rewrite Hh in Hne |- *.
      cbn [mbind outcome_bind]. destruct h as [h|]; [|reflexivity].
      cbn [usable_hash]. destruct (String.eqb h ""); [reflexivity|].
      rewrite Hm, lookup_insert_ne; [reflexivity|]. congruence.
    + rewrite Hm. destruct (memory_cache cm !! MD5.hexdigest (hash_input p st))
        as [e|] eqn:He.
      * rewrite map_size_insert_Some by eauto. lia.
      * rewrite map_size_insert_None by exact He. lia.
  - rewrite (save_result_no_hash fs ts cm p r Hp) in Hs. injection Hs as <-.
    split; [reflexivity|lia].
Qed.

Lemma put_keeps_other_entries_witness :
  get_cached_result two_spellings photo_cached_twice "photo.jpg"
  = get_cached_result two_spellings photo_cached "photo.jpg"
  ∧ (size (memory_cache photo_cached) ≤ size (memory_cache photo_cached_twice))%nat.
Proof.
  apply (put_keeps_other_entries two_spellings two_spellings
           "2024-01-02T00:00:00" photo_cached photo_cached_twice
           "/home/user/photo.jpg" "photo.jpg" (error_result timeout_error)).
  - vm_compute. reflexivity.
  - vm_compute. intros H. discriminate H.
Defined.

Lemma lookup_in_empty_map fs cm p :
  memory_cache cm = ∅ → get_cached_result fs cm p = Ret PNone.
Proof.
  intros Hm. unfold get_cached_result.
  destruct (get_file_hash_returns fs p) as [h ->]. cbn [mbind outcome_bind].
  destruct (usable_hash h); [|reflexivity]. by rewrite Hm, lookup_empty.
Qed.

Lemma restart_loads_file cm data :
  cache_file cm = Some (JsonObject data) →
  ∃ cm', restart cm = Ret cm' ∧ memory_cache cm' = data
         ∧ cache_file cm' = cache_file cm.
Proof.
  intros Hf. unfold restart, __init__, _load_cache. cbn. rewrite Hf. cbn.
  eexists. split; [reflexivity|]. split; [|reflexivity].
  cbn. apply (right_id_L ∅ (∪)).
Qed.


(** ** What the cache can write *)

Lemma utf8_ascii_cons (c : ascii) (s : string) :
  byte_in 0 127 c = true → utf8 (String c s) = utf8 s.
Proof. intros H. cbn [utf8]. by rewrite H. Qed.

Lemma hex_digit_ascii (d : Z) :
  (0 ≤ d < 16)%Z → byte_in 0 127 (MD5.hex_digit d) = true.
Proof.
  intros H.
  assert (Hd : d ∈ [0; 1; 2; 3; 4; 5; 6; 7; 8; 9; 10; 11; 12; 13; 14; 15]%Z).
  { rewrite !elem_of_cons. lia. }
  rewrite !elem_of_cons, elem_of_nil in Hd.
  repeat (destruct Hd as [->|Hd]; [reflexivity|]). destruct Hd.
Qed.

Lemma utf8_hex_byte (b : Z) (rest : string) :
  (0 ≤ b < 256)%Z → utf8 (MD5.hex_byte b rest) = utf8 rest.
Proof.
  intros H. unfold MD5.hex_byte.
  rewrite !utf8_ascii_cons; [reflexivity| |]; apply hex_digit_ascii.
  - apply Z.mod_pos_bound. lia.
  - split; [apply Z.div_pos; lia | apply Z.div_lt_upper_bound; lia].
Qed.

Lemma utf8_hex_word (x : Z) (rest : string) :
  utf8 (MD5.hex_word x rest) = utf8 rest.
Proof.
  unfold MD5.hex_word.
  rewrite !utf8_hex_byte; [reflexivity| | | |]; apply Z.mod_pos_bound; lia.
Qed.

(** A fingerprint is hexadecimal digits. *)
Lemma utf8_hexdigest (s : string) : utf8 (MD5.hexdigest s) = true.
Proof.
  unfold MD5.hexdigest.
  destruct (MD5.digest (MD5.bytes_of_string s)) as [[[a b] c] d].
  by rewrite !utf8_hex_word.
Qed.

(** [basename] cuts after a slash, or nowhere. *)
Lemma basename_from_split (p : string) :
  ∀ (pre cur : string),
    (cur = (pre ++ p)%string ∨ ∃ a, (pre ++ p)%string = (a ++ String "/" cur)%string) →
    basename_from cur p = (pre ++ p)%string
    ∨ ∃ a, (pre ++ p)%string = (a ++ String "/" (basename_from cur p))%string.
Proof.
  assert (Hsnoc : ∀ (x : string) (c : ascii) (y : string),
            (x ++ String c y)%string = ((x ++ String c "") ++ y)%string).
  { induction x as [|c0 x IH]; intros c y; [reflexivity|].
    change (String c0 x ++ ?z)%string with (String c0 (x ++ z)%string).
    by rewrite IH. }
  induction p as [|c p IH]; intros pre cur Hcur; cbn [basename_from].
  - destruct Hcur as [->|Hcur]; [by left|by right].
  - rewrite Hsnoc. destruct (Ascii.eqb c "/") eqn:Ec.
    + apply Ascii.eqb_eq in Ec. subst c. apply IH. right.
      exists pre. by rewrite <- Hsnoc.
    + apply IH. rewrite <- Hsnoc. exact Hcur.
Qed.

Lemma utf8_basename (p : string) : utf8 p = true → utf8 (basename p) = true.
Proof.
  intros Hp. destruct (basename_from_split p "" p) as [H|[a H]]; [by left| |].
  - change ("" ++ p)%string with p in H. unfold basename. by rewrite H.
  - change ("" ++ p)%string with p in H. rewrite H in Hp.
    rewrite utf8_app_ascii in Hp by reflexivity.
    by apply andb_true_iff in Hp as [_ Hp].
Qed.

Lemma json_dumpable_insert (m : gmap string pyval) (h : string) (v : pyval) :
  json_dumpable m = true → utf8 h = true → json_writable v = true →
  json_dumpable (<[h := v]> m) = true.
Proof.
  unfold json_dumpable. rewrite !bool_decide_eq_true. intros Hm Hh Hv.
  by apply map_Forall_insert_2.
Qed.

Lemma save_result_dumpable fs ts cm p r cm' :
  json_dumpable (memory_cache cm) = true →
  json_writable r = true → utf8 ts = true →
  save_result fs ts cm p r = Ret cm' →
  json_dumpable (memory_cache cm') = true.
Proof.
  intros Hm Hr Hts Hs. destruct (get_file_hash_returns fs p) as [[h|] Hh].
  - apply get_file_hash_Some in Hh as (st & Hst & Hu & _).
    destruct (save_result_stat fs ts cm p r st Hst Hu) as (cm2 & Hs2 & Hm2).
    rewrite Hs in Hs2. injection Hs2 as <-. rewrite Hm2.
    rewrite utf8_hash_input in Hu. apply andb_true_iff in Hu as [Hp _].
    apply json_dumpable_insert; [exact Hm | apply utf8_hexdigest |].
    cbn. by rewrite Hp, (utf8_basename p Hp), Hr, Hts.
  - rewrite (save_result_no_hash fs ts cm p r Hh) in Hs. by injection Hs as <-.
Qed.

(** X13: a fingerprint exists exactly for a path that [os.stat] can read
    and that can be encoded, and it is then the digest of the text made of
    path, size and modification time. *)
Theorem fingerprint_exists_iff
    (fs : gmap string stat_result) (p h : string) :
  _get_file_hash fs p = Ret (Some h)
  ↔ ∃ st, fs !! p = Some st ∧ utf8 p = true ∧ utf8 (st_mtime st) = true
          ∧ h = MD5.hexdigest (hash_input p st).
Proof.
  split.
  - intros H. apply get_file_hash_Some in H as (st & Hst & Hu & ->).
    rewrite utf8_hash_input in Hu. apply andb_true_iff in Hu as [Hp Hm].
    by exists st.
  - intros (st & Hst & Hp & Hm & ->). apply get_file_hash_stat; [exact Hst|].
    by rewrite utf8_hash_input, Hp, Hm.
Qed.

(** X14: [save_result] never makes the map unwritable through the path.
    When the map could be dumped before and the result and the timestamp
    can be written, the map can be dumped afterwards, for every path: one
    that cannot be encoded gets no fingerprint and is not stored. *)
Theorem stored_entries_can_be_written
    (fs : gmap string stat_result) (ts : string) (cm cm' : CacheManager)
    (p : string) (r : pyval) :
  json_dumpable (memory_cache cm) = true →
  json_writable r = true → utf8 ts = true →
  save_result fs ts cm p r = Ret cm' →
  json_dumpable (memory_cache cm') = true
  ∧ cache_io (__del__ cm')
    = (cache_io cm' ++ [if cache_file_writable cm'
                        then Dumped (memory_cache cm') else DumpFailed])%list.
Proof.
  intros Hm Hr Hts Hs.
  pose proof (save_result_dumpable fs ts cm p r cm' Hm Hr Hts Hs) as Hd.
  split; [exact Hd|]. unfold __del__.
  destruct (save_cache_io cm') as (Hio & _). by rewrite Hio, Hd.
Qed.

Lemma stored_entries_can_be_written_witness :
  json_dumpable (memory_cache photo_cached) = true
  ∧ cache_io (__del__ photo_cached)
    = (cache_io photo_cached
       ++ [if cache_file_writable photo_cached
           then Dumped (memory_cache photo_cached) else DumpFailed])%list.
Proof.
  apply (stored_entries_can_be_written two_spellings "2024-01-01T00:00:00"
           empty_cache photo_cached "photo.jpg" sample_result).
  - reflexivity.
  - reflexivity.
  - reflexivity.
  - vm_compute. reflexivity.
Defined.

(** X4: what was put survives the end of the session when the destructor
    can write the file and the map: after [save_result] and [__del__], the
    next session's cache holds the same map, and its lookup of the path
    returns the result. *)
Theorem entries_survive_restart
    (fs fs' : gmap string stat_result) (ts : string) (cm : CacheManager)
    (p : string) (r : pyval) (st : stat_result) :
  cache_file_writable cm = true →
  json_dumpable (memory_cache cm) = true →
  json_writable r = true → utf8 ts = true →
  fs !! p = Some st → fs' !! p = Some st →
  utf8 (hash_input p st) = true →
  ∃ cm1 cm2,
    save_result fs ts cm p r = Ret cm1
    ∧ restart (__del__ cm1) = Ret cm2
    ∧ memory_cache cm2 = memory_cache cm1
    ∧ get_cached_result fs' cm2 p = Ret r.
Proof.
  intros Hw Hd Hr Hts Hp Hp' Hu.
  destruct (save_result_flush fs ts cm p r st Hp Hu) as (cm1 & Hs & Hm & Hw1 & _).
  rewrite Hw in Hw1.
  pose proof (save_result_dumpable fs ts cm p r cm1 Hd Hr Hts Hs) as Hd1.
  destruct (restart_loads_file (__del__ cm1) (memory_cache cm1))
    as (cm2 & Hrs & Hm2 & _).
  { unfold __del__. by apply save_cache_io. }
  exists cm1, cm2. repeat split; [exact Hs|exact Hrs|exact Hm2|].
  unfold get_cached_result. rewrite (get_file_hash_stat _ _ _ Hp' Hu).
  cbn [mbind outcome_bind]. rewrite hexdigest_usable, Hm2, Hm, lookup_insert_eq.
  reflexivity.
Qed.

Lemma entries_survive_restart_witness :
  ∃ cm1 cm2,
    save_result two_spellings "2024-01-01T00:00:00" empty_cache "photo.jpg"
      sample_result = Ret cm1
    ∧ restart (__del__ cm1) = Ret cm2
    ∧ memory_cache cm2 = memory_cache cm1
    ∧ get_cached_result two_spellings cm2 "photo.jpg" = Ret sample_result.
Proof.
  apply (entries_survive_restart two_spellings two_spellings _ _ _ _ photo_stat);
    reflexivity.
Defined.

(** X15: one string that cannot be encoded costs the whole file.  When
    the file can be opened and the map holds such a string, [_save_cache]
    (here from [__del__]) leaves the map as it is and the file cut short,
    whatever the file held before: the next session starts with an empty
    cache. *)
Theorem aborted_dump_loses_the_file (cm : CacheManager) :
  cache_file_writable cm = true →
  json_dumpable (memory_cache cm) = false →
  memory_cache (__del__ cm) = memory_cache cm
  ∧ cache_io (__del__ cm) = (cache_io cm ++ [DumpAborted])%list
  ∧ ∃ cm', restart (__del__ cm) = Ret cm' ∧ memory_cache cm' = ∅
           ∧ ∀ (fs : gmap string stat_result) (p : string),
               get_cached_result fs cm' p = Ret PNone.
Proof.
  intros Hw Hd. unfold __del__. split; [apply save_cache_memory|].
  destruct (save_cache_io cm) as (Hio & _). rewrite Hw, Hd in Hio.
  split; [exact Hio|].
  unfold restart, _save_cache. rewrite Hw, Hd. cbn.
  eexists. split; [reflexivity|]. split; [reflexivity|].
  intros fs p. by apply lookup_in_empty_map.
Qed.

Lemma aborted_dump_loses_the_file_witness :
  memory_cache (__del__ spoiled_cache) = memory_cache spoiled_cache
  ∧ cache_io (__del__ spoiled_cache)
    = (cache_io spoiled_cache ++ [DumpAborted])%list
  ∧ ∃ cm', restart (__del__ spoiled_cache) = Ret cm' ∧ memory_cache cm' = ∅
           ∧ ∀ (fs : gmap string stat_result) (p : string),
               get_cached_result fs cm' p = Ret PNone.
Proof.
  apply (aborted_dump_loses_the_file spoiled_cache); vm_compute; reflexivity.
Defined.

(** The file of [spoiled_cache] held ten entries before. *)
Example spoiled_cache_file :
  size (memory_cache spoiled_cache) = 11%nat
  ∧ (cm ← restart spoiled_cache; Ret (size (memory_cache cm))) = Ret 10%nat.
Proof. split; vm_compute; reflexivity. Qed.

(** ** cleanup_old_entries *)

Lemma lookup_fold_delete (ks : list string) :
  ∀ (m : gmap string pyval) (h : string),
    fold_left (fun m key => delete key m) ks m !! h
    = if decide (h ∈ ks) then None else m !! h.
Proof.
  induction ks as [|k ks IH]; intros m h; cbn [fold_left].
  - destruct (decide (h ∈ [])) as [Hin|_]; [|reflexivity].
    by apply elem_of_nil in Hin.
  - rewrite IH. destruct (decide (h ∈ ks)) as [Hin|Hnin].
    + rewrite decide_True; [reflexivity|]. by right.
    + destruct (decide (h = k)) as [->|Hne].
      * rewrite decide_True by left. apply lookup_delete_eq.
      * rewrite decide_False.
        -- by apply lookup_delete_ne.
        -- intros Hin. apply elem_of_cons in Hin as [?|?]; contradiction.
Qed.

Lemma old_keys_spec (fromisoformat : string → option Z) (cutoff : Z)
    (m : gmap string pyval) (h : string) :
  h ∈ (filter (fun kv => is_old fromisoformat cutoff kv.2 = true)
         (map_to_list m)).*1
  ↔ ∃ e, m !! h = Some e ∧ is_old fromisoformat cutoff e = true.
Proof.
  rewrite list_elem_of_fmap. split.
  - intros ([h' e] & -> & Hin). apply list_elem_of_filter in Hin as [Hold Hin].
    apply elem_of_map_to_list in Hin. eauto.
  - intros (e & Hl & Hold). exists (h, e). split; [reflexivity|].
    apply list_elem_of_filter. split; [exact Hold|].
    by apply elem_of_map_to_list.
Qed.

(** X5: [cleanup_old_entries] keeps exactly the entries whose timestamp
    parses and is not before the cutoff, unchanged; entries that are older,
    have no parsable timestamp or are no objects are deleted.  It writes
    the cache file if and only if it deleted something; otherwise it
    leaves the cache as it was. *)
Theorem cleanup_keeps_recent_entries
    (fromisoformat : string → option Z) (cutoff : Z) (cm : CacheManager) :
  (∀ (h : string) (e : pyval),
     memory_cache (cleanup_old_entries fromisoformat cutoff cm) !! h = Some e
     ↔ memory_cache cm !! h = Some e
       ∧ ∃ d, entry_date fromisoformat e = Some d ∧ (cutoff ≤ d)%Z)
  ∧ ((∃ h e, memory_cache cm !! h = Some e
             ∧ is_old fromisoformat cutoff e = true) →
     cache_io (cleanup_old_entries fromisoformat cutoff cm)
     = (cache_io cm
        ++ [if cache_file_writable cm
            then if json_dumpable
                      (memory_cache (cleanup_old_entries fromisoformat cutoff cm))
                 then Dumped (memory_cache
                                (cleanup_old_entries fromisoformat cutoff cm))
                 else DumpAborted
            else DumpFailed])%list)
  ∧ ((∀ h e, memory_cache cm !! h = Some e
             → is_old fromisoformat cutoff e = false) →
     cleanup_old_entries fromisoformat cutoff cm = cm).
Proof.
  assert (Hmem : ∀ cm', memory_cache (_save_cache cm') = memory_cache cm').
  { intros cm'. apply save_cache_memory. }
  assert (Hlook : ∀ h,
    memory_cache (cleanup_old_entries fromisoformat cutoff cm) !! h
    = match memory_cache cm !! h with
      | Some e => if is_old fromisoformat cutoff e then None else Some e
      | None => None
      end).
  { intros h. unfold cleanup_old_entries.
    set (ks := (filter _ (map_to_list (memory_cache cm))).*1).
    assert (Hks : memory_cache
              (match ks with
               | [] => set_memory_cache
                         (fold_left (λ m key, delete key m) ks (memory_cache cm)) cm
               | _ :: _ => _save_cache
                         (set_memory_cache
                            (fold_left (λ m key, delete key m) ks (memory_cache cm)) cm)
               end)
             = fold_left (λ m key, delete key m) ks (memory_cache cm)).
    { destruct ks; [reflexivity|]. by rewrite Hmem. }
    rewrite Hks, lookup_fold_delete.
    destruct (decide (h ∈ ks)) as [Hin|Hnin].
    - apply old_keys_spec in Hin as (e & Hl & Hold). by rewrite Hl, Hold.
    - destruct (memory_cache cm !! h) as [e|] eqn:Hl; [|reflexivity].
      destruct (is_old fromisoformat cutoff e) eqn:Hold; [|reflexivity].
      exfalso. apply Hnin. apply old_keys_spec. eauto. }
  split; [|split].
  - intros h e. rewrite Hlook. split.
    + destruct (memory_cache cm !! h) as [e'|] eqn:Hl; [|discriminate].
      destruct (is_old fromisoformat cutoff e') eqn:Hold; [discriminate|].
      intros [= <-]. split; [reflexivity|].
      unfold is_old in Hold.
      destruct (entry_date fromisoformat e') as [d|]; [|discriminate].
      exists d. split; [reflexivity|]. apply Z.ltb_ge in Hold. exact Hold.
    + intros (Hl & d & Hd & Hle). rewrite Hl. unfold is_old. rewrite Hd.
      destruct (d <? cutoff)%Z eqn:E; [apply Z.ltb_lt in E; lia|reflexivity].
  - intros (h & e & Hl & Hold). unfold cleanup_old_entries.
    set (ks := (filter _ (map_to_list (memory_cache cm))).*1).
    assert (Hin : h ∈ ks) by (apply old_keys_spec; eauto).
    destruct ks as [|k ks']; [by apply elem_of_nil in Hin|].
    rewrite save_cache_memory.
    match goal with
    | |- cache_io (_save_cache ?c) = _ => by destruct (save_cache_io c) as (-> & _)
    end.
  - intros Hnone. unfold cleanup_old_entries.
    set (ks := (filter _ (map_to_list (memory_cache cm))).*1).
    destruct ks as [|k ks'] eqn:Hks.
    + cbn. by destruct cm.
    + exfalso. assert (Hin : k ∈ ks) by (rewrite Hks; left).
      apply old_keys_spec in Hin as (e & Hl & Hold).
      rewrite (Hnone _ _ Hl) in Hold. discriminate.
Qed.

Lemma cleanup_keeps_recent_entries_witness :
  memory_cache (cleanup_old_entries toy_fromisoformat thirty_days_before aged_cache)
  = {[ "h-new" := cache_entry "/p/new.jpg" sample_result "2024-02-05T00:00:00" ]}
  ∧ length (cache_io (cleanup_old_entries toy_fromisoformat thirty_days_before
                        aged_cache)) = 1%nat.
Proof.
  destruct (cleanup_keeps_recent_entries toy_fromisoformat thirty_days_before
              aged_cache) as (_ & Hio & _).
  split; [vm_compute; reflexivity|]. rewrite Hio; [reflexivity|].
  exists "h-old", (cache_entry "/p/old.jpg" sample_result "2024-01-01T00:00:00").
  split; vm_compute; reflexivity.
Defined.

(** ** Every call keeps the entries objects *)

Lemma save_cache_wf cm : cache_wf cm → cache_wf (_save_cache cm).
Proof.
  intros [H1 H2]. unfold cache_wf, entries_are_dicts, _save_cache.
  destruct (cache_file_writable cm) eqn:Hw, (json_dumpable (memory_cache cm));
    cbn; by split.
Qed.

Lemma save_result_wf fs ts cm p r cm' :
  cache_wf cm → save_result fs ts cm p r = Ret cm' → cache_wf cm'.
Proof.
  intros [H1 H2] Hs. unfold save_result in Hs.
  destruct (get_file_hash_returns fs p) as [h Hh]. rewrite Hh in Hs.
  cbn [mbind outcome_bind] in Hs.
  destruct (usable_hash h) as [h'|]; [|injection Hs as <-; by split].
  assert (Hwf1 : cache_wf (set_memory_cache
                 (<[h' := cache_entry p r ts]> (memory_cache cm)) cm)).
  { split; [|exact H2]. unfold entries_are_dicts. cbn.
    apply map_Forall_insert_2; [reflexivity|exact H1]. }
  destruct (_ =? 0)%Z in Hs; injection Hs as <-; [|exact Hwf1].
  by apply save_cache_wf.
Qed.

Lemma after_call_wf fromisoformat cm c :
  cache_wf cm → cache_wf (after_call fromisoformat cm c).
Proof.
  intros Hwf. destruct c as [fs ts p r| |cutoff| |]; cbn [after_call].
  - destruct (save_result fs ts cm p r) as [cm'|e] eqn:Hs; [|exact Hwf].
    eapply save_result_wf; eauto.
  - destruct Hwf as [H1 H2]. unfold clear_cache. cbn.
    destruct (cache_file cm) as [c|] eqn:Hf.
    + destruct (cache_file_writable cm); cbn; split;
        try apply map_Forall_empty; try done.
      cbn. by rewrite Hf.
    + cbn. split; [apply map_Forall_empty|]. cbn. by rewrite Hf.
  - assert (Hsub : cache_wf (set_memory_cache
        (fold_left (λ m key, delete key m)
           (filter (λ kv, is_old fromisoformat cutoff kv.2 = true)
              (map_to_list (memory_cache cm))).*1 (memory_cache cm)) cm)).
    { destruct Hwf as [H1 H2]. split; [|exact H2].
      unfold entries_are_dicts. cbn. intros h e Hl.
      rewrite lookup_fold_delete in Hl.
      destruct (decide _) in Hl; [discriminate|]. by apply H1 in Hl. }
    unfold cleanup_old_entries.
    destruct ((filter _ (map_to_list (memory_cache cm))).*1); [exact Hsub|].
    by apply save_cache_wf.
  - by apply save_cache_wf.
  - destruct Hwf as [H1 H2]. unfold restart, __init__, _load_cache. cbn.
    destruct (cache_file cm) as [[e|data]|] eqn:Hf; cbn; split;
      unfold entries_are_dicts; cbn; rewrite ?Hf; try apply map_Forall_empty;
      try done.
    rewrite (right_id_L ∅ (∪)). exact H2.
Qed.

(** X6: lookup never raises on a cache the program built itself.  Start
    from no cache file, an unreadable one, or one whose entries are
    objects; then after any sequence of [save_result], [clear_cache],
    [cleanup_old_entries], [__del__] and restarts, [get_cached_result]
    returns a value for every path. *)
Theorem lookup_never_raises_on_own_files
    (fromisoformat : string → option Z) (file : option file_content)
    (writable : bool) (cm0 : CacheManager) (cs : list cache_call)
    (fs : gmap string stat_result) (p : string) :
  file_entries_are_dicts file →
  __init__ None file writable = Ret cm0 →
  ∃ v, get_cached_result fs (after_calls fromisoformat cm0 cs) p = Ret v.
Proof.
  intros Hfile Hinit.
  assert (Hwf0 : cache_wf cm0).
  { split; [by eapply init_keeps_dicts|].
    unfold __init__ in Hinit. injection Hinit as <-.
    unfold _load_cache. cbn. by destruct file as [[e|data]|]. }
  assert (Hwf : cache_wf (after_calls fromisoformat cm0 cs)).
  { unfold after_calls. clear Hinit. revert cm0 Hwf0.
    induction cs as [|c cs IH]; intros cm0 Hwf0; [exact Hwf0|].
    cbn [fold_left]. apply IH. by apply after_call_wf. }
  destruct Hwf as [Hd _]. unfold get_cached_result.
  destruct (get_file_hash_returns fs p) as [h ->]. cbn [mbind outcome_bind].
  destruct (usable_hash h) as [h'|]; [|by eexists].
  destruct (memory_cache _ !! h') as [v|] eqn:E; [|by eexists].
  apply Hd in E. destruct v; try discriminate E. by eexists.
Qed.

Lemma lookup_never_raises_on_own_files_witness :
  ∃ v, get_cached_result two_spellings
         (after_calls toy_fromisoformat empty_cache
            [CallSaveResult two_spellings "2024-02-05T00:00:00" "photo.jpg"
               sample_result;
             CallDel; CallRestart; CallCleanup thirty_days_before])
         "photo.jpg" = Ret v.
Proof.
  apply (lookup_never_raises_on_own_files toy_fromisoformat None true).
  - exact I.
  - reflexivity.
Defined.

(* ===================================================================== *)
(** * Further properties of the scheduler                                  *)
(* ===================================================================== *)

Lemma no_debounce_iff (a : after_entry) : no_debounce a ↔ is_debounce a = false.
Proof. unfold no_debounce, is_debounce. destruct (after_cb a); by split. Qed.

Lemma filter_debounce_none (l : list after_entry) :
  Forall no_debounce l → filter (fun a => is_debounce a = true) l = [].
Proof.
  induction 1 as [|a l Ha _ IH]; [reflexivity|].
  rewrite filter_cons, IH. apply no_debounce_iff in Ha.
  rewrite decide_False; [reflexivity|]. congruence.
Qed.

(** What [load_image] leaves in Tk: the queue after the cancellation, and
    after it at most the new timer. *)
Lemma load_image_queue (w : world) (now : Z) (s : PhotoViewer) (X : string) :
  let s' := load_image w now s X in
  (tk_after s' = tk_after (_cancel_analysis_timer s)
   ∧ analysis_timer s' = None
   ∧ next_after_id s' = next_after_id s)
  ∨ (tk_after s' = (tk_after (_cancel_analysis_timer s)
                    ++ [{| after_id := next_after_id s;
                           due := (now + analysis_delay_ms s)%Z;
                           after_cb := CbDelayedAnalysisStart X |}])%list
     ∧ analysis_timer s' = Some (next_after_id s)
     ∧ analyzing_image_path s' = Some X
     ∧ has_api_key s && ai_analyzer s = true).
Proof.
  assert (H : analysis_timer (_cancel_analysis_timer s) = None
              ∧ next_after_id (_cancel_analysis_timer s) = next_after_id s
              ∧ analysis_delay_ms (_cancel_analysis_timer s) = analysis_delay_ms s
              ∧ has_api_key (_cancel_analysis_timer s) = has_api_key s
              ∧ ai_analyzer (_cancel_analysis_timer s) = ai_analyzer s).
  { unfold _cancel_analysis_timer. by destruct (analysis_timer s) eqn:E. }
  destruct H as (H1 & H2 & H3 & H4 & H5).
  rewrite <- H2, <- H3, <- H4, <- H5.
  unfold load_image, _schedule_smart_analysis, _update_info_labels.
  set (s1 := _cancel_analysis_timer s) in *. clearbody s1.
  destruct s1; cbn in *; subst.
  repeat case_match; simplify_eq; cbn; first [by left | by right].
Qed.

Lemma callback_queue (s : PhotoViewer) (id : nat) (cb : callback) :
  let s' := run_callback (root_after_cancel id s) cb in
  tk_after s' = filter (fun a => after_id a ≠ id) (tk_after s)
  ∧ ai_analyzer s' = ai_analyzer s ∧ has_api_key s' = has_api_key s.
Proof.
  destruct cb; cbn; unfold _delayed_analysis_start, _update_info_labels;
    by_fields.
Qed.

Lemma filter_comm_after (P Q : after_entry → Prop)
    `{∀ a, Decision (P a)} `{∀ a, Decision (Q a)} (l : list after_entry) :
  filter P (filter Q l) = filter Q (filter P l).
Proof.
  induction l as [|a l IH]; [reflexivity|].
  rewrite !filter_cons.
  destruct (decide (Q a)) as [HQ|HQ], (decide (P a)) as [HP|HP];
    rewrite ?filter_cons, ?decide_True, ?decide_False by assumption;
    by rewrite IH.
Qed.

Lemma one_timer_kept (s s' : PhotoViewer) (Q : after_entry → Prop)
    `{∀ a, Decision (Q a)} :
  pending_debounce s' = filter Q (pending_debounce s) →
  analysis_timer s' = analysis_timer s →
  current_image_path s' = current_image_path s →
  one_timer s → one_timer s'.
Proof.
  intros Hp Ht Hc [Hlen Hall]. unfold one_timer. rewrite Hp, Ht, Hc. split.
  - etransitivity; [|exact Hlen]. apply sublist_length, sublist_filter.
  - apply Forall_forall. intros a Ha.
    apply list_elem_of_filter in Ha as [_ Ha].
    rewrite Forall_forall in Hall. by apply Hall.
Qed.

Lemma one_timer_same (s s' : PhotoViewer) :
  pending_debounce s' = pending_debounce s →
  analysis_timer s' = analysis_timer s →
  current_image_path s' = current_image_path s →
  one_timer s → one_timer s'.
Proof.
  intros Hp Ht Hc. apply (one_timer_kept s s' (fun _ => True)); try done.
  rewrite Hp. generalize (pending_debounce s). intros l.
  induction l as [|a l IH]; [reflexivity|].
  rewrite filter_cons, decide_True by exact I. by rewrite <- IH.
Qed.

(** A selection first cancels the pending debounce timer. *)
Lemma cancel_clears_debounce (s : PhotoViewer) :
  one_timer s → pending_debounce (_cancel_analysis_timer s) = [].
Proof.
  intros [_ Hall]. rewrite Forall_forall in Hall.
  apply elem_of_nil_inv. intros a Ha.
  unfold pending_debounce, _cancel_analysis_timer in Ha.
  destruct (analysis_timer s) as [id|] eqn:Ht.
  - cbn in Ha. apply list_elem_of_filter in Ha as [Hd Ha].
    apply list_elem_of_filter in Ha as [Hid Ha].
    destruct (Hall a) as (Heq & _).
    { apply list_elem_of_filter. by split. }
    congruence.
  - destruct (Hall a Ha) as (Heq & _). discriminate.
Qed.

Lemma one_timer_step (s s' : PhotoViewer) (k : tick) :
  one_timer s → step s k = Some s' → one_timer s'.
Proof.
  intros Hone Hstep. unfold step in Hstep.
  destruct (at_ms k <? clock s)%Z; [discriminate|].
  assert (Hone0 : one_timer (set_clock (at_ms k) s)) by exact Hone.
  destruct (ev k) as [p| |parsed| |id|tid|tid attempt].
  - injection Hstep as <-.
    pose proof (cancel_clears_debounce _ Hone0) as Hq.
    unfold pending_debounce in Hq.
    destruct (load_image_fields (env k) (at_ms k) (set_clock (at_ms k) s) p)
      as (_ & _ & _ & _ & _ & Hcur).
    destruct (load_image_queue (env k) (at_ms k) (set_clock (at_ms k) s) p)
      as [(Hq' & Ht & _)|(Hq' & Ht & _)];
      unfold one_timer, pending_debounce; rewrite Hq', ?filter_app, Hq, Hcur.
    + split; [cbn; lia|constructor].
    + rewrite filter_cons, decide_True, filter_nil by reflexivity.
      cbn [app length]. split; [lia|].
      apply Forall_singleton. cbn. split; [exact Ht|]. split; [reflexivity|].
      by eexists.
  - injection Hstep as <-. unfold analyze_with_ai.
    destruct (_ || _); [exact Hone0|]. by apply (one_timer_same (set_clock (at_ms k) s)).
  - injection Hstep as <-. destruct parsed;
      by apply (one_timer_same (set_clock (at_ms k) s)).
  - injection Hstep as <-. by apply (one_timer_same (set_clock (at_ms k) s)).
  - destruct (find_after id _) as [a|]; [|discriminate].
    destruct (due a <=? at_ms k)%Z; [|discriminate]. injection Hstep as <-.
    destruct (callback_fields (set_clock (at_ms k) s) id (after_cb a))
      as (_ & H1 & _ & H3 & _).
    destruct (callback_queue (set_clock (at_ms k) s) id (after_cb a))
      as (Hq & _).
    apply (one_timer_kept (set_clock (at_ms k) s) _ (fun a => after_id a ≠ id));
      try done.
    unfold pending_debounce. rewrite Hq. apply filter_comm_after.
  - cbn [threads set_clock] in Hstep.
    destruct (threads s !! tid) as [[kind|]|]; try discriminate.
    unfold _auto_ai_analysis_begin in Hstep.
    destruct (decide _) in Hstep; cbn in Hstep; injection Hstep as <-;
      by apply (one_timer_same (set_clock (at_ms k) s)).
  - cbn [threads set_clock] in Hstep.
    destruct (threads s !! tid) as [[|kind tgt ex]|]; try discriminate.
    rewrite analyze_image_returns in Hstep. injection Hstep as <-.
    match goal with
    | |- one_timer (_auto_ai_analysis_complete ?w ?n ?ts ?s0 ?tg ?e0 ?r) =>
        destruct (analysis_complete_fields w n ts s0 tg e0 r)
          as (_ & H1 & _ & H3 & _ & _ & _ & _ & extra & H8 & H9)
    end.
    apply (one_timer_same (set_clock (at_ms k) s)); try done.
    unfold pending_debounce. rewrite H8, filter_app.
    rewrite (filter_debounce_none extra H9). apply app_nil_r.
Qed.

(** The invariant holds in every state the viewer reaches from its start. *)
Lemma reachable_one_timer
    (api_key analyzer_ok : bool) (cm : CacheManager) (ks : list tick)
    (s : PhotoViewer) :
  run (new_viewer api_key analyzer_ok cm) ks = Some s → one_timer s.
Proof.
  assert (H0 : one_timer (new_viewer api_key analyzer_ok cm)).
  { split; [cbn; lia|constructor]. }
  revert H0. generalize (new_viewer api_key analyzer_ok cm).
  induction ks as [|k ks IH]; intros s0 H0 Hrun; cbn in Hrun.
  - by injection Hrun as <-.
  - destruct (step s0 k) as [s1|] eqn:E; [|discriminate].
    eapply IH; [|exact Hrun]. eapply one_timer_step; eauto.
Qed.

(** X7: at most one debounce timer is armed at any time.  In every state
    the viewer reaches from its start, whatever the user and the system
    do, Tk holds at most one pending debounce callback; it is the one
    [analysis_timer] names, and it is for the current image (so the guard
    of [_delayed_analysis_start] against a stale path never has to
    act). *)
Theorem at_most_one_armed_timer
    (api_key analyzer_ok : bool) (cm : CacheManager) (ks : list tick)
    (s : PhotoViewer) :
  run (new_viewer api_key analyzer_ok cm) ks = Some s →
  (length (pending_debounce s) ≤ 1)%nat
  ∧ ∀ a, a ∈ pending_debounce s →
         analysis_timer s = Some (after_id a)
         ∧ ∃ X, current_image_path s = Some X
                ∧ after_cb a = CbDelayedAnalysisStart X.
Proof.
  intros Hrun.
  destruct (reachable_one_timer _ _ _ _ _ Hrun) as [Hlen Hall].
  split; [exact Hlen|].
  intros a Ha. rewrite Forall_forall in Hall.
  destruct (Hall a Ha) as (Ht & Hcb & [X HX]). split; [exact Ht|].
  exists X. split; [exact HX|]. by rewrite Hcb, HX.
Qed.

Lemma at_most_one_armed_timer_witness :
  (length (pending_debounce superseded_state) ≤ 1)%nat
  ∧ ∀ a, a ∈ pending_debounce superseded_state →
         analysis_timer superseded_state = Some (after_id a)
         ∧ ∃ X, current_image_path superseded_state = Some X
                ∧ after_cb a = CbDelayedAnalysisStart X.
Proof.
  apply (at_most_one_armed_timer true true empty_cache superseded).
  vm_compute. reflexivity.
Defined.

(** X16: in a state the viewer reaches from its start, being settled is
    having no worker that is started and has not yet read its target: the
    other half, that a pending debounce timer is the one [analysis_timer]
    names, always holds. *)
Theorem reachable_settled
    (api_key analyzer_ok : bool) (cm : CacheManager) (ks : list tick)
    (s : PhotoViewer) :
  run (new_viewer api_key analyzer_ok cm) ks = Some s →
  no_spawned s → settled s.
Proof.
  intros Hrun Hns. split; [exact Hns|].
  destruct (reachable_one_timer _ _ _ _ _ Hrun) as [_ Hall].
  rewrite Forall_forall in Hall. apply Forall_forall. intros a Ha.
  destruct (is_debounce a) eqn:Hd.
  - right. apply Hall. apply list_elem_of_filter. by split.
  - left. by apply no_debounce_iff.
Qed.

Lemma reachable_settled_witness : settled rapid_flip_end.
Proof.
  apply (reachable_settled true true empty_cache rapid_flip).
  - vm_compute. reflexivity.
  - apply (bool_decide_unpack _). vm_compute. exact I.
Defined.

(** Without an analyzer object a selection schedules nothing. *)
Lemma load_image_no_analyzer (w : world) (now : Z) (s : PhotoViewer) (X : string) :
  ai_analyzer s = false →
  let s' := load_image w now s X in
  tk_after s' = tk_after (_cancel_analysis_timer s)
  ∧ ai_analyzer s' = false
  ∧ cache_manager s' = cache_manager s.
Proof.
  intros Ha.
  assert (H : ai_analyzer (_cancel_analysis_timer s) = false
              ∧ cache_manager (_cancel_analysis_timer s) = cache_manager s).
  { unfold _cancel_analysis_timer. by destruct (analysis_timer s). }
  destruct H as [H1 H2]. rewrite <- H2.
  unfold load_image.
  set (s1 := _cancel_analysis_timer s) in *. clearbody s1.
  destruct s1; cbn in *; subst. rewrite andb_false_r. by_fields.
Qed.

Lemma dormant_step (s s' : PhotoViewer) (k : tick) :
  dormant s → step s k = Some s' →
  dormant s' ∧ analyzer_calls s' = analyzer_calls s
  ∧ timers_fired s' = timers_fired s
  ∧ (ev k ≠ EvClearCache → cache_manager s' = cache_manager s).
Proof.
  intros (Ha & Hth & Hq) Hstep. unfold step in Hstep.
  destruct (at_ms k <? clock s)%Z; [discriminate|].
  assert (Hfilter : ∀ id, filter (fun a => is_debounce a = true)
                            (filter (fun a => after_id a ≠ id) (tk_after s)) = []).
  { intros id. rewrite filter_comm_after. unfold pending_debounce in Hq.
    by rewrite Hq. }
  destruct (ev k) as [p| |parsed| |id|tid|tid attempt].
  - injection Hstep as <-.
    destruct (load_image_fields (env k) (at_ms k) (set_clock (at_ms k) s) p)
      as (H1 & _ & H3 & H4 & _).
    destruct (load_image_no_analyzer (env k) (at_ms k) (set_clock (at_ms k) s) p Ha)
      as (H5 & H6 & H7).
    assert (F3 : pending_debounce
                   (load_image (env k) (at_ms k) (set_clock (at_ms k) s) p) = []).
    { unfold pending_debounce. rewrite H5. unfold _cancel_analysis_timer.
      cbn [analysis_timer set_clock].
      destruct (analysis_timer s); cbn; [apply Hfilter|exact Hq]. }
    refine (conj (conj H6 (conj _ F3)) (conj H3 (conj H4 (fun _ => H7)))).
    rewrite H1. exact Hth.
  - injection Hstep as <-. unfold analyze_with_ai. cbn [ai_analyzer set_clock].
    rewrite Ha, orb_true_r.
    exact (conj (conj Ha (conj Hth Hq)) (conj eq_refl (conj eq_refl (fun _ => eq_refl)))).
  - injection Hstep as <-. destruct parsed;
      exact (conj (conj Ha (conj Hth Hq)) (conj eq_refl (conj eq_refl (fun _ => eq_refl)))).
  - injection Hstep as <-.
    refine (conj (conj Ha (conj Hth Hq)) (conj eq_refl (conj eq_refl _))).
    intros Hne. contradiction.
  - cbn [tk_after set_clock] in Hstep.
    destruct (find_after id (tk_after s)) as [a|] eqn:Hfind; [|discriminate].
    destruct (due a <=? at_ms k)%Z; [|discriminate]. injection Hstep as <-.
    apply find_some in Hfind as [Hin _]. apply list_elem_of_In in Hin.
    assert (Hnd : no_debounce a).
    { apply no_debounce_iff. destruct (is_debounce a) eqn:Hd; [|reflexivity].
      exfalso. unfold pending_debounce in Hq.
      eapply (filter_nil_not_elem_of _ _ a Hq); eauto. }
    destruct (callback_fields (set_clock (at_ms k) s) id (after_cb a))
      as (_ & _ & _ & _ & _ & H5 & H6).
    destruct (H6 Hnd) as (H7 & H8 & H9).
    destruct (callback_queue (set_clock (at_ms k) s) id (after_cb a))
      as (_ & H10 & _).
    assert (F3 : pending_debounce
                   (run_callback (root_after_cancel id (set_clock (at_ms k) s))
                      (after_cb a)) = []).
    { unfold pending_debounce. rewrite H9. apply Hfilter. }
    assert (F6 : cache_manager
                   (run_callback (root_after_cancel id (set_clock (at_ms k) s))
                      (after_cb a)) = cache_manager s).
    { unfold no_debounce in Hnd. destruct (after_cb a); try done; cbn;
        unfold _update_info_labels; by case_match. }
    refine (conj (conj _ (conj _ F3)) (conj H5 (conj H8 (fun _ => F6)))).
    + rewrite H10. exact Ha.
    + rewrite H7. exact Hth.
  - cbn [threads set_clock] in Hstep. by rewrite Hth, lookup_empty in Hstep.
  - cbn [threads set_clock] in Hstep. by rewrite Hth, lookup_empty in Hstep.
Qed.

(** X8: without an analyzer nothing is ever analysed.  A viewer started
    without an API key, or whose analyzer could not be built, makes no
    analyzer call, runs no debounce callback and starts no worker, whatever
    sequence of selections, button presses and other events follows; and
    it writes nothing to the cache. *)
Theorem no_analyzer_no_calls
    (api_key analyzer_ok : bool) (cm : CacheManager) (ks : list tick)
    (s : PhotoViewer) :
  api_key && analyzer_ok = false →
  run (new_viewer api_key analyzer_ok cm) ks = Some s →
  analyzer_calls s = [] ∧ timers_fired s = [] ∧ threads s = ∅
  ∧ pending_debounce s = []
  ∧ (Forall (fun k => ev k ≠ EvClearCache) ks → cache_manager s = cm).
Proof.
  intros Hno Hrun.
  assert (H0 : dormant (new_viewer api_key analyzer_ok cm)).
  { unfold dormant, new_viewer. cbn. by rewrite Hno. }
  assert (Hgen : ∀ ks s0 s, dormant s0 → run s0 ks = Some s →
            dormant s ∧ analyzer_calls s = analyzer_calls s0
            ∧ timers_fired s = timers_fired s0
            ∧ (Forall (fun k => ev k ≠ EvClearCache) ks →
               cache_manager s = cache_manager s0)).
  { clear. induction ks as [|k ks IH]; intros s0 s Hd Hrun; cbn in Hrun.
    - injection Hrun as <-.
      exact (conj Hd (conj eq_refl (conj eq_refl (fun _ => eq_refl)))).
    - destruct (step s0 k) as [s1|] eqn:E; [|discriminate].
      destruct (dormant_step s0 s1 k Hd E) as (Hd1 & H1 & H2 & H3).
      destruct (IH s1 s Hd1 Hrun) as (Hd' & H1' & H2' & H3').
      split; [exact Hd'|]. split; [congruence|]. split; [congruence|].
      intros Hall. apply Forall_cons in Hall as [Hk Hall].
      rewrite (H3' Hall). by apply H3. }
  destruct (Hgen ks _ s H0 Hrun) as ((_ & Hth & Hq) & H1 & H2 & H3).
  split; [exact H1|]. split; [exact H2|]. split; [exact Hth|].
  split; [exact Hq|exact H3].
Qed.

Lemma no_analyzer_no_calls_witness :
  analyzer_calls keyless_end = [] ∧ timers_fired keyless_end = []
  ∧ threads keyless_end = ∅ ∧ pending_debounce keyless_end = []
  ∧ (Forall (fun k => ev k ≠ EvClearCache) keyless_session →
     cache_manager keyless_end = empty_cache).
Proof.
  apply (no_analyzer_no_calls false true empty_cache keyless_session).
  - reflexivity.
  - vm_compute. reflexivity.
Defined.

(** X9: an image that carries both camera settings and GPS data needs no
    analysis.  Selecting it cancels the pending timer and then neither
    consults the cache nor arms a timer nor starts a worker, API key or
    not; [analyzing_image_path] is left at [None]. *)
Theorem embedded_metadata_skips_analysis
    (w : world) (now : Z) (s : PhotoViewer) (p : string)
    (exif : option (list (string * pyval))) :
  images w !! p = Some exif →
  has_exif_of exif = true → has_location_of exif = true →
  let s' := load_image w now s p in
  current_image_path s' = Some p
  ∧ analyzing_image_path s' = None
  ∧ analysis_timer s' = None
  ∧ tk_after s' = tk_after (_cancel_analysis_timer s)
  ∧ threads s' = threads s
  ∧ analyzer_calls s' = analyzer_calls s
  ∧ cache_manager s' = cache_manager s.
Proof.
  intros Himg He Hl.
  assert (H : analysis_timer (_cancel_analysis_timer s) = None
              ∧ threads (_cancel_analysis_timer s) = threads s
              ∧ analyzer_calls (_cancel_analysis_timer s) = analyzer_calls s
              ∧ cache_manager (_cancel_analysis_timer s) = cache_manager s).
  { unfold _cancel_analysis_timer. by destruct (analysis_timer s) eqn:E. }
  destruct H as (H1 & H2 & H3 & H4). rewrite <- H2, <- H3, <- H4.
  unfold load_image. rewrite Himg, He, Hl.
  set (s1 := _cancel_analysis_timer s) in *. clearbody s1.
  destruct s1; cbn in *; subst. by_fields.
Qed.

Lemma embedded_metadata_skips_analysis_witness :
  let s' := load_image tagged_world 7000 superseded_state "/p/T.jpg" in
  current_image_path s' = Some "/p/T.jpg"
  ∧ analyzing_image_path s' = None
  ∧ analysis_timer s' = None
  ∧ tk_after s' = tk_after (_cancel_analysis_timer superseded_state)
  ∧ threads s' = threads superseded_state
  ∧ analyzer_calls s' = analyzer_calls superseded_state
  ∧ cache_manager s' = cache_manager superseded_state.
Proof.
  apply (embedded_metadata_skips_analysis tagged_world 7000 superseded_state
           "/p/T.jpg" (Some [("ExposureTime", PStr "1/125"); ("GPSInfo", PDict [])]));
    reflexivity.
Defined.

(** X10: a selection that needs analysis and finds nothing usable in the
    cache arms exactly one timer: the queue after the cancellation gets one
    new entry, for this path, due one delay from now, and [analysis_timer]
    names it; no worker is started and no analyzer call made yet.  Nothing
    usable means the lookup returned [None] or a value that is false in a
    condition, such as an empty object that was stored as a result. *)
Theorem cache_miss_arms_timer
    (w : world) (now : Z) (s : PhotoViewer) (p : string) (r : pyval)
    (exif : option (list (string * pyval))) :
  images w !! p = Some exif →
  has_api_key s && ai_analyzer s = true →
  negb (has_exif_of exif) || negb (has_location_of exif) = true →
  get_cached_result (fs w) (cache_manager s) p = Ret r →
  truthy r = false →
  let s' := load_image w now s p in
  tk_after s' = (tk_after (_cancel_analysis_timer s)
                 ++ [{| after_id := next_after_id s;
                        due := (now + analysis_delay_ms s)%Z;
                        after_cb := CbDelayedAnalysisStart p |}])%list
  ∧ analysis_timer s' = Some (next_after_id s)
  ∧ analyzing_image_path s' = Some p
  ∧ threads s' = threads s
  ∧ analyzer_calls s' = analyzer_calls s.
Proof.
  intros Himg Hapi Hneed Hget Hfalse.
  assert (H : has_api_key (_cancel_analysis_timer s) = has_api_key s
              ∧ ai_analyzer (_cancel_analysis_timer s) = ai_analyzer s
              ∧ next_after_id (_cancel_analysis_timer s) = next_after_id s
              ∧ analysis_delay_ms (_cancel_analysis_timer s) = analysis_delay_ms s
              ∧ threads (_cancel_analysis_timer s) = threads s
              ∧ analyzer_calls (_cancel_analysis_timer s) = analyzer_calls s
              ∧ cache_manager (_cancel_analysis_timer s) = cache_manager s).
  { unfold _cancel_analysis_timer. by destruct (analysis_timer s) eqn:E. }
  destruct H as (H1 & H2 & H3 & H4 & H5 & H6 & H7).
  rewrite <- H1, <- H2 in Hapi. rewrite <- H7 in Hget.
  rewrite <- H3, <- H4, <- H5, <- H6.
  unfold load_image, _schedule_smart_analysis. rewrite Himg.
  set (s1 := _cancel_analysis_timer s) in *. clearbody s1.
  destruct s1; cbn in *; subst. rewrite Hapi, Hneed, Hget, Hfalse.
  cbn. repeat split.
Qed.

Lemma cache_miss_arms_timer_witness :
  let s' := load_image three_images 0 fresh_viewer "/p/A.jpg" in
  tk_after s' = [{| after_id := 0; due := 2000;
                    after_cb := CbDelayedAnalysisStart "/p/A.jpg" |}]
  ∧ analysis_timer s' = Some 0%nat
  ∧ analyzing_image_path s' = Some "/p/A.jpg"
  ∧ threads s' = threads fresh_viewer
  ∧ analyzer_calls s' = analyzer_calls fresh_viewer.
Proof.
  apply (cache_miss_arms_timer three_images 0 fresh_viewer "/p/A.jpg" PNone None);
    reflexivity.
Defined.

(** The run of [empty_answer]: the empty object is in the cache, and the
    second selection of C arms a timer again. *)
Example empty_answer_run :
  option_map (fun s => (get_cached_result (fs three_images) (cache_manager s)
                          "/p/C.jpg",
                        map after_cb (pending_debounce s)))
    (run fresh_viewer empty_answer)
  = Some (Ret (PDict []), [CbDelayedAnalysisStart "/p/C.jpg"]).
Proof. vm_compute. reflexivity. Qed.

(** X11: changing the delay leaves a timer that is already armed as it
    is, and the next selection is timed with the new delay: if it arms a
    timer, that timer is due one new delay after the selection.  A value
    that does not parse sets the delay back to two seconds. *)
Theorem update_delay_applies_to_next_timer
    (s s1 s2 : PhotoViewer) (kU kS : tick) (parsed : option Z) (X : string) :
  ev kU = EvUpdateDelay parsed → ev kS = EvSelect X →
  step s kU = Some s1 → step s1 kS = Some s2 →
  tk_after s1 = tk_after s
  ∧ analysis_timer s1 = analysis_timer s
  ∧ analysis_delay_ms s1 = default 2000%Z parsed
  ∧ (tk_after s2 = tk_after (_cancel_analysis_timer s1)
     ∨ tk_after s2
       = (tk_after (_cancel_analysis_timer s1)
          ++ [{| after_id := next_after_id s1;
                 due := (at_ms kS + default 2000%Z parsed)%Z;
                 after_cb := CbDelayedAnalysisStart X |}])%list).
Proof.
  intros HU HS H1 H2. unfold step in H1, H2. rewrite HU in H1. rewrite HS in H2.
  destruct (at_ms kU <? clock s)%Z; [discriminate|]. injection H1 as <-.
  destruct (at_ms kS <? _)%Z; [discriminate|]. injection H2 as <-.
  set (s1 := _update_delay (set_clock (at_ms kU) s) parsed).
  assert (Hd : analysis_delay_ms s1 = default 2000%Z parsed)
    by (subst s1; by destruct parsed).
  split; [subst s1; by destruct parsed|].
  split; [subst s1; by destruct parsed|].
  split; [exact Hd|].
  assert (Hc : tk_after (_cancel_analysis_timer (set_clock (at_ms kS) s1))
               = tk_after (_cancel_analysis_timer s1)).
  { unfold _cancel_analysis_timer. cbn [analysis_timer set_clock].
    by destruct (analysis_timer s1). }
  destruct (load_image_queue (env kS) (at_ms kS) (set_clock (at_ms kS) s1) X)
    as [(Hq & _)|(Hq & _)]; rewrite Hc in Hq.
  - by left.
  - right. rewrite Hq. cbn [next_after_id analysis_delay_ms set_clock].
    by rewrite Hd.
Qed.

Lemma update_delay_applies_to_next_timer_witness :
  tk_after delay_changed = tk_after superseded_state
  ∧ analysis_timer delay_changed = analysis_timer superseded_state
  ∧ analysis_delay_ms delay_changed = default 2000%Z (Some 500%Z)
  ∧ (tk_after selected_after_change
     = tk_after (_cancel_analysis_timer delay_changed)
     ∨ tk_after selected_after_change
       = (tk_after (_cancel_analysis_timer delay_changed)
          ++ [{| after_id := next_after_id delay_changed;
                 due := (at_ms (at_time 2700 (EvSelect "/p/C.jpg"))
                         + default 2000%Z (Some 500%Z))%Z;
                 after_cb := CbDelayedAnalysisStart "/p/C.jpg" |}])%list).
Proof.
  apply (update_delay_applies_to_next_timer superseded_state delay_changed
           selected_after_change
           (at_time 2600 (EvUpdateDelay (Some 500%Z)))
           (at_time 2700 (EvSelect "/p/C.jpg")) (Some 500%Z) "/p/C.jpg").
  - reflexivity.
  - reflexivity.
  - vm_compute. reflexivity.
  - vm_compute. reflexivity.
Defined.

(** The timer armed after the change is due half a second after the
    selection. *)
Example delay_changed_run :
  map due (pending_debounce selected_after_change) = [3200%Z].
Proof. vm_compute. reflexivity. Qed.


(** X12: the manual re-run bypasses cache and debounce and leaves the
    debounce timer alone.  With an image on display and an analyzer
    present, [analyze_with_ai] starts a worker at once, without looking
    into the cache and without cancelling or re-arming anything in Tk;
    when that worker runs with the selection unchanged, it calls the
    analyzer for the current image.  A debounce timer that was pending
    stays pending, and will start another analysis when it fires. *)
Theorem manual_rerun_calls_analyzer
    (s : PhotoViewer) (k1 k2 : tick) (p : string) :
  current_image_path s = Some p → p ≠ "" → ai_analyzer s = true →
  ev k1 = EvAnalyzeButton → ev k2 = EvThreadRun (next_thread s) →
  (clock s ≤ at_ms k1 ≤ at_ms k2)%Z →
  ∃ s1 s2,
    step s k1 = Some s1 ∧ step s1 k2 = Some s2
    ∧ threads s1 !! next_thread s = Some (Spawned ForceAnalysis)
    ∧ analyzer_calls s1 = analyzer_calls s
    ∧ analyzer_calls s2
      = (analyzer_calls s
         ++ [(Some p, has_exif_of (read_exif (env k2) (Some p)),
              has_location_of (read_exif (env k2) (Some p)))])%list
    ∧ threads s2 !! next_thread s
      = Some (InAnalyzer ForceAnalysis (Some p) (read_exif (env k2) (Some p)))
    ∧ tk_after s2 = tk_after s
    ∧ analysis_timer s2 = analysis_timer s
    ∧ cache_manager s2 = cache_manager s.
Proof.
  intros Hcur Hp Ha Hk1 Hk2 Hclock.
  assert (Hnc : no_current (set_clock (at_ms k1) s) = false).
  { unfold no_current. cbn. rewrite Hcur. by apply String.eqb_neq. }
  eexists. eexists. split.
  { unfold step. rewrite Hk1.
    destruct (at_ms k1 <? clock s)%Z eqn:E; [apply Z.ltb_lt in E; lia|].
    unfold analyze_with_ai. cbn [ai_analyzer set_clock]. rewrite Hnc, Ha.
    reflexivity. }
  split.
  { unfold step. rewrite Hk2. cbn.
    destruct (at_ms k2 <? at_ms k1)%Z eqn:E; [apply Z.ltb_lt in E; lia|].
    rewrite lookup_insert_eq. unfold _auto_ai_analysis_begin. cbn.
    rewrite Hcur. destruct (decide (Some p ≠ Some p)) as [Hne|_]; [contradiction|].
    reflexivity. }
  cbn. repeat split; apply lookup_insert_eq.
Qed.

Lemma manual_rerun_calls_analyzer_witness :
  ∃ s1 s2,
    step rapid_flip_end (at_time 9000 EvAnalyzeButton) = Some s1
    ∧ step s1 (at_time 9001 (EvThreadRun 1)) = Some s2
    ∧ analyzer_calls s2
      = (analyzer_calls rapid_flip_end ++ [(Some "/p/C.jpg", false, false)])%list
    ∧ cache_manager s2 = cache_manager rapid_flip_end.
Proof.
  destruct (manual_rerun_calls_analyzer rapid_flip_end
              (at_time 9000 EvAnalyzeButton) (at_time 9001 (EvThreadRun 1))
              "/p/C.jpg")
    as (s1 & s2 & H1 & H2 & _ & _ & H5 & _ & _ & _ & H9).
  - vm_compute. reflexivity.
  - discriminate.
  - reflexivity.
  - reflexivity.
  - vm_compute. reflexivity.
  - vm_compute. split; intros H; discriminate H.
  - exists s1, s2. repeat split; assumption.
Defined.

(** The run of [manual_then_timer]: the manual analysis of A does not stop
    A's timer, so the analyzer is called twice for A. *)
Example manual_then_timer_run :
  option_map analyzer_calls (run fresh_viewer manual_then_timer)
  = Some [(Some "/p/A.jpg", false, false); (Some "/p/A.jpg", false, false)].
Proof. vm_compute. reflexivity. Qed.

Lemma superseded_selection_discards_witness :
  ∃ s', step C_superseded (at_time 2700 (EvThreadReturn 0 (Ret sample_result)))
        = Some s'
        ∧ cache_manager s' = cache_manager C_superseded
        ∧ ui s' = ui C_superseded
        ∧ tk_after s' = tk_after C_superseded.
Proof.
  apply (superseded_selection_discards analyzing_C C_superseded
           (at_time 2500 (EvSelect "/p/B.jpg"))
           (at_time 2700 (EvThreadReturn 0 (Ret sample_result))) 0%nat
           (Ret sample_result) AutoAnalysis "/p/C.jpg" "/p/B.jpg" None).
  - vm_compute. reflexivity.
  - reflexivity.
  - discriminate.
  - vm_compute. reflexivity.
  - reflexivity.
  - vm_compute. intros H. discriminate H.
Defined.
